(** * BatchReactor: a shallow embedding of [batch_reactor.cc]

    The facility of [src/Models/BatchReactor/batch_reactor.cc] is embedded
    as pure functions over an explicit facility state.  Quantities, which
    the C++ code holds in [double]s, are exact rationals here: rounding is
    not modelled.  C++ [int]s are integers of [Z]; overflow of [int]
    arithmetic (undefined in C++) is not modelled.

    The cyclus toolkit pieces the file calls (materials, resource buffers,
    the query engine, [lexical_cast]) are not part of the repository; they
    are modelled from their contracts in the specification, in the modules
    [Material], [ResourceBuff] and [Query] below. *)

From Stdlib Require Import ZArith QArith Qround Lqa Lia List String Ascii Bool.
Import ListNotations.

(** ** Outcomes of fallible code *)

Inductive Error : Type :=
| EmptyBufferError          (* pop on an empty buffer *)
| InsufficientQuantityError (* pop-by-quantity of more than is held *)
| ValueError                (* extract of more than the material holds *)
| OutOfRange                (* std::vector::at / std::map::at *)
| UndefinedAccess           (* std::vector::operator[] past the end *)
| KeyError                  (* query of an element that is not there *)
| BadLexicalCast.           (* boost::bad_lexical_cast *)

Inductive result (A : Type) : Type :=
| Ok (a : A)
| Throw (e : Error)
| OutOfFuel.

Arguments Ok {A} a.
Arguments Throw {A} e.
Arguments OutOfFuel {A}.

Definition Qltb (x y : Q) : bool := negb (Qle_bool y x).

(** ** cyclus::Material *)

Definition Composition : Type := string.

Module Material.

Record Material : Type := mk { quantity : Q; comp : Composition }.

(** Modelled from the spec: [absorb(other)] merges [other] into the
    receiver; the receiver keeps its composition tag. *)
Definition Absorb (m other : Material) : Material :=
  mk (quantity m + quantity other) (comp m).

(** Modelled from the spec: [extract(amount)] splits [amount] off and
    fails if [amount > quantity()].  Returns the piece split off and what
    is left of the receiver, in that order. *)
Definition Extract (m : Material) (amount : Q)
  : result (Material * Material) :=
  if Qltb (quantity m) amount then Throw ValueError
  else Ok (mk amount (comp m), mk (quantity m - amount) (comp m)).

(** Modelled from the spec: [transmute(new_recipe)] replaces the
    composition tag in place and preserves the quantity. *)
Definition Transmute (m : Material) (c : Composition) : Material :=
  mk (quantity m) c.

End Material.

Abbreviation Material := Material.Material.

(** ** cyclus::ResourceBuff

    A buffer is the list of its batches, front first.  The three buffers of
    the facility have capacity [kBuffInfinity], so [Push] never fails. *)

Module ResourceBuff.

Definition ResourceBuff : Type := list Material.

(** Modelled from the spec: [quantity()] is the sum of the contained
    batch quantities. *)
Fixpoint quantity (b : ResourceBuff) : Q :=
  match b with
  | [] => 0
  | m :: rest => Material.quantity m + quantity rest
  end.

Definition count (b : ResourceBuff) : Z := Z.of_nat (List.length b).

(** Modelled from the spec: [push(batch)] appends and never fails. *)
Definition Push (m : Material) (b : ResourceBuff) : ResourceBuff :=
  b ++ [m].

(** Modelled from the spec: [pop()] removes and returns the first batch
    in insertion order, and fails with [EmptyBufferError] if empty. *)
Definition Pop (b : ResourceBuff) : result (Material * ResourceBuff) :=
  match b with
  | [] => Throw EmptyBufferError
  | m :: rest => Ok (m, rest)
  end.

(** Modelled from the spec: [pop_back()] is [pop()] from the tail. *)
Definition PopBack (b : ResourceBuff) : result (Material * ResourceBuff) :=
  match rev b with
  | [] => Throw EmptyBufferError
  | m :: tser => Ok (m, rev tser)
  end.

(** Modelled from the spec: the loop of [pop_quantity].  Batches leave from
    the front until [left] has been removed; a batch larger than what is
    still to remove is split as [Extract] would. *)
Fixpoint PopQty_loop (left : Q) (b : ResourceBuff)
  : list Material * ResourceBuff :=
  if Qltb 0 left then
    match b with
    | [] => ([], [])
    | m :: rest =>
        if Qltb left (Material.quantity m) then
          ([Material.mk left (Material.comp m)],
           Material.mk (Material.quantity m - left) (Material.comp m)
             :: rest)
        else
          let '(ms, rest') :=
            PopQty_loop (left - Material.quantity m) rest in
          (m :: ms, rest')
    end
  else ([], b).

(** Modelled from the spec: [pop_quantity(amount)] removes batches
    (splitting the last one if needed) until exactly [amount] has been
    removed, and fails with [InsufficientQuantityError] if
    [amount > quantity()]. *)
Definition PopQty (amount : Q) (b : ResourceBuff)
  : result (list Material * ResourceBuff) :=
  if Qltb (quantity b) amount then Throw InsufficientQuantityError
  else Ok (PopQty_loop amount b).

End ResourceBuff.

Abbreviation ResourceBuff := ResourceBuff.ResourceBuff.

(** ** Exchange descriptors *)

Record Request : Type := mkRequest {
  target : Material;
  req_commodity : string;
  requester : string
}.

Record Bid : Type := mkBid {
  bid_request : Request;
  offer : Material;
  bidder : string
}.

Record Trade : Type := mkTrade {
  trade_request : Request;
  trade_bid : Bid;
  amt : Q
}.

Record RequestPortfolio : Type := mkRequestPortfolio {
  requests : list Request;
  request_constraints : list Q
}.

Record BidPortfolio : Type := mkBidPortfolio {
  bids : list Bid;
  bid_constraints : list Q
}.

Definition AddBid (b : Bid) (p : BidPortfolio) : BidPortfolio :=
  mkBidPortfolio (bids p ++ [b]) (bid_constraints p).

Definition AddConstraint (c : Q) (p : BidPortfolio) : BidPortfolio :=
  mkBidPortfolio (bids p) (bid_constraints p ++ [c]).

(** [CommodMap]: a [std::map] from commodity to the requests for it. *)
Definition CommodMap : Type := list (string * list Request).

Fixpoint commod_at (m : CommodMap) (k : string) : result (list Request) :=
  match m with
  | [] => Throw OutOfRange
  | (k', v) :: rest => if String.eqb k' k then Ok v else commod_at rest k
  end.

(** [v.at(i)]: checked access. *)
Definition at_ {A : Type} (v : list A) (i : nat) : result A :=
  match nth_error v i with
  | Some a => Ok a
  | None => Throw OutOfRange
  end.

(** [v[i]]: unchecked access; past the end the C++ behaviour is undefined,
    which is an [UndefinedAccess] failure here. *)
Definition subscript {A : Type} (v : list A) (i : nat) : result A :=
  match nth_error v i with
  | Some a => Ok a
  | None => Throw UndefinedAccess
  end.

(** ** The simulation context *)

Module Context.

Record Context : Type := mk {
  time : Z;
  GetRecipe : string -> Composition
}.

End Context.

Abbreviation Context := Context.Context.

(** ** The facility *)

Inductive Phase : Type := INITIAL | PROCESS | WAITING.

(** The data members of the class.  [name_] stands for the state of the
    [cyclus::Model] base class, [commodities_] for that of
    [cyclus::CommodityProducer] (commodity, capacity, cost; [None] is a
    value not set yet).  The constructor's [preCore_], [inCore_] and
    [postCore_] are the buffers every other function calls [reserves_],
    [core_] and [storage_]. *)
Record BatchReactor : Type := mkBatchReactor {
  name_ : string;
  process_time_ : Z;
  preorder_time_ : Z;
  start_time_ : Z;
  n_batches_ : Z;
  n_load_ : Z;
  n_reserves_ : Z;
  refuel_time_ : Z;
  batch_size_ : Q;
  in_commodity_ : string;
  in_recipe_ : string;
  out_commodity_ : string;
  out_recipe_ : string;
  phase_ : Phase;
  reserves_ : ResourceBuff;
  core_ : ResourceBuff;
  storage_ : ResourceBuff;
  commodities_ : list (string * (option Q * option Q))
}.

(** The setters of [batch_reactor.h] (absent from the sources) assign the
    member of the same name. *)
Definition set_name_ (v : string) (s : BatchReactor) : BatchReactor :=
  mkBatchReactor v (process_time_ s) (preorder_time_ s) (start_time_ s)
    (n_batches_ s) (n_load_ s) (n_reserves_ s) (refuel_time_ s)
    (batch_size_ s) (in_commodity_ s) (in_recipe_ s) (out_commodity_ s)
    (out_recipe_ s) (phase_ s) (reserves_ s) (core_ s) (storage_ s)
    (commodities_ s).

Definition set_process_time_ (v : Z) (s : BatchReactor) : BatchReactor :=
  mkBatchReactor (name_ s) v (preorder_time_ s) (start_time_ s) (n_batches_ s)
    (n_load_ s) (n_reserves_ s) (refuel_time_ s) (batch_size_ s)
    (in_commodity_ s) (in_recipe_ s) (out_commodity_ s) (out_recipe_ s)
    (phase_ s) (reserves_ s) (core_ s) (storage_ s) (commodities_ s).

Definition set_preorder_time_ (v : Z) (s : BatchReactor) : BatchReactor :=
  mkBatchReactor (name_ s) (process_time_ s) v (start_time_ s) (n_batches_ s)
    (n_load_ s) (n_reserves_ s) (refuel_time_ s) (batch_size_ s)
    (in_commodity_ s) (in_recipe_ s) (out_commodity_ s) (out_recipe_ s)
    (phase_ s) (reserves_ s) (core_ s) (storage_ s) (commodities_ s).

Definition set_start_time_ (v : Z) (s : BatchReactor) : BatchReactor :=
  mkBatchReactor (name_ s) (process_time_ s) (preorder_time_ s) v
    (n_batches_ s) (n_load_ s) (n_reserves_ s) (refuel_time_ s)
    (batch_size_ s) (in_commodity_ s) (in_recipe_ s) (out_commodity_ s)
    (out_recipe_ s) (phase_ s) (reserves_ s) (core_ s) (storage_ s)
    (commodities_ s).

Definition set_n_batches_ (v : Z) (s : BatchReactor) : BatchReactor :=
  mkBatchReactor (name_ s) (process_time_ s) (preorder_time_ s)
    (start_time_ s) v (n_load_ s) (n_reserves_ s) (refuel_time_ s)
    (batch_size_ s) (in_commodity_ s) (in_recipe_ s) (out_commodity_ s)
    (out_recipe_ s) (phase_ s) (reserves_ s) (core_ s) (storage_ s)
    (commodities_ s).

Definition set_n_load_ (v : Z) (s : BatchReactor) : BatchReactor :=
  mkBatchReactor (name_ s) (process_time_ s) (preorder_time_ s)
    (start_time_ s) (n_batches_ s) v (n_reserves_ s) (refuel_time_ s)
    (batch_size_ s) (in_commodity_ s) (in_recipe_ s) (out_commodity_ s)
    (out_recipe_ s) (phase_ s) (reserves_ s) (core_ s) (storage_ s)
    (commodities_ s).

Definition set_n_reserves_ (v : Z) (s : BatchReactor) : BatchReactor :=
  mkBatchReactor (name_ s) (process_time_ s) (preorder_time_ s)
    (start_time_ s) (n_batches_ s) (n_load_ s) v (refuel_time_ s)
    (batch_size_ s) (in_commodity_ s) (in_recipe_ s) (out_commodity_ s)
    (out_recipe_ s) (phase_ s) (reserves_ s) (core_ s) (storage_ s)
    (commodities_ s).

Definition set_refuel_time_ (v : Z) (s : BatchReactor) : BatchReactor :=
  mkBatchReactor (name_ s) (process_time_ s) (preorder_time_ s)
    (start_time_ s) (n_batches_ s) (n_load_ s) (n_reserves_ s) v
    (batch_size_ s) (in_commodity_ s) (in_recipe_ s) (out_commodity_ s)
    (out_recipe_ s) (phase_ s) (reserves_ s) (core_ s) (storage_ s)
    (commodities_ s).

Definition set_batch_size_ (v : Q) (s : BatchReactor) : BatchReactor :=
  mkBatchReactor (name_ s) (process_time_ s) (preorder_time_ s)
    (start_time_ s) (n_batches_ s) (n_load_ s) (n_reserves_ s)
    (refuel_time_ s) v (in_commodity_ s) (in_recipe_ s) (out_commodity_ s)
    (out_recipe_ s) (phase_ s) (reserves_ s) (core_ s) (storage_ s)
    (commodities_ s).

Definition set_in_commodity_ (v : string) (s : BatchReactor) : BatchReactor :=
  mkBatchReactor (name_ s) (process_time_ s) (preorder_time_ s)
    (start_time_ s) (n_batches_ s) (n_load_ s) (n_reserves_ s)
    (refuel_time_ s) (batch_size_ s) v (in_recipe_ s) (out_commodity_ s)
    (out_recipe_ s) (phase_ s) (reserves_ s) (core_ s) (storage_ s)
    (commodities_ s).

Definition set_in_recipe_ (v : string) (s : BatchReactor) : BatchReactor :=
  mkBatchReactor (name_ s) (process_time_ s) (preorder_time_ s)
    (start_time_ s) (n_batches_ s) (n_load_ s) (n_reserves_ s)
    (refuel_time_ s) (batch_size_ s) (in_commodity_ s) v (out_commodity_ s)
    (out_recipe_ s) (phase_ s) (reserves_ s) (core_ s) (storage_ s)
    (commodities_ s).

Definition set_out_commodity_ (v : string) (s : BatchReactor) : BatchReactor :=
  mkBatchReactor (name_ s) (process_time_ s) (preorder_time_ s)
    (start_time_ s) (n_batches_ s) (n_load_ s) (n_reserves_ s)
    (refuel_time_ s) (batch_size_ s) (in_commodity_ s) (in_recipe_ s) v
    (out_recipe_ s) (phase_ s) (reserves_ s) (core_ s) (storage_ s)
    (commodities_ s).

Definition set_out_recipe_ (v : string) (s : BatchReactor) : BatchReactor :=
  mkBatchReactor (name_ s) (process_time_ s) (preorder_time_ s)
    (start_time_ s) (n_batches_ s) (n_load_ s) (n_reserves_ s)
    (refuel_time_ s) (batch_size_ s) (in_commodity_ s) (in_recipe_ s)
    (out_commodity_ s) v (phase_ s) (reserves_ s) (core_ s) (storage_ s)
    (commodities_ s).

Definition set_phase_ (v : Phase) (s : BatchReactor) : BatchReactor :=
  mkBatchReactor (name_ s) (process_time_ s) (preorder_time_ s)
    (start_time_ s) (n_batches_ s) (n_load_ s) (n_reserves_ s)
    (refuel_time_ s) (batch_size_ s) (in_commodity_ s) (in_recipe_ s)
    (out_commodity_ s) (out_recipe_ s) v (reserves_ s) (core_ s) (storage_ s)
    (commodities_ s).

Definition set_reserves_ (v : ResourceBuff) (s : BatchReactor) : BatchReactor :=
  mkBatchReactor (name_ s) (process_time_ s) (preorder_time_ s)
    (start_time_ s) (n_batches_ s) (n_load_ s) (n_reserves_ s)
    (refuel_time_ s) (batch_size_ s) (in_commodity_ s) (in_recipe_ s)
    (out_commodity_ s) (out_recipe_ s) (phase_ s) v (core_ s) (storage_ s)
    (commodities_ s).

Definition set_core_ (v : ResourceBuff) (s : BatchReactor) : BatchReactor :=
  mkBatchReactor (name_ s) (process_time_ s) (preorder_time_ s)
    (start_time_ s) (n_batches_ s) (n_load_ s) (n_reserves_ s)
    (refuel_time_ s) (batch_size_ s) (in_commodity_ s) (in_recipe_ s)
    (out_commodity_ s) (out_recipe_ s) (phase_ s) (reserves_ s) v (storage_ s)
    (commodities_ s).

Definition set_storage_ (v : ResourceBuff) (s : BatchReactor) : BatchReactor :=
  mkBatchReactor (name_ s) (process_time_ s) (preorder_time_ s)
    (start_time_ s) (n_batches_ s) (n_load_ s) (n_reserves_ s)
    (refuel_time_ s) (batch_size_ s) (in_commodity_ s) (in_recipe_ s)
    (out_commodity_ s) (out_recipe_ s) (phase_ s) (reserves_ s) (core_ s) v
    (commodities_ s).

Definition set_commodities_ (v : list (string * (option Q * option Q)))
  (s : BatchReactor) : BatchReactor :=
  mkBatchReactor (name_ s) (process_time_ s) (preorder_time_ s)
    (start_time_ s) (n_batches_ s) (n_load_ s) (n_reserves_ s)
    (refuel_time_ s) (batch_size_ s) (in_commodity_ s) (in_recipe_ s)
    (out_commodity_ s) (out_recipe_ s) (phase_ s) (reserves_ s) (core_ s)
    (storage_ s) v.

(** Modelled from the spec: [n_core()] of [batch_reactor.h] is
    [core.count()]. *)
Definition n_core (s : BatchReactor) : Z := ResourceBuff.count (core_ s).

(** Modelled from the spec: [end_time()] of [batch_reactor.h] is
    [start_time + process_time]. *)
Definition end_time (s : BatchReactor) : Z :=
  (start_time_ s + process_time_ s)%Z.

(** ** A state monad with exceptions

    A C++ member function mutates the facility and may throw; what it did
    before it threw stays done.  [M A] returns the facility it leaves
    behind together with its outcome. *)

Definition M (A : Type) : Type := BatchReactor -> BatchReactor * result A.

Definition ret {A : Type} (a : A) : M A := fun s => (s, Ok a).

Definition lift {A : Type} (r : result A) : M A := fun s => (s, r).

Definition bind {A B : Type} (m : M A) (k : A -> M B) : M B :=
  fun s =>
    match m s with
    | (s', Ok a) => k a s'
    | (s', Throw e) => (s', Throw e)
    | (s', OutOfFuel) => (s', OutOfFuel)
    end.

Definition get : M BatchReactor := fun s => (s, Ok s).

Definition modify (f : BatchReactor -> BatchReactor) : M unit :=
  fun s => (f s, Ok tt).

Notation "x <- c ;; k" := (bind c (fun x => k))
  (at level 61, c at next level, right associativity).
Notation "c ;; k" := (bind c (fun _ => k))
  (at level 61, right associativity).

(** Run an operation of a buffer on one of the facility's buffers. *)
Definition with_buff {A : Type} (getb : BatchReactor -> ResourceBuff)
  (setb : ResourceBuff -> BatchReactor -> BatchReactor)
  (op : ResourceBuff -> result (A * ResourceBuff)) : M A :=
  fun s =>
    match op (getb s) with
    | Ok (a, b) => (setb b s, Ok a)
    | Throw e => (s, Throw e)
    | OutOfFuel => (s, OutOfFuel)
    end.

Definition reserves_Pop : M Material :=
  with_buff reserves_ set_reserves_ ResourceBuff.Pop.
Definition reserves_PopBack : M Material :=
  with_buff reserves_ set_reserves_ ResourceBuff.PopBack.
Definition reserves_Push (m : Material) : M unit :=
  modify (fun s => set_reserves_ (ResourceBuff.Push m (reserves_ s)) s).
Definition core_Pop : M Material :=
  with_buff core_ set_core_ ResourceBuff.Pop.
Definition core_Push (m : Material) : M unit :=
  modify (fun s => set_core_ (ResourceBuff.Push m (core_ s)) s).
Definition storage_Push (m : Material) : M unit :=
  modify (fun s => set_storage_ (ResourceBuff.Push m (storage_ s)) s).
Definition storage_PopQty (qty : Q) : M (list Material) :=
  with_buff storage_ set_storage_ (ResourceBuff.PopQty qty).

(** [for (int i = 0; i < n; i++) body;] *)
Fixpoint repeat_M (n : nat) (body : M unit) : M unit :=
  match n with
  | O => ret tt
  | S k => body ;; repeat_M k body
  end.

(** [for (int i = from; i < v.size(); i++) acc->Absorb(get(v, i));]
    with [steps] the number of iterations still to run. *)
Fixpoint absorb_from (get_at : list Material -> nat -> result Material)
  (v : list Material) (i steps : nat) (acc : Material) : result Material :=
  match steps with
  | O => Ok acc
  | S k =>
      match get_at v i with
      | Ok m => absorb_from get_at v (S i) k (Material.Absorb acc m)
      | Throw e => Throw e
      | OutOfFuel => OutOfFuel
      end
  end.

(** ** The member functions of [batch_reactor.cc] *)

(** The constructor. *)
Definition BatchReactor_ctor : BatchReactor :=
  mkBatchReactor EmptyString 1 0 (-1) 1 1 1 0 1
    EmptyString EmptyString EmptyString EmptyString
    INITIAL [] [] [] [].

Definition ConstructBatchReactor : BatchReactor := BatchReactor_ctor.

(** [phase(Phase p)]: entering [PROCESS] stamps [start_time_]. *)
Definition phase (ctx : Context) (p : Phase) : M unit :=
  modify (fun s =>
    let s1 := match p with
              | PROCESS => set_start_time_ (Context.time ctx) s
              | _ => s
              end in
    set_phase_ p s1).

Definition Deploy (ctx : Context) : M unit := phase ctx INITIAL.

Definition MoveBatchIn_ : M unit :=
  mat <- reserves_Pop ;;
  core_Push mat.

Definition MoveBatchOut_ (ctx : Context) : M unit :=
  mat <- core_Pop ;;
  s <- get ;;
  storage_Push (Material.Transmute mat (Context.GetRecipe ctx (out_recipe_ s))).

(** A C++ [int] has 32 bits.  The [int] members are kept as [Z]; where
    the source adds two of them, the sum is reduced to the 32-bit
    two's-complement range, which is what the addition gives on the usual
    compilers when it overflows (the language leaves it undefined). *)
Definition INT_MAX : Z := 2147483647.

Definition int_wrap (z : Z) : Z :=
  ((z + 2147483648) mod 4294967296 - 2147483648)%Z.

Definition int_add (a b : Z) : Z := int_wrap (a + b).

Definition HandleTick (ctx : Context) (time : Z) : M unit :=
  s <- get ;;
  match phase_ s with
  | PROCESS =>
      if (time =? end_time s)%Z then
        repeat_M (Z.to_nat (n_load_ s)) (MoveBatchOut_ ctx) ;;
        phase ctx WAITING
      else ret tt
  | WAITING =>
      if ((n_core s =? n_batches_ s)
          && (int_add (end_time s) (refuel_time_ s)
              <=? Context.time ctx))%Z
      then phase ctx PROCESS
      else ret tt
  | INITIAL =>
      if (n_core s =? n_batches_ s)%Z then phase ctx PROCESS else ret tt
  end.

(** ** The query engine and [lexical_cast] *)

Module Query.

(** An element holds text or child elements, under their names. *)
#[local] Unset Elimination Schemes.
Inductive Element : Type :=
| Text (content : string)
| Node (children : list (string * Element)).

#[local] Set Elimination Schemes.

Definition QueryEngine : Type := list (string * Element).

Fixpoint find (qe : QueryEngine) (query : string) : option Element :=
  match qe with
  | [] => None
  | (k, e) :: rest => if String.eqb k query then Some e else find rest query
  end.

Definition QueryElement (qe : QueryEngine) (query : string)
  : result QueryEngine :=
  match find qe query with
  | Some (Node children) => Ok children
  | Some (Text _) => Ok []
  | None => Throw KeyError
  end.

Definition GetElementContent (qe : QueryEngine) (query : string)
  : result string :=
  match find qe query with
  | Some (Text content) => Ok content
  | Some (Node _) => Throw ValueError
  | None => Throw KeyError
  end.

Definition digit_of (c : ascii) : option Z :=
  let n := nat_of_ascii c in
  if ((48 <=? n) && (n <=? 57))%nat then Some (Z.of_nat (n - 48))
  else None.

Fixpoint digits (s : string) (acc : Z) : option Z :=
  match s with
  | EmptyString => Some acc
  | String c rest =>
      match digit_of c with
      | Some d => digits rest (10 * acc + d)%Z
      | None => None
      end
  end.

(** [boost::lexical_cast<int>]: an optional sign and decimal digits,
    nothing else, and a value that fits a 32-bit [int]. *)
Definition lexical_cast_int (s : string) : result Z :=
  let '(negative, body) :=
    match s with
    | String "-"%char rest => (true, rest)
    | String "+"%char rest => (false, rest)
    | _ => (false, s)
    end in
  match body with
  | EmptyString => Throw BadLexicalCast
  | _ =>
      match digits body 0 with
      | Some z =>
          let v := if negative then (- z)%Z else z in
          if ((- 2147483648 <=? v) && (v <=? 2147483647))%Z then Ok v
          else Throw BadLexicalCast
      | None => Throw BadLexicalCast
      end
  end.

(** [cyclus::GetOptionalQuery<int>]: the default when no element answers
    the query. *)
Definition GetOptionalQuery_int (qe : QueryEngine) (query : string)
  (default : Z) : result Z :=
  match find qe query with
  | None => Ok default
  | Some _ =>
      match GetElementContent qe query with
      | Ok data => lexical_cast_int data
      | Throw e => Throw e
      | OutOfFuel => OutOfFuel
      end
  end.

End Query.

Abbreviation QueryEngine := Query.QueryEngine.

(** [cyclus::CommodityProducer] *)
Definition AddCommodity (commod : string) : M unit :=
  modify (fun s =>
    set_commodities_ (commodities_ s ++ [(commod, (None, None))]) s).

Fixpoint update_commod (commod : string)
  (f : option Q * option Q -> option Q * option Q)
  (l : list (string * (option Q * option Q)))
  : list (string * (option Q * option Q)) :=
  match l with
  | [] => []
  | (k, v) :: rest =>
      if String.eqb k commod then (k, f v) :: update_commod commod f rest
      else (k, v) :: update_commod commod f rest
  end.

Definition SetCapacity (commod : string) (capacity : Q) : M unit :=
  modify (fun s =>
    set_commodities_
      (update_commod commod (fun v => (Some capacity, snd v))
         (commodities_ s)) s).

Definition SetCost (commod : string) (cost : Q) : M unit :=
  modify (fun s =>
    set_commodities_
      (update_commod commod (fun v => (fst v, Some cost))
         (commodities_ s)) s).

(** [cyclus::Model::InitFrom]: the base class copies its own state. *)
Definition InitFrom (this : BatchReactor) (m : BatchReactor) : BatchReactor :=
  set_name_ (name_ this) m.

Definition CopyProducedCommoditiesFrom (this : BatchReactor)
  (m : BatchReactor) : BatchReactor :=
  set_commodities_ (commodities_ this) m.

Definition Clone (this : BatchReactor) : BatchReactor :=
  let m := BatchReactor_ctor in
  let m := InitFrom this m in
  (* in/out *)
  let m := set_in_commodity_ (in_commodity_ this) m in
  let m := set_out_commodity_ (out_commodity_ this) m in
  let m := set_in_recipe_ (in_recipe_ this) m in
  let m := set_out_recipe_ (out_recipe_ this) m in
  (* facility params *)
  let m := set_process_time_ (process_time_ this) m in
  let m := set_preorder_time_ (preorder_time_ this) m in
  let m := set_start_time_ (start_time_ this) m in
  let m := set_n_batches_ (n_batches_ this) m in
  let m := set_n_load_ (n_load_ this) m in
  let m := set_n_reserves_ (n_reserves_ this) m in
  let m := set_batch_size_ (batch_size_ this) m in
  (* commodity production *)
  CopyProducedCommoditiesFrom this m.

(** [GetOrder_(size)] *)
Definition GetOrder_ (ctx : Context) (size : Q) (s : BatchReactor)
  : RequestPortfolio :=
  let mat := Material.mk size (Context.GetRecipe ctx (in_recipe_ s)) in
  mkRequestPortfolio [mkRequest mat (in_commodity_ s) (name_ s)] [size].

(** [GetMatlBids(commod_requests)]; the bids of the portfolio are kept in
    the order the requests were met. *)
Definition GetMatlBids (ctx : Context) (commod_requests : CommodMap)
  (s : BatchReactor) : result (list BidPortfolio) :=
  match commod_at commod_requests (out_commodity_ s) with
  | Ok reqs =>
      let port :=
        fold_left
          (fun port req =>
             let qty := Material.quantity (target req) in
             if Qltb qty (ResourceBuff.quantity (storage_ s)) then
               let offer :=
                 Material.mk qty (Context.GetRecipe ctx (out_recipe_ s)) in
               AddBid (mkBid req offer (name_ s)) port
             else port)
          reqs (mkBidPortfolio [] []) in
      Ok [AddConstraint (ResourceBuff.quantity (storage_ s)) port]
  | Throw e => Throw e
  | OutOfFuel => OutOfFuel
  end.

(** The body of the loop of [GetMatlTrades]: settle one trade. *)
Definition GetMatlTrades_body (t : Trade) : M Material :=
  manifest <- storage_PopQty (amt t) ;;
  response <- lift (subscript manifest 0) ;;
  lift (absorb_from (@subscript Material) manifest 1
          (List.length manifest - 1) response).

Fixpoint GetMatlTrades (trades : list Trade)
  (responses : list (Trade * Material)) : M (list (Trade * Material)) :=
  match trades with
  | [] => ret responses
  | t :: rest =>
      response <- GetMatlTrades_body t ;;
      GetMatlTrades rest (responses ++ [(t, response)])
  end.

(** ** Observations used by the statements *)

(** [reserves.quantity() + core.quantity() + storage.quantity()] *)
Definition total (s : BatchReactor) : Q :=
  ResourceBuff.quantity (reserves_ s) + ResourceBuff.quantity (core_ s)
  + ResourceBuff.quantity (storage_ s).

(** Everything of the facility but the content of its buffers. *)
Definition controls (s : BatchReactor) : BatchReactor :=
  set_reserves_ [] (set_core_ [] (set_storage_ [] s)).

(** The configuration of the facility: everything but its phase, its
    start time and the content of its buffers. *)
Definition configuration (s : BatchReactor) : BatchReactor :=
  set_phase_ INITIAL (set_start_time_ 0 (controls s)).

(** A computation keeps an invariant of the facility, whatever its
    outcome. *)
Definition preserves {A : Type} (I : BatchReactor -> Prop) (m : M A) : Prop :=
  forall s, I s -> I (fst (m s)).

(** A computation throws only errors that satisfy [P]. *)
Definition throws_only {A : Type} (P : Error -> Prop) (m : M A) : Prop :=
  forall s s' e, m s = (s', Throw e) -> P e.

(** An invariant that does not look into the buffers. *)
Definition buffer_blind (I : BatchReactor -> Prop) : Prop :=
  (forall b s, I s -> I (set_reserves_ b s))
  /\ (forall b s, I s -> I (set_core_ b s))
  /\ (forall b s, I s -> I (set_storage_ b s)).

Fixpoint sum_amt (trades : list Trade) : Q :=
  match trades with
  | [] => 0
  | t :: rest => amt t + sum_amt rest
  end.

Fixpoint sum_bids (l : list Bid) : Q :=
  match l with
  | [] => 0
  | b :: rest => Material.quantity (offer b) + sum_bids rest
  end.

(** The shape delivery absorption builds: full batches, then at most one
    batch that is not full, at the back. *)
Definition quantized (batch_size : Q) (b : ResourceBuff) : Prop :=
  match rev b with
  | [] => True
  | last :: front =>
      Material.quantity last <= batch_size
      /\ Forall (fun m => Material.quantity m == batch_size) front
  end.


(** ** The registry of phase names

    [phase_names_] is a static [std::map<Phase, std::string>], shared by
    all facilities and empty when the program starts; it is the list of its
    entries here.  [std::map::insert] leaves an entry whose key is there
    already as it is. *)

Definition PhaseNames : Type := list (Phase * string).

Definition Phase_eqb (p q : Phase) : bool :=
  match p, q with
  | INITIAL, INITIAL | PROCESS, PROCESS | WAITING, WAITING => true
  | _, _ => false
  end.

Fixpoint names_find (names : PhaseNames) (p : Phase) : option string :=
  match names with
  | [] => None
  | (q, name) :: rest => if Phase_eqb q p then Some name else names_find rest p
  end.

Definition names_insert (p : Phase) (name : string) (names : PhaseNames)
  : PhaseNames :=
  match names_find names p with
  | Some _ => names
  | None => names ++ [(p, name)]
  end.

Definition SetUpPhaseNames_ (names : PhaseNames) : PhaseNames :=
  names_insert WAITING "waiting for fuel"
    (names_insert PROCESS "processing batch(es)"
       (names_insert INITIAL "initialization" names)).

(** What the constructor does to the registry:
    [if (phase_names_.empty()) SetUpPhaseNames_();] *)
Definition BatchReactor_ctor_names (names : PhaseNames) : PhaseNames :=
  match names with
  | [] => SetUpPhaseNames_ names
  | _ :: _ => names
  end.

(** ** Instances for the worked examples *)

(** [cyclus::eps()] and [cyclus::eps_rsrc()] are both [1e-6]. *)
Definition eps_cyclus : Q := 1 # 1000000.

(** Modelled from the spec: a full batch is available when the first batch
    of the buffer holds at least [size]. *)
Definition BatchIn_front (buff : ResourceBuff) (size : Q) : bool :=
  match buff with
  | [] => false
  | m :: _ => Qle_bool size (Material.quantity m)
  end.

(** An order time: [preorder_time] ahead of the end of the run. *)
Definition order_time_ahead (s : BatchReactor) : Z :=
  (end_time s - preorder_time_ s)%Z.

(** A [lexical_cast<double>] for whole numbers. *)
Definition lexical_cast_whole (s : string) : result Q :=
  match Query.lexical_cast_int s with
  | Ok z => Ok (inject_Z z)
  | Throw e => Throw e
  | OutOfFuel => OutOfFuel
  end.

Definition uox (qty : Q) : Material := Material.mk qty "uox"%string.

Definition spent (qty : Q) : Material := Material.mk qty "spent_uox"%string.

Definition context0 : Context := Context.mk 0 (fun recipe => recipe).

(** A facility with batches of 10, as the constructor leaves it
    otherwise. *)
Definition reactor10 : BatchReactor :=
  set_out_recipe_ "spent_uox"%string
    (set_out_commodity_ "spent_fuel"%string
       (set_in_recipe_ "uox"%string
          (set_in_commodity_ "fresh_fuel"%string
             (set_batch_size_ 10 BatchReactor_ctor)))).

(** Reserves, core and storage for the examples. *)
Definition reactor_reserving (b : ResourceBuff) : BatchReactor :=
  set_reserves_ b reactor10.

Definition reactor_storing (b : ResourceBuff) : BatchReactor :=
  set_storage_ b reactor10.

(** A facility that has been processing three batches since tick 0, for
    5 ticks, and discharges three at a time. *)
Definition reactor_processing : BatchReactor :=
  set_phase_ PROCESS
    (set_start_time_ 0
       (set_process_time_ 5
          (set_n_load_ 3
             (set_core_ [uox 10; uox 10; uox 10] reactor10)))).

(** A facility that has been processing a full core of three batches
    since tick 0, for 5 ticks, and is to discharge four. *)
Definition reactor_reloading_4 : BatchReactor :=
  set_n_load_ 4 (set_n_batches_ 3 reactor_processing).

(** A facility deployed with its one-batch core loaded and one batch in
    reserve, processing for 2 ticks. *)
Definition reactor_primed : BatchReactor :=
  set_process_time_ 2
    (set_reserves_ [uox 10] (set_core_ [uox 10] reactor10)).

(** A facility with a refuel time of 3. *)
Definition reactor_refuelling_3 : BatchReactor :=
  set_refuel_time_ 3 (set_core_ [uox 10] reactor10).

(** [reactor_primed] with a refuel time of 3, and with the largest
    refuel time an [int] holds. *)
Definition reactor_refuel_3 : BatchReactor :=
  set_refuel_time_ 3 reactor_primed.

Definition reactor_refuel_max : BatchReactor :=
  set_refuel_time_ INT_MAX reactor_primed.

(** A facility with room for three batches in its core, none loaded, and
    two full batches and a partial one in reserve. *)
Definition reactor_short_of_fuel : BatchReactor :=
  set_n_batches_ 3
    (set_reserves_ [uox 10; uox 10; uox 5] reactor10).

Definition request_for (qty : Q) : Request :=
  mkRequest (spent qty) "spent_fuel"%string "sink"%string.

Definition trade_of (qty : Q) : Trade :=
  mkTrade (request_for qty) (mkBid (request_for qty) (spent qty) ""%string)
    qty.

(** A configuration with a batch size of zero and negative times. *)
Definition config_out_of_range : QueryEngine :=
  [("fuel_input"%string,
    Query.Node [("incommodity"%string, Query.Text "fresh_fuel"%string);
                ("inrecipe"%string, Query.Text "uox"%string)]);
   ("fuel_output"%string,
    Query.Node [("outcommodity"%string, Query.Text "spent_fuel"%string);
                ("outrecipe"%string, Query.Text "spent_uox"%string)]);
   ("processtime"%string, Query.Text "-3"%string);
   ("nbatches"%string, Query.Text "1"%string);
   ("batchsize"%string, Query.Text "0"%string);
   ("refueltime"%string, Query.Text "-1"%string);
   ("orderlookahead"%string, Query.Text "-2"%string);
   ("commodity_production"%string,
    Query.Node [("commodity"%string, Query.Text "power"%string);
                ("capacity"%string, Query.Text "1000"%string);
                ("cost"%string, Query.Text "1"%string)])].

(** A configuration with a core of no batches, processing for 5
    ticks. *)
Definition config_no_batches : QueryEngine :=
  [("fuel_input"%string,
    Query.Node [("incommodity"%string, Query.Text "fresh_fuel"%string);
                ("inrecipe"%string, Query.Text "uox"%string)]);
   ("fuel_output"%string,
    Query.Node [("outcommodity"%string, Query.Text "spent_fuel"%string);
                ("outrecipe"%string, Query.Text "spent_uox"%string)]);
   ("processtime"%string, Query.Text "5"%string);
   ("nbatches"%string, Query.Text "0"%string);
   ("batchsize"%string, Query.Text "10"%string);
   ("commodity_production"%string,
    Query.Node [("commodity"%string, Query.Text "power"%string);
                ("capacity"%string, Query.Text "1000"%string);
                ("cost"%string, Query.Text "1"%string)])].

(** Three deliveries, of 7, 8 and 16. *)
Definition deliveries_of_31 : list (Trade * Material) :=
  [(trade_of 7, uox 7); (trade_of 8, uox 8); (trade_of 16, uox 16)].

Section Orders.

(** [cyclus::eps()] of [cyc_limits.h]. *)
Variable eps : Q.

(** [order_time()] is declared in [batch_reactor.h], which is not among
    the sources; it is a pure query of the facility. *)
Variable order_time : BatchReactor -> Z.

Definition GetMatlRequests (ctx : Context) (s : BatchReactor)
  : list RequestPortfolio :=
  let order_size :=
    inject_Z (n_reserves_ s) * batch_size_ s
    - ResourceBuff.quantity (reserves_ s) in
  if (order_time s <=? Context.time ctx)%Z && Qltb eps order_size
  then [GetOrder_ ctx order_size s]
  else [].

End Orders.

Section Init.

(** [boost::lexical_cast<double>]. *)
Variable lexical_cast_double : string -> result Q.

Definition InitModuleMembers (qe : QueryEngine) : M unit :=
  (* in/out *)
  input <- lift (Query.QueryElement qe "fuel_input") ;;
  c <- lift (Query.GetElementContent input "incommodity") ;;
  modify (set_in_commodity_ c) ;;
  r <- lift (Query.GetElementContent input "inrecipe") ;;
  modify (set_in_recipe_ r) ;;
  output <- lift (Query.QueryElement qe "fuel_output") ;;
  c <- lift (Query.GetElementContent output "outcommodity") ;;
  modify (set_out_commodity_ c) ;;
  r <- lift (Query.GetElementContent output "outrecipe") ;;
  modify (set_out_recipe_ r) ;;
  (* facility data required *)
  data <- lift (Query.GetElementContent qe "processtime") ;;
  v <- lift (Query.lexical_cast_int data) ;;
  modify (set_process_time_ v) ;;
  data <- lift (Query.GetElementContent qe "nbatches") ;;
  v <- lift (Query.lexical_cast_int data) ;;
  modify (set_n_batches_ v) ;;
  data <- lift (Query.GetElementContent qe "batchsize") ;;
  v <- lift (Query.lexical_cast_int data) ;;
  modify (set_batch_size_ (inject_Z v)) ;;
  (* facility data optional *)
  s <- get ;;
  time <- lift (Query.GetOptionalQuery_int qe "refueltime"
                  (refuel_time_ s)) ;;
  modify (set_refuel_time_ time) ;;
  s <- get ;;
  time <- lift (Query.GetOptionalQuery_int qe "orderlookahead"
                  (preorder_time_ s)) ;;
  modify (set_preorder_time_ time) ;;
  s <- get ;;
  n <- lift (Query.GetOptionalQuery_int qe "nreload" (n_load_ s)) ;;
  modify (set_n_load_ n) ;;
  s <- get ;;
  n <- lift (Query.GetOptionalQuery_int qe "norder" (n_load_ s)) ;;
  modify (set_n_reserves_ n) ;;
  (* commodity production *)
  commodity <- lift (Query.QueryElement qe "commodity_production") ;;
  commod <- lift (Query.GetElementContent commodity "commodity") ;;
  AddCommodity commod ;;
  data <- lift (Query.GetElementContent commodity "capacity") ;;
  v <- lift (lexical_cast_double data) ;;
  SetCapacity commod v ;;
  data <- lift (Query.GetElementContent commodity "cost") ;;
  v <- lift (lexical_cast_double data) ;;
  SetCost commod v.

End Init.

Section Reactor.

(** [cyclus::eps_rsrc()] of [cyc_limits.h]. *)
Variable eps_rsrc : Q.

(** [BatchIn] is declared in [batch_reactor.h], which is not among the
    sources; it is a pure query of a buffer. *)
Variable BatchIn : ResourceBuff -> Q -> bool.

(** [Refuel_()]: the [while] loop, [fuel] bounding its iterations. *)
Fixpoint Refuel_loop (fuel : nat) : M unit :=
  match fuel with
  | O => lift OutOfFuel
  | S k =>
      s <- get ;;
      if (n_core s <? n_batches_ s)%Z
         && BatchIn (reserves_ s) (batch_size_ s)
      then MoveBatchIn_ ;; Refuel_loop k
      else ret tt
  end.

(** Every iteration pops a batch off [reserves_] or throws, so the loop
    is over within one iteration more than [reserves_] has batches. *)
Definition Refuel_ : M unit :=
  s <- get ;;
  Refuel_loop (S (List.length (reserves_ s))).

Definition HandleTock (time : Z) : M unit :=
  s <- get ;;
  match phase_ s with
  | INITIAL | WAITING => Refuel_
  | PROCESS => ret tt
  end.

(** The [while] loop of [AddBatches_], [fuel] bounding its iterations;
    returns what is left of [mat]. *)
Fixpoint AddBatches_loop (fuel : nat) (mat : Material) : M Material :=
  match fuel with
  | O => lift OutOfFuel
  | S k =>
      s <- get ;;
      if Qltb (batch_size_ s) (Material.quantity mat) then
        pieces <- lift (Material.Extract mat (batch_size_ s)) ;;
        reserves_Push (fst pieces) ;;
        AddBatches_loop k (snd pieces)
      else ret mat
  end.

(** What [AddBatches_] does once [last] is settled: push it back, cut
    [mat] into batches, push what is left if it is not negligible. *)
Definition AddBatches_rest (fuel : nat) (last mat : Material) : M unit :=
  reserves_Push last ;;
  mat' <- AddBatches_loop fuel mat ;;
  if Qltb eps_rsrc (Material.quantity mat') then reserves_Push mat'
  else ret tt.

(** [AddBatches_(mat)].  Line 405 of the source writes [reserves] for
    [reserves_]. *)
Definition AddBatches_ (fuel : nat) (mat : Material) : M unit :=
  last <- reserves_PopBack ;;
  s <- get ;;
  if Qltb (Material.quantity last) (batch_size_ s) then
    if Qle_bool (Material.quantity last + Material.quantity mat)
         (batch_size_ s)
    then
      reserves_Push (Material.Absorb last mat)
    else
      pieces <- lift (Material.Extract mat
                        (batch_size_ s - Material.quantity last)) ;;
      AddBatches_rest fuel (Material.Absorb last (fst pieces)) (snd pieces)
  else AddBatches_rest fuel last mat.

Definition AcceptMatlTrades (fuel : nat)
  (responses : list (Trade * Material)) : M unit :=
  first <- lift (at_ responses 0) ;;
  mat <- lift (absorb_from (fun v i => at_ v i)
                 (map snd responses) 1 (List.length responses - 1)
                 (snd first)) ;;
  AddBatches_ fuel mat.

(** *** Runs of the facility

    The stepper calls the facility back, one call at a time.  A tick at
    [now] runs with [context()->time()] equal to [now]. *)

Inductive Callback : Type :=
| Tick (now : Z)
| Tock (now : Z)
| Deliver (fuel : nat) (responses : list (Trade * Material))
| Settle (trades : list Trade).

Definition context_at (ctx : Context) (now : Z) : Context :=
  Context.mk now (Context.GetRecipe ctx).

Definition call (ctx : Context) (c : Callback) (s : BatchReactor)
  : BatchReactor :=
  match c with
  | Tick now => fst (HandleTick (context_at ctx now) now s)
  | Tock now => fst (HandleTock now s)
  | Deliver fuel responses => fst (AcceptMatlTrades fuel responses s)
  | Settle trades => fst (GetMatlTrades trades [] s)
  end.

(** The tick of the last [PROCESS] to [WAITING] transition, kept beside
    the facility as its run goes on. *)
Definition end_of_run (c : Callback) (s s' : BatchReactor)
  (e : option Z) : option Z :=
  match c, phase_ s, phase_ s' with
  | Tick now, PROCESS, WAITING => Some now
  | _, _, _ => e
  end.

(** [history ctx s0 s e]: callbacks have taken the facility from [s0] to
    [s], and [e] is the tick at which it last left [PROCESS] for
    [WAITING], if it ever did. *)
Inductive history (ctx : Context) (s0 : BatchReactor)
  : BatchReactor -> option Z -> Prop :=
| history_start : history ctx s0 s0 None
| history_call : forall s e c,
    history ctx s0 s e ->
    history ctx s0 (call ctx c s) (end_of_run c s (call ctx c s) e).

(** The facility after a list of callbacks, the first first. *)
Definition run (ctx : Context) (calls : list Callback) (s : BatchReactor)
  : BatchReactor :=
  fold_left (fun s' c => call ctx c s') calls s.

(** * Properties *)

(** ** Comparisons *)

Lemma Qltb_lt (x y : Q) : Qltb x y = true <-> x < y.
Proof.
  unfold Qltb. rewrite negb_true_iff.
  split; intro H.
  - apply Qnot_le_lt. intro Hle. apply Qle_bool_iff in Hle. congruence.
  - destruct (Qle_bool y x) eqn:E; [|reflexivity].
    apply Qle_bool_iff in E. exfalso. apply (Qlt_not_le _ _ H E).
Qed.

Lemma Qltb_ge (x y : Q) : Qltb x y = false <-> y <= x.
Proof.
  unfold Qltb. rewrite negb_false_iff. apply Qle_bool_iff.
Qed.

Lemma Qle_bool_gt (x y : Q) : Qle_bool x y = false <-> y < x.
Proof.
  rewrite <- Qltb_lt. unfold Qltb.
  destruct (Qle_bool x y); simpl; split; congruence.
Qed.

(** ** Buffers *)

Lemma quantity_app (a b : ResourceBuff) :
  ResourceBuff.quantity (a ++ b)
  == ResourceBuff.quantity a + ResourceBuff.quantity b.
Proof.
  induction a as [|m a IH]; simpl.
  - lra.
  - rewrite IH. lra.
Qed.

Lemma quantity_Push (m : Material) (b : ResourceBuff) :
  ResourceBuff.quantity (ResourceBuff.Push m b)
  == ResourceBuff.quantity b + Material.quantity m.
Proof.
  unfold ResourceBuff.Push. rewrite quantity_app. simpl. lra.
Qed.

Lemma PopBack_Ok (b : ResourceBuff) (m : Material) (front : ResourceBuff) :
  ResourceBuff.PopBack b = Ok (m, front) -> b = front ++ [m].
Proof.
  unfold ResourceBuff.PopBack. intro H.
  destruct (rev b) as [|x tser] eqn:E; [discriminate|].
  inversion H; subst.
  rewrite <- (rev_involutive b), E. reflexivity.
Qed.

Lemma PopBack_snoc (front : ResourceBuff) (m : Material) :
  ResourceBuff.PopBack (front ++ [m]) = Ok (m, front).
Proof.
  unfold ResourceBuff.PopBack. rewrite rev_app_distr. simpl.
  rewrite rev_involutive. reflexivity.
Qed.

(** ** Setters and observations *)

Lemma total_set_phase_ (p : Phase) (s : BatchReactor) :
  total (set_phase_ p s) = total s.
Proof. reflexivity. Qed.

Lemma total_set_start_time_ (t : Z) (s : BatchReactor) :
  total (set_start_time_ t s) = total s.
Proof. reflexivity. Qed.

Lemma total_phase (ctx : Context) (p : Phase) (s : BatchReactor) :
  total (fst (phase ctx p s)) = total s.
Proof. destruct p; reflexivity. Qed.

(** ** Mass is conserved by the moves between buffers *)

Lemma MoveBatchIn__total (s : BatchReactor) :
  total (fst (MoveBatchIn_ s)) == total s.
Proof.
  unfold MoveBatchIn_, bind, reserves_Pop, with_buff, core_Push, modify.
  destruct (reserves_ s) as [|m rest] eqn:E; simpl.
  - reflexivity.
  - unfold total; simpl. rewrite quantity_Push, E. simpl. lra.
Qed.

Lemma MoveBatchOut__total (ctx : Context) (s : BatchReactor) :
  total (fst (MoveBatchOut_ ctx s)) == total s.
Proof.
  unfold MoveBatchOut_, bind, core_Pop, with_buff, storage_Push, modify, get.
  destruct (core_ s) as [|m rest] eqn:E; simpl.
  - reflexivity.
  - unfold total; simpl. rewrite quantity_Push, E. simpl. lra.
Qed.

Lemma preserves_bind {A B : Type} (I : BatchReactor -> Prop)
  (m : M A) (k : A -> M B) :
  preserves I m -> (forall a, preserves I (k a)) -> preserves I (bind m k).
Proof.
  intros Hm Hk s Hs. unfold bind.
  specialize (Hm s Hs).
  destruct (m s) as [s' [a| e |]]; simpl in *; auto.
  apply Hk; assumption.
Qed.

Lemma preserves_ret {A : Type} (I : BatchReactor -> Prop) (a : A) :
  preserves I (ret a).
Proof. intros s Hs; exact Hs. Qed.

Lemma preserves_lift {A : Type} (I : BatchReactor -> Prop) (r : result A) :
  preserves I (lift r).
Proof. intros s Hs; exact Hs. Qed.

Lemma preserves_get (I : BatchReactor -> Prop) : preserves I get.
Proof. intros s Hs; exact Hs. Qed.

Lemma preserves_repeat_M (I : BatchReactor -> Prop) (body : M unit) :
  preserves I body -> forall n, preserves I (repeat_M n body).
Proof.
  intros Hb n; induction n as [|n IH]; simpl.
  - apply preserves_ret.
  - apply preserves_bind; auto.
Qed.

Lemma preserves_total_phase (c : Q) (ctx : Context) (p : Phase) :
  preserves (fun s => total s == c) (phase ctx p).
Proof. intros s Hs. rewrite total_phase. exact Hs. Qed.

Lemma HandleTick_total (ctx : Context) (time : Z) (s : BatchReactor) :
  total (fst (HandleTick ctx time s)) == total s.
Proof.
  assert (H : preserves (fun s' => total s' == total s)
                (HandleTick ctx time)).
  { unfold HandleTick. apply preserves_bind; [apply preserves_get|].
    intros s1.
    destruct (phase_ s1).
    - destruct (n_core s1 =? n_batches_ s1)%Z;
        [apply preserves_total_phase | apply preserves_ret].
    - destruct (time =? end_time s1)%Z; [|apply preserves_ret].
      apply preserves_bind; [|intros; apply preserves_total_phase].
      apply preserves_repeat_M.
      intros s2 H2. rewrite MoveBatchOut__total. exact H2.
    - destruct ((n_core s1 =? n_batches_ s1)%Z
                && (int_add (end_time s1) (refuel_time_ s1)
                    <=? Context.time ctx)%Z);
        [apply preserves_total_phase | apply preserves_ret]. }
  apply H. reflexivity.
Qed.

Lemma preserves_Refuel_loop (I : BatchReactor -> Prop) :
  preserves I MoveBatchIn_ -> forall fuel, preserves I (Refuel_loop fuel).
Proof.
  intros Hm fuel; induction fuel as [|fuel IH]; simpl.
  - apply preserves_lift.
  - apply preserves_bind; [apply preserves_get|]. intros s1.
    destruct ((n_core s1 <? n_batches_ s1)%Z
              && BatchIn (reserves_ s1) (batch_size_ s1)).
    + apply preserves_bind; auto.
    + apply preserves_ret.
Qed.

Lemma preserves_HandleTock (I : BatchReactor -> Prop) (time : Z) :
  preserves I MoveBatchIn_ -> preserves I (HandleTock time).
Proof.
  intro Hm. unfold HandleTock.
  apply preserves_bind; [apply preserves_get|]. intros s1.
  assert (Hr : preserves I Refuel_).
  { unfold Refuel_. apply preserves_bind; [apply preserves_get|].
    intros s2. apply preserves_Refuel_loop; assumption. }
  destruct (phase_ s1); auto using preserves_ret.
Qed.

Lemma HandleTock_total (time : Z) (s : BatchReactor) :
  total (fst (HandleTock time s)) == total s.
Proof.
  apply (preserves_HandleTock (fun s' => total s' == total s)).
  - intros s1 H1. rewrite MoveBatchIn__total. exact H1.
  - reflexivity.
Qed.

(** ** Equations of the monad and of the moves *)

Lemma bind_Ok {A B : Type} (m : M A) (k : A -> M B)
  (s s' : BatchReactor) (a : A) :
  m s = (s', Ok a) -> bind m k s = k a s'.
Proof. unfold bind. intros ->. reflexivity. Qed.

Lemma bind_Throw {A B : Type} (m : M A) (k : A -> M B)
  (s s' : BatchReactor) (e : Error) :
  m s = (s', Throw e) -> bind m k s = (s', Throw e).
Proof. unfold bind. intros ->. reflexivity. Qed.

Lemma MoveBatchIn__nil (s : BatchReactor) :
  reserves_ s = [] -> MoveBatchIn_ s = (s, Throw EmptyBufferError).
Proof.
  intro E. unfold MoveBatchIn_, reserves_Pop, with_buff, bind.
  rewrite E. reflexivity.
Qed.

Lemma MoveBatchIn__cons (s : BatchReactor) (m : Material)
  (rest : ResourceBuff) :
  reserves_ s = m :: rest ->
  MoveBatchIn_ s
  = (set_core_ (ResourceBuff.Push m (core_ s)) (set_reserves_ rest s),
     Ok tt).
Proof.
  intro E. unfold MoveBatchIn_, reserves_Pop, with_buff, bind.
  rewrite E. reflexivity.
Qed.

Lemma MoveBatchOut__nil (ctx : Context) (s : BatchReactor) :
  core_ s = [] -> MoveBatchOut_ ctx s = (s, Throw EmptyBufferError).
Proof.
  intro E. unfold MoveBatchOut_, core_Pop, with_buff, bind.
  rewrite E. reflexivity.
Qed.

Lemma MoveBatchOut__cons (ctx : Context) (s : BatchReactor) (m : Material)
  (rest : ResourceBuff) :
  core_ s = m :: rest ->
  MoveBatchOut_ ctx s
  = (set_storage_
       (ResourceBuff.Push
          (Material.Transmute m (Context.GetRecipe ctx (out_recipe_ s)))
          (storage_ s))
       (set_core_ rest s),
     Ok tt).
Proof.
  intro E. unfold MoveBatchOut_, core_Pop, with_buff, bind.
  rewrite E. reflexivity.
Qed.

(** [Refuel_] gives its loop fuel enough: it never runs out. *)
Lemma Refuel_loop_fuel (fuel : nat) :
  forall s, (List.length (reserves_ s) < fuel)%nat ->
            snd (Refuel_loop fuel s) <> OutOfFuel.
Proof.
  induction fuel as [|fuel IH]; intros s Hlen; [lia|].
  simpl. unfold bind at 1, get.
  destruct ((n_core s <? n_batches_ s)%Z
            && BatchIn (reserves_ s) (batch_size_ s));
    [|unfold ret; simpl; discriminate].
  destruct (reserves_ s) as [|m rest] eqn:E.
  - rewrite (bind_Throw _ _ _ _ _ (MoveBatchIn__nil s E)). simpl. discriminate.
  - rewrite (bind_Ok _ _ _ _ _ (MoveBatchIn__cons s m rest E)).
    apply IH. simpl in *. lia.
Qed.

Lemma Refuel__terminates (s : BatchReactor) :
  snd (Refuel_ s) <> OutOfFuel.
Proof.
  unfold Refuel_, bind, get. apply Refuel_loop_fuel. lia.
Qed.

(** ** Pop by quantity *)

Lemma PopQty_loop_nonpos (left : Q) (b : ResourceBuff) :
  Qltb 0 left = false -> ResourceBuff.PopQty_loop left b = ([], b).
Proof.
  intro H. destruct b; simpl; rewrite H; reflexivity.
Qed.

Lemma PopQty_loop_quantity (b : ResourceBuff) :
  forall left ms rest,
    0 <= left -> left <= ResourceBuff.quantity b ->
    ResourceBuff.PopQty_loop left b = (ms, rest) ->
    ResourceBuff.quantity ms == left
    /\ ResourceBuff.quantity rest == ResourceBuff.quantity b - left.
Proof.
  induction b as [|m b IH]; intros left ms rest H0 Hle Hpop; simpl in *.
  - destruct (Qltb 0 left); inversion Hpop; subst; simpl; split; lra.
  - destruct (Qltb 0 left) eqn:Epos.
    + destruct (Qltb left (Material.quantity m)) eqn:Esplit.
      * inversion Hpop; subst; simpl. split; lra.
      * apply Qltb_ge in Esplit.
        destruct (ResourceBuff.PopQty_loop (left - Material.quantity m) b)
          as [ms' rest'] eqn:Erec.
        inversion Hpop; subst; simpl.
        assert (H1 : 0 <= left - Material.quantity m) by lra.
        assert (H2 : left - Material.quantity m <= ResourceBuff.quantity b)
          by lra.
        destruct (IH _ _ _ H1 H2 Erec) as [Hms Hrest].
        split; lra.
    + apply Qltb_ge in Epos. inversion Hpop; subst; simpl. split; lra.
Qed.

Lemma PopQty_loop_nonempty (b : ResourceBuff) (left : Q) :
  0 < left -> left <= ResourceBuff.quantity b ->
  fst (ResourceBuff.PopQty_loop left b) <> [].
Proof.
  intros Hpos Hle. apply Qltb_lt in Hpos.
  destruct b as [|m b]; simpl in *.
  - apply Qltb_lt in Hpos. lra.
  - rewrite Hpos.
    destruct (Qltb left (Material.quantity m)); [simpl; discriminate|].
    destruct (ResourceBuff.PopQty_loop (left - Material.quantity m) b).
    simpl; discriminate.
Qed.

(** ** Merging a sequence of materials into its first *)

Lemma quantity_fold_Absorb (v : list Material) :
  forall acc,
    Material.quantity (fold_left Material.Absorb v acc)
    == Material.quantity acc + ResourceBuff.quantity v.
Proof.
  induction v as [|m v IH]; intro acc; simpl.
  - lra.
  - rewrite IH. simpl. lra.
Qed.

Lemma absorb_from_fold
  (get_at : list Material -> nat -> result Material)
  (Hget : forall v i a, nth_error v i = Some a -> get_at v i = Ok a)
  (v : list Material) :
  forall pre acc,
    absorb_from get_at (pre ++ v) (List.length pre) (List.length v) acc
    = Ok (fold_left Material.Absorb v acc).
Proof.
  induction v as [|m v IH]; intros pre acc; simpl; [reflexivity|].
  rewrite (Hget (pre ++ m :: v) (List.length pre) m).
  - specialize (IH (pre ++ [m]) (Material.Absorb acc m)).
    rewrite <- app_assoc, length_app, Nat.add_1_r in IH. exact IH.
  - rewrite nth_error_app2, Nat.sub_diag by lia. reflexivity.
Qed.

Lemma subscript_Some {A : Type} (v : list A) (i : nat) (a : A) :
  nth_error v i = Some a -> subscript v i = Ok a.
Proof. unfold subscript. intros ->. reflexivity. Qed.

Lemma at__Some {A : Type} (v : list A) (i : nat) (a : A) :
  nth_error v i = Some a -> at_ v i = Ok a.
Proof. unfold at_. intros ->. reflexivity. Qed.

(** ** Settling one trade *)

Lemma GetMatlTrades_body_Ok (t : Trade) (s : BatchReactor) :
  0 < amt t -> amt t <= ResourceBuff.quantity (storage_ s) ->
  exists first others rest,
    ResourceBuff.PopQty (amt t) (storage_ s) = Ok (first :: others, rest)
    /\ GetMatlTrades_body t s
       = (set_storage_ rest s,
          Ok (fold_left Material.Absorb others first))
    /\ Material.quantity (fold_left Material.Absorb others first) == amt t
    /\ ResourceBuff.quantity rest
       == ResourceBuff.quantity (storage_ s) - amt t.
Proof.
  intros Hpos Hle.
  pose proof (PopQty_loop_nonempty (storage_ s) (amt t) Hpos Hle) as Hne.
  destruct (ResourceBuff.PopQty_loop (amt t) (storage_ s))
    as [manifest rest] eqn:Eloop.
  destruct manifest as [|first others]; [exfalso; apply Hne; reflexivity|].
  destruct (PopQty_loop_quantity (storage_ s) _ _ _ (Qlt_le_weak _ _ Hpos)
              Hle Eloop) as [Hms Hrest].
  assert (Hpop : ResourceBuff.PopQty (amt t) (storage_ s)
                 = Ok (first :: others, rest)).
  { unfold ResourceBuff.PopQty.
    apply Qltb_ge in Hle. rewrite Hle, Eloop. reflexivity. }
  exists first, others, rest. split; [exact Hpop|]. split.
  - unfold GetMatlTrades_body, bind, storage_PopQty, with_buff, lift.
    rewrite Hpop.
    pose proof (absorb_from_fold (@subscript Material)
                  (@subscript_Some Material) others [first] first) as Hfold.
    simpl in *. rewrite Nat.sub_0_r, Hfold.
    reflexivity.
  - split; [|exact Hrest].
    rewrite quantity_fold_Absorb. simpl in Hms. lra.
Qed.

Lemma GetMatlTrades_body_inv (t : Trade) (s s' : BatchReactor)
  (r : Material) :
  GetMatlTrades_body t s = (s', Ok r) ->
  0 < amt t /\ amt t <= ResourceBuff.quantity (storage_ s).
Proof.
  unfold GetMatlTrades_body, bind, storage_PopQty, with_buff, lift,
    ResourceBuff.PopQty.
  destruct (Qltb (ResourceBuff.quantity (storage_ s)) (amt t)) eqn:Ele;
    [discriminate|].
  apply Qltb_ge in Ele.
  destruct (Qltb 0 (amt t)) eqn:Epos.
  - apply Qltb_lt in Epos. intros _. split; assumption.
  - rewrite (PopQty_loop_nonpos _ _ Epos). simpl. discriminate.
Qed.

Lemma GetMatlTrades_total (trades : list Trade) :
  forall responses s s' out,
    GetMatlTrades trades responses s = (s', Ok out) ->
    total s' == total s - sum_amt trades.
Proof.
  induction trades as [|t trades IH]; intros responses s s' out H;
    simpl in *.
  - inversion H; subst. lra.
  - unfold bind in H.
    destruct (GetMatlTrades_body t s) as [s1 [r| e |]] eqn:Ebody;
      try discriminate.
    destruct (GetMatlTrades_body_inv _ _ _ _ Ebody) as [Hpos Hle].
    destruct (GetMatlTrades_body_Ok t s Hpos Hle)
      as (first & others & rest & _ & Hrun & _ & Hrest).
    rewrite Hrun in Ebody. inversion Ebody; subst.
    rewrite (IH _ _ _ _ H).
    unfold total; simpl. rewrite Hrest. lra.
Qed.

(** ** Delivery absorption *)

Lemma set_reserves__twice (a b : ResourceBuff) (s : BatchReactor) :
  set_reserves_ a (set_reserves_ b s) = set_reserves_ a s.
Proof. reflexivity. Qed.

Lemma set_reserves__same (s : BatchReactor) :
  set_reserves_ (reserves_ s) s = s.
Proof. destruct s; reflexivity. Qed.

Lemma Extract_Ok (m : Material) (amount : Q) :
  amount <= Material.quantity m ->
  Material.Extract m amount
  = Ok (Material.mk amount (Material.comp m),
        Material.mk (Material.quantity m - amount) (Material.comp m)).
Proof.
  intro H. unfold Material.Extract.
  apply Qltb_ge in H. rewrite H. reflexivity.
Qed.

(** What the loop of [AddBatches_] leaves when it ends: the batches it
    pushed are full, and what is left of [mat] does not exceed a batch. *)
Lemma AddBatches_loop_Ok (fuel : nat) :
  forall mat s s' mat',
    AddBatches_loop fuel mat s = (s', Ok mat') ->
    exists batches,
      s' = set_reserves_ (reserves_ s ++ batches) s
      /\ Forall (fun m => Material.quantity m == batch_size_ s) batches
      /\ Material.quantity mat' + ResourceBuff.quantity batches
         == Material.quantity mat
      /\ Material.quantity mat' <= batch_size_ s
      /\ (0 <= Material.quantity mat -> 0 <= Material.quantity mat').
Proof.
  induction fuel as [|fuel IH]; intros mat s s' mat' H; simpl in H.
  - discriminate.
  - unfold bind at 1, get in H.
    destruct (Qltb (batch_size_ s) (Material.quantity mat)) eqn:Ecut.
    + apply Qltb_lt in Ecut.
      unfold bind at 1, lift in H.
      rewrite (Extract_Ok mat (batch_size_ s) (Qlt_le_weak _ _ Ecut)) in H.
      unfold bind at 1, reserves_Push, modify in H. simpl in H.
      apply IH in H.
      destruct H as (batches & Hs' & Hfull & Hsum & Hle & Hpos).
      simpl in *.
      exists (Material.mk (batch_size_ s) (Material.comp mat) :: batches).
      split; [|split; [|split; [|split]]].
      * rewrite Hs'. unfold ResourceBuff.Push.
        rewrite set_reserves__twice, <- app_assoc. reflexivity.
      * constructor; [reflexivity | exact Hfull].
      * simpl. lra.
      * exact Hle.
      * intros _. apply Hpos. lra.
    + apply Qltb_ge in Ecut. unfold ret in H. inversion H; subst.
      exists []. rewrite app_nil_r, set_reserves__same. simpl.
      split; [reflexivity|]. split; [constructor|].
      split; [lra|]. split; [exact Ecut | tauto].
Qed.

(** With a positive batch size the loop ends, given fuel for one
    iteration per batch that [mat] holds. *)
Lemma AddBatches_loop_fuel (k : nat) :
  forall mat s,
    0 < batch_size_ s ->
    Material.quantity mat <= inject_Z (Z.of_nat (S k)) * batch_size_ s ->
    exists s' mat', AddBatches_loop (S k) mat s = (s', Ok mat').
Proof.
  induction k as [|k IH]; intros mat s Hbs Hle.
  - exists s, mat. simpl. unfold bind, get, ret.
    assert (E : Qltb (batch_size_ s) (Material.quantity mat) = false).
    { apply Qltb_ge. change (inject_Z (Z.of_nat 1)) with 1 in Hle. lra. }
    rewrite E. reflexivity.
  - change (AddBatches_loop (S (S k)) mat s)
      with ((s0 <- get ;;
             if Qltb (batch_size_ s0) (Material.quantity mat) then
               pieces <- lift (Material.Extract mat (batch_size_ s0)) ;;
               reserves_Push (fst pieces) ;;
               AddBatches_loop (S k) (snd pieces)
             else ret mat) s).
    unfold bind at 1, get.
    destruct (Qltb (batch_size_ s) (Material.quantity mat)) eqn:Ecut.
    + apply Qltb_lt in Ecut.
      unfold bind at 1, lift.
      rewrite (Extract_Ok mat (batch_size_ s) (Qlt_le_weak _ _ Ecut)).
      unfold bind at 1, reserves_Push, modify.
      apply IH; [exact Hbs|].
      change (Material.quantity mat - batch_size_ s
              <= inject_Z (Z.of_nat (S k)) * batch_size_ s).
      rewrite (Nat2Z.inj_succ (S k)) in Hle. unfold Z.succ in Hle.
      rewrite inject_Z_plus in Hle.
      change (inject_Z 1) with 1 in Hle.
      set (n := inject_Z (Z.of_nat (S k))) in *.
      assert (Hd : (n + 1) * batch_size_ s == n * batch_size_ s
                                              + batch_size_ s) by ring.
      lra.
    + exists s, mat. reflexivity.
Qed.

Lemma enough_fuel (x bs : Q) :
  0 < bs ->
  exists k : nat, forall k', (k <= k')%nat ->
    x <= inject_Z (Z.of_nat (S k')) * bs.
Proof.
  intro Hbs.
  exists (Z.to_nat (Qceiling (x / bs))). intros k' Hk.
  assert (H1 : x / bs <= inject_Z (Qceiling (x / bs)))
    by apply Qle_ceiling.
  assert (H2 : inject_Z (Qceiling (x / bs)) <= inject_Z (Z.of_nat (S k'))).
  { rewrite <- Zle_Qle. lia. }
  assert (H3 : x / bs <= inject_Z (Z.of_nat (S k'))) by lra.
  apply (Qmult_le_compat_r _ _ bs) in H3; [|lra].
  assert (H4 : x / bs * bs == x) by (field; lra).
  lra.
Qed.

(** The batches [AddBatches_] puts behind [last], once [last] is
    settled. *)
Lemma AddBatches_rest_Ok (fuel : nat) (last mat : Material)
  (s s' : BatchReactor) :
  AddBatches_rest fuel last mat s = (s', Ok tt) ->
  exists batches mat',
    s' = set_reserves_
           (reserves_ s ++ [last] ++ batches
            ++ (if Qltb eps_rsrc (Material.quantity mat') then [mat']
                else []))
           s
    /\ Forall (fun m => Material.quantity m == batch_size_ s) batches
    /\ Material.quantity mat' + ResourceBuff.quantity batches
       == Material.quantity mat
    /\ Material.quantity mat' <= batch_size_ s
    /\ (0 <= Material.quantity mat -> 0 <= Material.quantity mat').
Proof.
  unfold AddBatches_rest. intro H.
  unfold bind at 1, reserves_Push, modify in H.
  unfold bind at 1 in H.
  destruct (AddBatches_loop fuel mat
              (set_reserves_ (ResourceBuff.Push last (reserves_ s)) s))
    as [s1 [mat'| e |]] eqn:Eloop; try discriminate.
  apply AddBatches_loop_Ok in Eloop.
  destruct Eloop as (batches & Hs1 & Hfull & Hsum & Hle & Hpos).
  simpl in *. rewrite set_reserves__twice in Hs1.
  exists batches, mat'.
  split; [|repeat split; assumption].
  destruct (Qltb eps_rsrc (Material.quantity mat')).
  - unfold reserves_Push, modify in H. inversion H; subst. simpl.
    unfold ResourceBuff.Push.
    rewrite set_reserves__twice, <- !app_assoc. reflexivity.
  - unfold ret in H. inversion H; subst.
    unfold ResourceBuff.Push. rewrite app_nil_r, <- app_assoc.
    reflexivity.
Qed.

(** ** The quantized shape *)

Lemma quantized_snoc (bs : Q) (l : ResourceBuff) (x : Material) :
  Forall (fun m => Material.quantity m == bs) l ->
  Material.quantity x <= bs ->
  quantized bs (l ++ [x]).
Proof.
  intros Hl Hx. unfold quantized. rewrite rev_app_distr. simpl.
  split; [exact Hx | apply Forall_rev; exact Hl].
Qed.

Lemma quantized_full (bs : Q) (l : ResourceBuff) :
  Forall (fun m => Material.quantity m == bs) l -> quantized bs l.
Proof.
  intro Hl. unfold quantized.
  apply Forall_rev in Hl.
  destruct (rev l) as [|x front]; [exact I|].
  inversion Hl; subst. split; [lra | assumption].
Qed.

Lemma quantized_snoc_inv (bs : Q) (l : ResourceBuff) (x : Material) :
  quantized bs (l ++ [x]) ->
  Forall (fun m => Material.quantity m == bs) l
  /\ Material.quantity x <= bs.
Proof.
  unfold quantized. rewrite rev_app_distr. simpl.
  intros [Hx Hl]. split; [|exact Hx].
  rewrite <- (rev_involutive l). apply Forall_rev. exact Hl.
Qed.

Lemma quantized_tail (bs : Q) (front batches : ResourceBuff)
  (last mat' : Material) (pushed : bool) :
  Forall (fun m => Material.quantity m == bs) front ->
  Material.quantity last == bs ->
  Forall (fun m => Material.quantity m == bs) batches ->
  Material.quantity mat' <= bs ->
  quantized bs
    (front ++ [last] ++ batches ++ (if pushed then [mat'] else [])).
Proof.
  intros Hfront Hlast Hbatches Hmat'.
  assert (Hfull : Forall (fun m => Material.quantity m == bs)
                    (front ++ [last] ++ batches)).
  { apply Forall_app. split; [exact Hfront|].
    apply Forall_app. split; [|exact Hbatches].
    constructor; [exact Hlast | constructor]. }
  destruct pushed.
  - replace (front ++ [last] ++ batches ++ [mat'])
      with ((front ++ [last] ++ batches) ++ [mat'])
      by (rewrite <- !app_assoc; reflexivity).
    apply quantized_snoc; assumption.
  - rewrite app_nil_r. apply quantized_full. exact Hfull.
Qed.

(** ** What [AddBatches_] does to the reserves *)

Lemma AddBatches__empty (fuel : nat) (mat : Material) (s : BatchReactor) :
  reserves_ s = [] ->
  AddBatches_ fuel mat s = (s, Throw EmptyBufferError).
Proof.
  intro E. unfold AddBatches_, bind, reserves_PopBack, with_buff.
  rewrite E. reflexivity.
Qed.

Lemma AddBatches__Ok (fuel : nat) (mat : Material) (s s' : BatchReactor) :
  AddBatches_ fuel mat s = (s', Ok tt) ->
  exists front last tail lost,
    reserves_ s = front ++ [last]
    /\ s' = set_reserves_ (front ++ tail) s
    /\ ResourceBuff.quantity tail + lost
       == Material.quantity last + Material.quantity mat
    /\ (lost == 0 \/ lost <= eps_rsrc)
    /\ (0 <= Material.quantity mat -> 0 <= lost)
    /\ (Forall (fun m => Material.quantity m == batch_size_ s) front ->
        Material.quantity last <= batch_size_ s ->
        quantized (batch_size_ s) (front ++ tail)).
Proof.
  unfold AddBatches_. intro H.
  unfold bind at 1, reserves_PopBack, with_buff in H.
  destruct (ResourceBuff.PopBack (reserves_ s)) as [[last front]| e |]
    eqn:Epop; try discriminate.
  apply PopBack_Ok in Epop.
  unfold bind at 1, get in H.
  change (batch_size_ (set_reserves_ front s)) with (batch_size_ s) in H.
  exists front, last.
  destruct (Qltb (Material.quantity last) (batch_size_ s)) eqn:Elast.
  - apply Qltb_lt in Elast.
    destruct (Qle_bool (Material.quantity last + Material.quantity mat)
                (batch_size_ s)) eqn:Efits.
    + (* the delivery fits in the last batch *)
      apply Qle_bool_iff in Efits.
      unfold reserves_Push, modify in H. inversion H; subst.
      exists [Material.Absorb last mat], 0.
      split; [exact Epop|]. split; [reflexivity|].
      split; [simpl; lra|]. split; [left; reflexivity|].
      split; [intros _; lra|].
      intros Hfront _. apply quantized_snoc; [exact Hfront | exact Efits].
    + (* the last batch is topped up, the rest is cut into batches *)
      apply Qle_bool_gt in Efits.
      unfold bind at 1, lift in H.
      rewrite (Extract_Ok mat (batch_size_ s - Material.quantity last))
        in H by lra.
      cbn [fst snd] in H.
      apply AddBatches_rest_Ok in H.
      destruct H as (batches & mat' & Hs' & Hfull & Hsum & Hle & Hpos).
      cbn [Material.quantity batch_size_ set_reserves_ reserves_] in *.
      rewrite set_reserves__twice in Hs'.
      set (pushed := Qltb eps_rsrc (Material.quantity mat')) in *.
      set (top := Material.Absorb last
                    (Material.mk (batch_size_ s - Material.quantity last)
                       (Material.comp mat))) in *.
      exists ([top] ++ batches ++ (if pushed then [mat'] else [])),
             (if pushed then 0 else Material.quantity mat').
      split; [exact Epop|]. split; [exact Hs'|].
      assert (Htop : Material.quantity top == batch_size_ s)
        by (subst top; simpl; lra).
      split; [|split; [|split]].
      * rewrite !quantity_app. simpl.
        destruct pushed; simpl; lra.
      * destruct pushed eqn:Ep; [left; reflexivity|].
        right. apply Qltb_ge. exact Ep.
      * intros _. destruct pushed; [lra|]. apply Hpos. lra.
      * intros Hfront _. apply quantized_tail; assumption.
  - (* the last batch is full: the delivery is cut into batches *)
    apply Qltb_ge in Elast.
    apply AddBatches_rest_Ok in H.
    destruct H as (batches & mat' & Hs' & Hfull & Hsum & Hle & Hpos).
    cbn [Material.quantity batch_size_ set_reserves_ reserves_] in *.
    rewrite set_reserves__twice in Hs'.
    set (pushed := Qltb eps_rsrc (Material.quantity mat')) in *.
    exists ([last] ++ batches ++ (if pushed then [mat'] else [])),
           (if pushed then 0 else Material.quantity mat').
    split; [exact Epop|]. split; [exact Hs'|].
    split; [|split; [|split]].
    + rewrite !quantity_app. simpl.
      destruct pushed; simpl; lra.
    + destruct pushed eqn:Ep; [left; reflexivity|].
      right. apply Qltb_ge. exact Ep.
    + intros H0. destruct pushed; [lra|]. apply Hpos. exact H0.
    + intros Hfront Hlast. apply quantized_tail; try assumption. lra.
Qed.

Lemma AddBatches__total (fuel : nat) (mat : Material)
  (s s' : BatchReactor) :
  AddBatches_ fuel mat s = (s', Ok tt) ->
  exists lost,
    total s' + lost == total s + Material.quantity mat
    /\ (lost == 0 \/ lost <= eps_rsrc)
    /\ (0 <= Material.quantity mat -> 0 <= lost).
Proof.
  intro H. apply AddBatches__Ok in H.
  destruct H as (front & last & tail & lost & Hres & Hs' & Hsum & Hl & H0
                 & _).
  exists lost. split; [|split; assumption].
  subst s'. unfold total; simpl. rewrite Hres, !quantity_app. simpl. lra.
Qed.

Lemma AddBatches__quantized (fuel : nat) (mat : Material)
  (s s' : BatchReactor) :
  quantized (batch_size_ s) (reserves_ s) ->
  AddBatches_ fuel mat s = (s', Ok tt) ->
  quantized (batch_size_ s') (reserves_ s').
Proof.
  intros Hq H. apply AddBatches__Ok in H.
  destruct H as (front & last & tail & lost & Hres & Hs' & _ & _ & _ & Hshape).
  rewrite Hres in Hq. apply quantized_snoc_inv in Hq.
  destruct Hq as [Hfront Hlast].
  subst s'. simpl. apply Hshape; assumption.
Qed.

(** Into reserves that are not empty, and with a positive batch size,
    [AddBatches_] returns, given fuel enough. *)
Lemma AddBatches__returns (mat : Material) (s : BatchReactor) :
  reserves_ s <> [] -> 0 < batch_size_ s ->
  exists k : nat, forall fuel, (k <= fuel)%nat ->
    exists s', AddBatches_ fuel mat s = (s', Ok tt).
Proof.
  intros Hne Hbs.
  destruct (enough_fuel (Material.quantity mat) (batch_size_ s) Hbs)
    as [k Hk].
  exists (S k). intros fuel Hfuel.
  destruct fuel as [|k']; [lia|].
  assert (Hk' : (k <= k')%nat) by lia. specialize (Hk k' Hk').
  assert (Hrest : forall last mat1 s1,
             batch_size_ s1 = batch_size_ s ->
             Material.quantity mat1 <= Material.quantity mat ->
             exists s', AddBatches_rest (S k') last mat1 s1 = (s', Ok tt)).
  { intros last mat1 s1 Hbs1 Hle.
    unfold AddBatches_rest.
    unfold bind at 1, reserves_Push, modify.
    destruct (AddBatches_loop_fuel k' mat1
                (set_reserves_ (ResourceBuff.Push last (reserves_ s1)) s1))
      as (s2 & mat' & Hloop).
    - simpl. rewrite Hbs1. exact Hbs.
    - change (batch_size_ (set_reserves_ _ s1)) with (batch_size_ s1).
      rewrite Hbs1. lra.
    - rewrite (bind_Ok _ _ _ _ _ Hloop).
      destruct (Qltb eps_rsrc (Material.quantity mat'));
        eexists; reflexivity. }
  destruct (exists_last Hne) as (front & last & Hres).
  unfold AddBatches_.
  unfold bind at 1, reserves_PopBack, with_buff.
  rewrite Hres, PopBack_snoc.
  unfold bind at 1, get.
  change (batch_size_ (set_reserves_ front s)) with (batch_size_ s).
  destruct (Qltb (Material.quantity last) (batch_size_ s)) eqn:Elast.
  - apply Qltb_lt in Elast.
    destruct (Qle_bool (Material.quantity last + Material.quantity mat)
                (batch_size_ s)) eqn:Efits.
    + eexists; reflexivity.
    + apply Qle_bool_gt in Efits.
      unfold bind at 1, lift.
      rewrite (Extract_Ok mat (batch_size_ s - Material.quantity last))
        by lra.
      apply Hrest; [reflexivity | simpl; lra].
  - apply Hrest; [reflexivity | lra].
Qed.

(** ** Discharge *)

Lemma discharge_loop (ctx : Context) (n : nat) :
  forall s,
    (n <= List.length (core_ s))%nat ->
    repeat_M n (MoveBatchOut_ ctx) s
    = (set_storage_
         (storage_ s
          ++ map (fun m => Material.Transmute m
                             (Context.GetRecipe ctx (out_recipe_ s)))
               (firstn n (core_ s)))
         (set_core_ (skipn n (core_ s)) s),
       Ok tt).
Proof.
  induction n as [|n IH]; intros s Hlen.
  - simpl. unfold ret. destruct s; simpl. rewrite app_nil_r. reflexivity.
  - destruct (core_ s) as [|m rest] eqn:E; [simpl in Hlen; lia|].
    simpl repeat_M.
    rewrite (bind_Ok _ _ _ _ _ (MoveBatchOut__cons ctx s m rest E)).
    rewrite IH by (simpl in *; lia).
    destruct s; simpl in *. unfold ResourceBuff.Push.
    rewrite <- app_assoc. reflexivity.
Qed.

(** A core that holds fewer batches than are to be discharged is emptied
    into storage, and the pop after the last one throws. *)
Lemma discharge_loop_short (ctx : Context) (n : nat) :
  forall s,
    (List.length (core_ s) < n)%nat ->
    repeat_M n (MoveBatchOut_ ctx) s
    = (set_storage_
         (storage_ s
          ++ map (fun m => Material.Transmute m
                             (Context.GetRecipe ctx (out_recipe_ s)))
               (core_ s))
         (set_core_ [] s),
       Throw EmptyBufferError).
Proof.
  induction n as [|n IH]; intros s Hlen; [lia|].
  simpl repeat_M.
  destruct (core_ s) as [|m rest] eqn:E.
  - rewrite (bind_Throw _ _ _ _ _ (MoveBatchOut__nil ctx s E)).
    destruct s; simpl in *. subst. rewrite app_nil_r. reflexivity.
  - rewrite (bind_Ok _ _ _ _ _ (MoveBatchOut__cons ctx s m rest E)).
    rewrite IH by (simpl in *; lia).
    destruct s; simpl in *. unfold ResourceBuff.Push.
    rewrite <- app_assoc. reflexivity.
Qed.

(** C3 (amended). In phase PROCESS, the tick at
    [start_time + process_time], when the core holds at least [n_load]
    batches, moves the first [n_load] batches of the core, in order and
    transmuted to the out-recipe, behind those of storage, and then sets
    the phase to WAITING; a tick at any other time changes nothing. *)
Theorem discharge_on_schedule (ctx : Context) (time : Z)
  (s : BatchReactor) :
  phase_ s = PROCESS ->
  (time = (start_time_ s + process_time_ s)%Z ->
   (Z.to_nat (n_load_ s) <= List.length (core_ s))%nat ->
   HandleTick ctx time s
   = (set_phase_ WAITING
        (set_storage_
           (storage_ s
            ++ map (fun m => Material.Transmute m
                               (Context.GetRecipe ctx (out_recipe_ s)))
                 (firstn (Z.to_nat (n_load_ s)) (core_ s)))
           (set_core_ (skipn (Z.to_nat (n_load_ s)) (core_ s)) s)),
      Ok tt))
  /\ (time <> (start_time_ s + process_time_ s)%Z ->
      HandleTick ctx time s = (s, Ok tt)).
Proof.
  intro Hphase.
  split; intro Htime; unfold HandleTick; unfold bind at 1, get;
    rewrite Hphase; unfold end_time.
  - intro Hlen. apply Z.eqb_eq in Htime. rewrite Htime.
    rewrite (bind_Ok _ _ _ _ _ (discharge_loop ctx _ s Hlen)).
    reflexivity.
  - apply Z.eqb_neq in Htime. rewrite Htime. reflexivity.
Qed.

(** When the core holds fewer than [n_load] batches the scheduled
    discharge empties it into storage and throws; the facility stays in
    PROCESS. *)
Lemma discharge_short_core (ctx : Context) (s : BatchReactor) :
  phase_ s = PROCESS ->
  (List.length (core_ s) < Z.to_nat (n_load_ s))%nat ->
  HandleTick ctx (end_time s) s
  = (set_storage_
       (storage_ s
        ++ map (fun m => Material.Transmute m
                           (Context.GetRecipe ctx (out_recipe_ s)))
             (core_ s))
       (set_core_ [] s),
     Throw EmptyBufferError).
Proof.
  intros Hphase Hlen. unfold HandleTick. unfold bind at 1, get.
  rewrite Hphase, Z.eqb_refl.
  rewrite (bind_Throw _ _ _ _ _ (discharge_loop_short ctx _ s Hlen)).
  reflexivity.
Qed.

(** ** What the buffer operations leave alone *)

Lemma preserves_modify (I : BatchReactor -> Prop)
  (f : BatchReactor -> BatchReactor) :
  (forall s, I s -> I (f s)) -> preserves I (modify f).
Proof. intros Hf s Hs. apply Hf. exact Hs. Qed.

Lemma preserves_with_buff {A : Type} (I : BatchReactor -> Prop)
  (getb : BatchReactor -> ResourceBuff)
  (setb : ResourceBuff -> BatchReactor -> BatchReactor)
  (op : ResourceBuff -> result (A * ResourceBuff)) :
  (forall b s, I s -> I (setb b s)) -> preserves I (with_buff getb setb op).
Proof.
  intros Hset s Hs. unfold with_buff.
  destruct (op (getb s)) as [[a b]| e |]; simpl; auto.
Qed.

Section BufferBlind.

Variable I : BatchReactor -> Prop.
Hypothesis Hblind : buffer_blind I.

Lemma blind_reserves_Push (m : Material) : preserves I (reserves_Push m).
Proof. apply preserves_modify. intros s Hs. apply Hblind. exact Hs. Qed.

Lemma blind_core_Push (m : Material) : preserves I (core_Push m).
Proof. apply preserves_modify. intros s Hs. apply Hblind. exact Hs. Qed.

Lemma blind_storage_Push (m : Material) : preserves I (storage_Push m).
Proof. apply preserves_modify. intros s Hs. apply Hblind. exact Hs. Qed.

Lemma blind_MoveBatchIn_ : preserves I MoveBatchIn_.
Proof.
  unfold MoveBatchIn_. apply preserves_bind.
  - apply preserves_with_buff. apply Hblind.
  - intro mat. apply blind_core_Push.
Qed.

Lemma blind_MoveBatchOut_ (ctx : Context) : preserves I (MoveBatchOut_ ctx).
Proof.
  unfold MoveBatchOut_. apply preserves_bind.
  - apply preserves_with_buff. apply Hblind.
  - intro mat. apply preserves_bind; [apply preserves_get|].
    intro s. apply blind_storage_Push.
Qed.

Lemma blind_HandleTock (time : Z) : preserves I (HandleTock time).
Proof. apply preserves_HandleTock. apply blind_MoveBatchIn_. Qed.

Lemma blind_AddBatches_loop (fuel : nat) :
  forall mat, preserves I (AddBatches_loop fuel mat).
Proof.
  induction fuel as [|fuel IH]; intro mat; simpl.
  - apply preserves_lift.
  - apply preserves_bind; [apply preserves_get|]. intro s.
    destruct (Qltb (batch_size_ s) (Material.quantity mat)).
    + apply preserves_bind; [apply preserves_lift|]. intro pieces.
      apply preserves_bind; [apply blind_reserves_Push|]. intros _.
      apply IH.
    + apply preserves_ret.
Qed.

Lemma blind_AddBatches_rest (fuel : nat) (last mat : Material) :
  preserves I (AddBatches_rest fuel last mat).
Proof.
  unfold AddBatches_rest.
  apply preserves_bind; [apply blind_reserves_Push|]. intros _.
  apply preserves_bind; [apply blind_AddBatches_loop|]. intro mat'.
  destruct (Qltb eps_rsrc (Material.quantity mat')).
  - apply blind_reserves_Push.
  - apply preserves_ret.
Qed.

Lemma blind_AddBatches_ (fuel : nat) (mat : Material) :
  preserves I (AddBatches_ fuel mat).
Proof.
  unfold AddBatches_. apply preserves_bind.
  - apply preserves_with_buff. apply Hblind.
  - intro last. apply preserves_bind; [apply preserves_get|]. intro s.
    destruct (Qltb (Material.quantity last) (batch_size_ s)).
    + destruct (Qle_bool (Material.quantity last + Material.quantity mat)
                  (batch_size_ s)).
      * apply blind_reserves_Push.
      * apply preserves_bind; [apply preserves_lift|]. intro pieces.
        apply blind_AddBatches_rest.
    + apply blind_AddBatches_rest.
Qed.

Lemma blind_AcceptMatlTrades (fuel : nat)
  (responses : list (Trade * Material)) :
  preserves I (AcceptMatlTrades fuel responses).
Proof.
  unfold AcceptMatlTrades.
  apply preserves_bind; [apply preserves_lift|]. intro first.
  apply preserves_bind; [apply preserves_lift|]. intro mat.
  apply blind_AddBatches_.
Qed.

Lemma blind_GetMatlTrades (trades : list Trade) :
  forall responses, preserves I (GetMatlTrades trades responses).
Proof.
  induction trades as [|t trades IH]; intro responses; simpl.
  - apply preserves_ret.
  - apply preserves_bind; [|intro r; apply IH].
    unfold GetMatlTrades_body. apply preserves_bind.
    + apply preserves_with_buff. apply Hblind.
    + intro manifest.
      apply preserves_bind; [apply preserves_lift|]. intro response.
      apply preserves_lift.
Qed.

End BufferBlind.

Lemma controls_blind (c : BatchReactor) :
  buffer_blind (fun s => controls s = c).
Proof. repeat split; intros b s Hs; exact Hs. Qed.

Lemma controls_phase_ (s s' : BatchReactor) :
  controls s' = controls s -> phase_ s' = phase_ s.
Proof. intro H. apply (f_equal phase_) in H. exact H. Qed.

Lemma controls_end_time (s s' : BatchReactor) :
  controls s' = controls s -> end_time s' = end_time s.
Proof. intro H. apply (f_equal end_time) in H. exact H. Qed.

(** ** The phase machine, one tick at a time *)

Lemma HandleTick_INITIAL (ctx : Context) (time : Z) (s : BatchReactor) :
  phase_ s = INITIAL ->
  HandleTick ctx time s
  = (if (n_core s =? n_batches_ s)%Z then phase ctx PROCESS else ret tt) s.
Proof.
  intro H. unfold HandleTick, bind at 1, get. rewrite H. reflexivity.
Qed.

Lemma HandleTick_PROCESS (ctx : Context) (time : Z) (s : BatchReactor) :
  phase_ s = PROCESS ->
  HandleTick ctx time s
  = (if (time =? end_time s)%Z then
       repeat_M (Z.to_nat (n_load_ s)) (MoveBatchOut_ ctx) ;;
       phase ctx WAITING
     else ret tt) s.
Proof.
  intro H. unfold HandleTick, bind at 1, get. rewrite H. reflexivity.
Qed.

Lemma HandleTick_WAITING (ctx : Context) (time : Z) (s : BatchReactor) :
  phase_ s = WAITING ->
  HandleTick ctx time s
  = (if ((n_core s =? n_batches_ s)
         && (int_add (end_time s) (refuel_time_ s)
             <=? Context.time ctx))%Z
     then phase ctx PROCESS
     else ret tt) s.
Proof.
  intro H. unfold HandleTick, bind at 1, get. rewrite H. reflexivity.
Qed.

Lemma HandleTick_step (ctx : Context) (time : Z) (s : BatchReactor) :
  match phase_ s with
  | INITIAL =>
      fst (HandleTick ctx time s) = s
      \/ (n_core s = n_batches_ s
          /\ fst (HandleTick ctx time s)
             = set_phase_ PROCESS (set_start_time_ (Context.time ctx) s))
  | PROCESS =>
      controls (fst (HandleTick ctx time s)) = controls s
      \/ (time = end_time s
          /\ phase_ (fst (HandleTick ctx time s)) = WAITING
          /\ end_time (fst (HandleTick ctx time s)) = end_time s)
  | WAITING =>
      fst (HandleTick ctx time s) = s
      \/ (n_core s = n_batches_ s
          /\ (int_add (end_time s) (refuel_time_ s) <= Context.time ctx)%Z
          /\ fst (HandleTick ctx time s)
             = set_phase_ PROCESS (set_start_time_ (Context.time ctx) s))
  end.
Proof.
  destruct (phase_ s) eqn:Hphase.
  - rewrite (HandleTick_INITIAL ctx time s Hphase).
    destruct (n_core s =? n_batches_ s)%Z eqn:Efull; [|left; reflexivity].
    right. apply Z.eqb_eq in Efull. split; [exact Efull | reflexivity].
  - rewrite (HandleTick_PROCESS ctx time s Hphase).
    destruct (time =? end_time s)%Z eqn:Etime; [|left; reflexivity].
    apply Z.eqb_eq in Etime.
    pose proof (preserves_repeat_M (fun s' => controls s' = controls s)
                  (MoveBatchOut_ ctx)
                  (blind_MoveBatchOut_ _ (controls_blind (controls s)) ctx)
                  (Z.to_nat (n_load_ s)) s eq_refl) as Hloop.
    unfold bind.
    destruct (repeat_M (Z.to_nat (n_load_ s)) (MoveBatchOut_ ctx) s)
      as [s2 [[]| e |]]; simpl in Hloop; [|left; exact Hloop ..].
    right. split; [exact Etime|]. split; [reflexivity|].
    apply (controls_end_time s s2 Hloop).
  - rewrite (HandleTick_WAITING ctx time s Hphase).
    destruct ((n_core s =? n_batches_ s)%Z
              && (int_add (end_time s) (refuel_time_ s)
                  <=? Context.time ctx)%Z)
      eqn:Ego; [|left; reflexivity].
    right. apply andb_true_iff in Ego. destruct Ego as [Efull Elate].
    apply Z.eqb_eq in Efull. apply Z.leb_le in Elate.
    split; [exact Efull|]. split; [exact Elate | reflexivity].
Qed.

Lemma call_controls (ctx : Context) (c : Callback) (s : BatchReactor) :
  (forall now, c <> Tick now) -> controls (call ctx c s) = controls s.
Proof.
  intro Hc. destruct c as [now|now|fuel responses|trades]; simpl.
  - exfalso. apply (Hc now). reflexivity.
  - apply (blind_HandleTock _ (controls_blind (controls s)) now s eq_refl).
  - apply (blind_AcceptMatlTrades _ (controls_blind (controls s))
             fuel responses s eq_refl).
  - apply (blind_GetMatlTrades _ (controls_blind (controls s))
             trades [] s eq_refl).
Qed.

(** While the facility waits, the tick at which it last left PROCESS for
    WAITING is [start_time + process_time]. *)
Lemma waiting_since (ctx : Context) (s0 s : BatchReactor) (e : option Z) :
  history ctx s0 s e ->
  phase_ s0 = INITIAL ->
  phase_ s = WAITING ->
  e = Some (end_time s).
Proof.
  intros Hrun Hstart.
  induction Hrun as [|s e c Hrun IH]; intro Hwait.
  - congruence.
  - destruct c as [now|now|fuel responses|trades].
    + unfold end_of_run.
      pose proof (HandleTick_step (context_at ctx now) now s) as Hstep.
      simpl call in *.
      destruct (phase_ s) eqn:Hphase.
      * destruct Hstep as [Hsame | [_ Hgo]]; rewrite ?Hsame, ?Hgo in Hwait;
          simpl in Hwait; congruence.
      * destruct Hstep as [Hsame | (Htime & Hnew & Hend)].
        -- apply controls_phase_ in Hsame. congruence.
        -- rewrite Hnew, Hend. congruence.
      * destruct Hstep as [Hsame | (_ & _ & Hgo)].
        -- rewrite Hsame in *. simpl. apply IH. reflexivity.
        -- rewrite Hgo in Hwait. simpl in Hwait. congruence.
    + pose proof (call_controls ctx (Tock now) s
                    ltac:(intros ? ?; discriminate)) as Hc.
      unfold end_of_run.
      rewrite (controls_end_time _ _ Hc).
      apply IH. rewrite <- (controls_phase_ _ _ Hc). exact Hwait.
    + pose proof (call_controls ctx (Deliver fuel responses) s
                    ltac:(intros ? ?; discriminate)) as Hc.
      unfold end_of_run.
      rewrite (controls_end_time _ _ Hc).
      apply IH. rewrite <- (controls_phase_ _ _ Hc). exact Hwait.
    + pose proof (call_controls ctx (Settle trades) s
                    ltac:(intros ? ?; discriminate)) as Hc.
      unfold end_of_run.
      rewrite (controls_end_time _ _ Hc).
      apply IH. rewrite <- (controls_phase_ _ _ Hc). exact Hwait.
Qed.

(** An [int] sum that does not exceed [INT_MAX] is not above what the
    32-bit addition gives: the two agree unless the sum falls below the
    least [int], where the addition wraps upwards. *)
Lemma int_wrap_small (z : Z) :
  (- 2147483648 <= z <= INT_MAX)%Z -> int_wrap z = z.
Proof.
  unfold int_wrap, INT_MAX. intro H.
  rewrite Z.mod_small by lia. lia.
Qed.

Lemma int_wrap_above (z : Z) : (z <= INT_MAX)%Z -> (z <= int_wrap z)%Z.
Proof.
  unfold INT_MAX. intro H.
  destruct (Z_le_gt_dec (- 2147483648) z) as [Hlow | Hlow].
  - rewrite int_wrap_small by (unfold INT_MAX; lia). lia.
  - unfold int_wrap.
    pose proof (Z.mod_pos_bound (z + 2147483648) 4294967296 eq_refl).
    lia.
Qed.

(** C4 (amended). Along any run of a facility deployed in phase INITIAL,
    a tick that takes it from WAITING to PROCESS finds the core holding
    exactly [n_batches] batches and makes [start_time] the tick.  The end
    of the previous run, the tick of the last PROCESS to WAITING
    transition, equals [start_time + process_time]; the tick is no
    earlier than the 32-bit sum of that end and [refuel_time], and hence,
    when the sum does not exceed [INT_MAX], no earlier than
    [refuel_time] after the end of the previous run.  Leaving INITIAL for
    PROCESS records the tick in the same way. *)
Theorem refuel_correctness (ctx : Context) (s0 s : BatchReactor)
  (e : option Z) (now : Z) :
  phase_ s0 = INITIAL ->
  history ctx s0 s e ->
  phase_ s <> PROCESS ->
  phase_ (call ctx (Tick now) s) = PROCESS ->
  ResourceBuff.count (core_ s) = n_batches_ s
  /\ start_time_ (call ctx (Tick now) s) = now
  /\ (phase_ s = WAITING ->
      exists end_of_previous_run,
        e = Some end_of_previous_run
        /\ end_of_previous_run = (start_time_ s + process_time_ s)%Z
        /\ (int_add end_of_previous_run (refuel_time_ s) <= now)%Z
        /\ ((end_of_previous_run + refuel_time_ s <= INT_MAX)%Z ->
            (end_of_previous_run + refuel_time_ s <= now)%Z)).
Proof.
  intros Hstart Hrun Hnot Hgo.
  pose proof (HandleTick_step (context_at ctx now) now s) as Hstep.
  simpl call in *.
  destruct (phase_ s) eqn:Hphase; [| congruence |].
  - destruct Hstep as [Hsame | [Hfull Hnew]].
    + rewrite Hsame in Hgo. congruence.
    + rewrite Hnew. simpl.
      split; [exact Hfull|]. split; [reflexivity|]. discriminate.
  - destruct Hstep as [Hsame | (Hfull & Hlate & Hnew)].
    + rewrite Hsame in Hgo. congruence.
    + rewrite Hnew. simpl.
      split; [exact Hfull|]. split; [reflexivity|]. intros _.
      exists (end_time s).
      split; [apply (waiting_since ctx s0 s e Hrun Hstart Hphase)|].
      split; [reflexivity|].
      simpl in Hlate. split; [exact Hlate|].
      intro Hfits. unfold int_add in Hlate.
      pose proof (int_wrap_above _ Hfits). lia.
Qed.

(** ** Mass conservation *)

(** C1 (amended). A tick and a tock leave
    [reserves.quantity() + core.quantity() + storage.quantity()] as it
    was, whatever their outcome; a trade settlement that returns lowers it
    by exactly the traded amounts; a delivery absorption that returns
    raises it by the delivered amount less [lost], the final remainder it
    discards, which is zero or at most [eps_rsrc]. *)
Theorem mass_conservation :
  (forall ctx time s, total (fst (HandleTick ctx time s)) == total s)
  /\ (forall time s, total (fst (HandleTock time s)) == total s)
  /\ (forall trades responses s s' out,
        GetMatlTrades trades responses s = (s', Ok out) ->
        total s' == total s - sum_amt trades)
  /\ (forall fuel mat s s',
        AddBatches_ fuel mat s = (s', Ok tt) ->
        exists lost,
          total s' + lost == total s + Material.quantity mat
          /\ (lost == 0 \/ lost <= eps_rsrc)
          /\ (0 <= Material.quantity mat -> 0 <= lost)).
Proof.
  split; [exact HandleTick_total|].
  split; [exact HandleTock_total|].
  split; [exact GetMatlTrades_total|].
  exact AddBatches__total.
Qed.

(** ** Bids *)

Lemma GetMatlBids_fold (ctx : Context) (s : BatchReactor)
  (reqs : list Request) :
  forall port,
    fold_left
      (fun port req =>
         let qty := Material.quantity (target req) in
         if Qltb qty (ResourceBuff.quantity (storage_ s)) then
           let offer :=
             Material.mk qty (Context.GetRecipe ctx (out_recipe_ s)) in
           AddBid (mkBid req offer (name_ s)) port
         else port)
      reqs port
    = mkBidPortfolio
        (bids port
         ++ map (fun req =>
                   mkBid req
                     (Material.mk (Material.quantity (target req))
                        (Context.GetRecipe ctx (out_recipe_ s)))
                     (name_ s))
              (filter (fun req =>
                         Qltb (Material.quantity (target req))
                           (ResourceBuff.quantity (storage_ s)))
                 reqs))
        (bid_constraints port).
Proof.
  induction reqs as [|req reqs IH]; intro port; simpl.
  - rewrite app_nil_r. destruct port; reflexivity.
  - rewrite IH.
    destruct (Qltb (Material.quantity (target req))
                (ResourceBuff.quantity (storage_ s))); simpl.
    + rewrite <- app_assoc. reflexivity.
    + reflexivity.
Qed.

(** C5 (amended). Given the requests for the out-commodity, bid
    generation returns one portfolio: it holds, in order, one bid of
    exactly the requested quantity (at the out-recipe) for each request
    whose quantity is strictly less than [storage.quantity()] and none for
    the others, and one capacity constraint equal to [storage.quantity()];
    every single bid is strictly below that constraint. *)
Theorem bids_below_capacity (ctx : Context) (commod_requests : CommodMap)
  (reqs : list Request) (s : BatchReactor) :
  commod_at commod_requests (out_commodity_ s) = Ok reqs ->
  exists port,
    GetMatlBids ctx commod_requests s = Ok [port]
    /\ bids port
       = map (fun req =>
                mkBid req
                  (Material.mk (Material.quantity (target req))
                     (Context.GetRecipe ctx (out_recipe_ s)))
                  (name_ s))
           (filter (fun req =>
                      Qltb (Material.quantity (target req))
                        (ResourceBuff.quantity (storage_ s)))
              reqs)
    /\ bid_constraints port = [ResourceBuff.quantity (storage_ s)]
    /\ (forall req, In req reqs ->
        ResourceBuff.quantity (storage_ s)
        <= Material.quantity (target req) ->
        forall b, In b (bids port) -> bid_request b <> req)
    /\ Forall (fun b => Material.quantity (offer b)
                       < ResourceBuff.quantity (storage_ s))
         (bids port).
Proof.
  intro Hat. unfold GetMatlBids. rewrite Hat, GetMatlBids_fold.
  eexists. split; [reflexivity|]. simpl.
  split; [reflexivity|]. split; [reflexivity|]. split.
  - intros req Hin Hge b Hb Heq.
    apply in_map_iff in Hb. destruct Hb as (req' & Hb & Hin').
    apply filter_In in Hin'. destruct Hin' as [_ Hlt].
    apply Qltb_lt in Hlt. subst b. simpl in Heq. subst req'. lra.
  - apply Forall_forall. intros b Hb.
    apply in_map_iff in Hb. destruct Hb as (req & Hb & Hin).
    apply filter_In in Hin. destruct Hin as [_ Hlt].
    apply Qltb_lt in Hlt. subst b. exact Hlt.
Qed.

(** ** Trade settlement *)

(** C6. Settling an accepted trade (of a positive amount [qty]) against
    a storage that holds at least [qty] pops batches of total quantity
    [qty] off storage, merges them into the first by [Absorb], and appends
    the merged unit, paired with the trade, to the responses; storage is
    left with [qty] less.  The settlement throws
    [InsufficientQuantityError] exactly when [qty] exceeds
    [storage.quantity()], and then nothing has changed. *)
Theorem trade_settlement (t : Trade) (more : list Trade)
  (responses : list (Trade * Material)) (s : BatchReactor) :
  (0 < amt t -> amt t <= ResourceBuff.quantity (storage_ s) ->
   exists first others rest,
     ResourceBuff.PopQty (amt t) (storage_ s) = Ok (first :: others, rest)
     /\ GetMatlTrades (t :: more) responses s
        = GetMatlTrades more
            (responses ++ [(t, fold_left Material.Absorb others first)])
            (set_storage_ rest s)
     /\ Material.quantity (fold_left Material.Absorb others first) == amt t
     /\ ResourceBuff.quantity rest
        == ResourceBuff.quantity (storage_ s) - amt t)
  /\ (snd (GetMatlTrades_body t s) = Throw InsufficientQuantityError
      <-> ResourceBuff.quantity (storage_ s) < amt t)
  /\ (ResourceBuff.quantity (storage_ s) < amt t ->
      GetMatlTrades (t :: more) responses s
      = (s, Throw InsufficientQuantityError)).
Proof.
  assert (Hfail : ResourceBuff.quantity (storage_ s) < amt t ->
                  GetMatlTrades_body t s
                  = (s, Throw InsufficientQuantityError)).
  { intro Hlt. apply Qltb_lt in Hlt.
    unfold GetMatlTrades_body, bind, storage_PopQty, with_buff,
      ResourceBuff.PopQty.
    rewrite Hlt. reflexivity. }
  split; [|split].
  - intros Hpos Hle.
    destruct (GetMatlTrades_body_Ok t s Hpos Hle)
      as (first & others & rest & Hpop & Hrun & Hqty & Hrest).
    exists first, others, rest.
    split; [exact Hpop|]. split; [|split; assumption].
    simpl. rewrite (bind_Ok _ _ _ _ _ Hrun). reflexivity.
  - split.
    + intro Hthrow.
      destruct (Qltb (ResourceBuff.quantity (storage_ s)) (amt t)) eqn:Elt;
        [apply Qltb_lt; exact Elt|].
      exfalso. apply Qltb_ge in Elt.
      destruct (Qltb 0 (amt t)) eqn:Epos.
      * apply Qltb_lt in Epos.
        destruct (GetMatlTrades_body_Ok t s Epos Elt)
          as (first & others & rest & _ & Hrun & _).
        rewrite Hrun in Hthrow. discriminate.
      * revert Hthrow.
        unfold GetMatlTrades_body, bind, storage_PopQty, with_buff, lift,
          ResourceBuff.PopQty.
        apply Qltb_ge in Elt. rewrite Elt.
        rewrite (PopQty_loop_nonpos _ _ Epos). simpl. discriminate.
    + intro Hlt. rewrite (Hfail Hlt). reflexivity.
  - intro Hlt. simpl.
    rewrite (bind_Throw _ _ _ _ _ (Hfail Hlt)). reflexivity.
Qed.

(** ** Fuel requests *)

(** C7. When the order is eligible ([order_time() <= context()->time()]),
    a request portfolio is produced exactly when
    [n_reserves * batch_size - reserves.quantity()] exceeds [eps]; it
    holds one request, for that quantity at the in-recipe and for the
    in-commodity, and one capacity constraint of that quantity. *)
Theorem fuel_request (eps : Q) (order_time : BatchReactor -> Z)
  (ctx : Context) (s : BatchReactor) :
  (order_time s <= Context.time ctx)%Z ->
  (eps < inject_Z (n_reserves_ s) * batch_size_ s
         - ResourceBuff.quantity (reserves_ s) ->
   GetMatlRequests eps order_time ctx s
   = [mkRequestPortfolio
        [mkRequest
           (Material.mk
              (inject_Z (n_reserves_ s) * batch_size_ s
               - ResourceBuff.quantity (reserves_ s))
              (Context.GetRecipe ctx (in_recipe_ s)))
           (in_commodity_ s) (name_ s)]
        [inject_Z (n_reserves_ s) * batch_size_ s
         - ResourceBuff.quantity (reserves_ s)]])
  /\ (inject_Z (n_reserves_ s) * batch_size_ s
      - ResourceBuff.quantity (reserves_ s) <= eps ->
      GetMatlRequests eps order_time ctx s = [])
  /\ (GetMatlRequests eps order_time ctx s <> []
      <-> eps < inject_Z (n_reserves_ s) * batch_size_ s
                - ResourceBuff.quantity (reserves_ s)).
Proof.
  intro Hdue. apply Z.leb_le in Hdue.
  unfold GetMatlRequests. rewrite Hdue. simpl andb.
  destruct (Qltb eps (inject_Z (n_reserves_ s) * batch_size_ s
                      - ResourceBuff.quantity (reserves_ s))) eqn:E.
  - apply Qltb_lt in E. split; [intros _; reflexivity|]. split.
    + intro Hle. lra.
    + split; [intros _; exact E | intros _; discriminate].
  - apply Qltb_ge in E. split; [intro Hlt; lra|]. split.
    + intros _. reflexivity.
    + split; [intro H; exfalso; apply H; reflexivity | intro Hlt; lra].
Qed.

(** ** Delivery *)

(** The loop of [AddBatches_], exactly: it cuts full batches off [mat]
    for as long as [mat] holds more than a batch, so what is left after
    a cut is positive, and nothing is cut off a material that holds a
    batch at most. *)
Lemma AddBatches_loop_cut (fuel : nat) :
  forall mat s s' mat',
    AddBatches_loop fuel mat s = (s', Ok mat') ->
    exists batches,
      s' = set_reserves_ (reserves_ s ++ batches) s
      /\ Forall (fun m => Material.quantity m == batch_size_ s) batches
      /\ Material.quantity mat' + ResourceBuff.quantity batches
         == Material.quantity mat
      /\ Material.quantity mat' <= batch_size_ s
      /\ (batches = [] -> mat' = mat)
      /\ (batches <> [] -> 0 < Material.quantity mat').
Proof.
  induction fuel as [|fuel IH]; intros mat s s' mat' H; simpl in H.
  - discriminate.
  - unfold bind at 1, get in H.
    destruct (Qltb (batch_size_ s) (Material.quantity mat)) eqn:Ecut.
    + apply Qltb_lt in Ecut.
      unfold bind at 1, lift in H.
      rewrite (Extract_Ok mat (batch_size_ s) (Qlt_le_weak _ _ Ecut)) in H.
      unfold bind at 1, reserves_Push, modify in H. cbn [fst snd] in H.
      apply IH in H.
      destruct H as (batches & Hs' & Hfull & Hsum & Hle & Hnone & Hsome).
      cbn [Material.quantity batch_size_ set_reserves_ reserves_] in *.
      exists (Material.mk (batch_size_ s) (Material.comp mat) :: batches).
      split; [|split; [|split; [|split; [|split]]]].
      * rewrite Hs'. unfold ResourceBuff.Push.
        rewrite set_reserves__twice, <- app_assoc. reflexivity.
      * constructor; [reflexivity | exact Hfull].
      * simpl. lra.
      * exact Hle.
      * discriminate.
      * intros _. destruct batches as [|b batches'].
        -- rewrite (Hnone eq_refl). simpl. lra.
        -- apply Hsome. discriminate.
    + apply Qltb_ge in Ecut. unfold ret in H.
      injection H as Hs Hm. subst s' mat'.
      exists []. rewrite app_nil_r, set_reserves__same. simpl.
      split; [reflexivity|]. split; [constructor|].
      split; [lra|]. split; [exact Ecut|].
      split; [reflexivity | congruence].
Qed.

Lemma AddBatches_rest_cut (fuel : nat) (last mat : Material)
  (s s' : BatchReactor) :
  AddBatches_rest fuel last mat s = (s', Ok tt) ->
  exists batches rest,
    s' = set_reserves_
           (reserves_ s ++ [last] ++ batches
            ++ (if Qltb eps_rsrc (Material.quantity rest) then [rest]
                else []))
           s
    /\ Forall (fun m => Material.quantity m == batch_size_ s) batches
    /\ Material.quantity rest + ResourceBuff.quantity batches
       == Material.quantity mat
    /\ Material.quantity rest <= batch_size_ s
    /\ (batches <> [] -> 0 < Material.quantity rest).
Proof.
  unfold AddBatches_rest. intro H.
  unfold bind at 1, reserves_Push, modify in H.
  unfold bind at 1 in H.
  destruct (AddBatches_loop fuel mat
              (set_reserves_ (ResourceBuff.Push last (reserves_ s)) s))
    as [s1 [mat'| e |]] eqn:Eloop; try discriminate.
  apply AddBatches_loop_cut in Eloop.
  destruct Eloop as (batches & Hs1 & Hfull & Hsum & Hle & _ & Hsome).
  cbn [batch_size_ set_reserves_ reserves_] in *.
  rewrite set_reserves__twice in Hs1.
  exists batches, mat'.
  split; [|repeat split; assumption].
  destruct (Qltb eps_rsrc (Material.quantity mat')).
  - unfold reserves_Push, modify in H. injection H as H. subst s' s1.
    cbn [reserves_ set_reserves_]. unfold ResourceBuff.Push.
    rewrite set_reserves__twice, <- !app_assoc. reflexivity.
  - unfold ret in H. injection H as H. subst s' s1.
    unfold ResourceBuff.Push. rewrite app_nil_r, <- app_assoc.
    reflexivity.
Qed.

(** C10. [AcceptMatlTrades] reads the first response unconditionally:
    called with no response it throws at that access and changes nothing.
    Otherwise it merges every later material into the first by [Absorb]
    and runs [AddBatches_] once, on the merged material, whose quantity
    is the sum of the delivered quantities.  When that call returns, the
    reserves held a last batch and the one pass has done this to them:
    if the last batch was short of a full one and the whole delivery
    fits in it, the delivery is absorbed into it; otherwise the last
    batch is topped up to [batch_size] (or left as it is when it held
    that much), full batches are cut off the delivery for as long as it
    holds more than one, and what is then left, which is positive after
    a cut and a batch at most, is pushed last unless it is within
    [eps_rsrc].  Nothing is lost but that one remainder.  With reserves
    that are not empty and a positive batch size the call returns, given
    fuel enough. *)
Theorem delivery_single_pass :
  (forall fuel s, AcceptMatlTrades fuel [] s = (s, Throw OutOfRange))
  /\ (forall fuel r rs s,
        AcceptMatlTrades fuel (r :: rs) s
        = AddBatches_ fuel
            (fold_left Material.Absorb (map snd rs) (snd r)) s
        /\ Material.quantity
             (fold_left Material.Absorb (map snd rs) (snd r))
           == ResourceBuff.quantity (map snd (r :: rs)))
  /\ (forall fuel r rs s s',
        AcceptMatlTrades fuel (r :: rs) s = (s', Ok tt) ->
        exists front last,
          reserves_ s = front ++ [last]
          /\ (Material.quantity last < batch_size_ s ->
              Material.quantity last
              + ResourceBuff.quantity (map snd (r :: rs))
              <= batch_size_ s ->
              s' = set_reserves_
                     (front
                      ++ [Material.Absorb last
                            (fold_left Material.Absorb (map snd rs)
                               (snd r))])
                     s)
          /\ (batch_size_ s <= Material.quantity last
              \/ batch_size_ s
                 < Material.quantity last
                   + ResourceBuff.quantity (map snd (r :: rs)) ->
              exists top batches rest,
                s' = set_reserves_
                       (front ++ [top] ++ batches
                        ++ (if Qltb eps_rsrc (Material.quantity rest)
                            then [rest] else []))
                       s
                /\ (Material.quantity last < batch_size_ s ->
                    Material.quantity top == batch_size_ s)
                /\ (batch_size_ s <= Material.quantity last -> top = last)
                /\ Forall
                     (fun m => Material.quantity m == batch_size_ s)
                     batches
                /\ Material.quantity top + ResourceBuff.quantity batches
                   + Material.quantity rest
                   == Material.quantity last
                      + ResourceBuff.quantity (map snd (r :: rs))
                /\ Material.quantity rest <= batch_size_ s
                /\ (batches <> [] -> 0 < Material.quantity rest)))
  /\ (forall r rs s,
        reserves_ s <> [] -> 0 < batch_size_ s ->
        exists k : nat, forall fuel, (k <= fuel)%nat ->
          exists s', AcceptMatlTrades fuel (r :: rs) s = (s', Ok tt)).
Proof.
  assert (Hone : forall fuel r rs s,
             AcceptMatlTrades fuel (r :: rs) s
             = AddBatches_ fuel
                 (fold_left Material.Absorb (map snd rs) (snd r)) s).
  { intros fuel r rs s.
    unfold AcceptMatlTrades. unfold bind at 1, lift. simpl at_.
    unfold bind at 1.
    pose proof (absorb_from_fold (fun v i => at_ v i)
                  (fun v i a H => at__Some v i a H)
                  (map snd rs) [snd r] (snd r)) as Hfold.
    simpl in Hfold. rewrite length_map in Hfold.
    simpl. rewrite Nat.sub_0_r, Hfold. reflexivity. }
  assert (Hsum : forall (r : Trade * Material) rs,
             Material.quantity
               (fold_left Material.Absorb (map snd rs) (snd r))
             == ResourceBuff.quantity (map snd (r :: rs))).
  { intros r rs. rewrite quantity_fold_Absorb. simpl. lra. }
  split; [intros fuel s; reflexivity|].
  split; [intros fuel r rs s; split; [apply Hone | apply Hsum]|].
  split.
  - intros fuel r rs s s' H. rewrite Hone in H.
    specialize (Hsum r rs).
    set (mat := fold_left Material.Absorb (map snd rs) (snd r)) in *.
    set (delivered := ResourceBuff.quantity (map snd (r :: rs))) in *.
    unfold AddBatches_ in H.
    unfold bind at 1, reserves_PopBack, with_buff in H.
    destruct (ResourceBuff.PopBack (reserves_ s)) as [[last front]| e |]
      eqn:Epop; try discriminate.
    apply PopBack_Ok in Epop.
    unfold bind at 1, get in H.
    change (batch_size_ (set_reserves_ front s)) with (batch_size_ s) in H.
    exists front, last. split; [exact Epop|].
    destruct (Qltb (Material.quantity last) (batch_size_ s)) eqn:Elast.
    + apply Qltb_lt in Elast.
      destruct (Qle_bool (Material.quantity last + Material.quantity mat)
                  (batch_size_ s)) eqn:Efits.
      * apply Qle_bool_iff in Efits.
        unfold reserves_Push, modify in H. injection H as H. subst s'.
        split.
        -- intros _ _. unfold ResourceBuff.Push.
           rewrite set_reserves__twice. reflexivity.
        -- intros [Hfull | Hover]; exfalso; lra.
      * apply Qle_bool_gt in Efits.
        split; [intros _ Hfit; exfalso; lra|]. intros _.
        unfold bind at 1, lift in H.
        rewrite (Extract_Ok mat (batch_size_ s - Material.quantity last))
          in H by lra.
        cbn [fst snd] in H.
        apply AddBatches_rest_cut in H.
        destruct H as (batches & rest & Hs' & Hfull & Hcut & Hle & Hpos).
        cbn [Material.quantity batch_size_ set_reserves_ reserves_] in *.
        rewrite set_reserves__twice in Hs'.
        eexists _, batches, rest.
        split; [exact Hs'|].
        split; [intros _; simpl; lra|].
        split; [intro Hge; exfalso; lra|].
        split; [exact Hfull|].
        split; [simpl; lra|].
        split; assumption.
    + apply Qltb_ge in Elast.
      split; [intros Hlt _; exfalso; lra|]. intros _.
      apply AddBatches_rest_cut in H.
      destruct H as (batches & rest & Hs' & Hfull & Hcut & Hle & Hpos).
      cbn [Material.quantity batch_size_ set_reserves_ reserves_] in *.
      rewrite set_reserves__twice in Hs'.
      exists last, batches, rest.
      split; [exact Hs'|].
      split; [intro Hlt; exfalso; lra|].
      split; [reflexivity|].
      split; [exact Hfull|].
      split; [lra|].
      split; assumption.
  - intros r rs s Hne Hbs.
    destruct (AddBatches__returns
                (fold_left Material.Absorb (map snd rs) (snd r)) s Hne Hbs)
      as [k Hk].
    exists k. intros fuel Hfuel. rewrite Hone. apply Hk. exact Hfuel.
Qed.

(** ** Construction and cloning *)

Lemma bind_lift_Ok {A B : Type} (r : result A) (a : A) (k : A -> M B)
  (s : BatchReactor) :
  r = Ok a -> bind (lift r) k s = k a s.
Proof. intros ->. reflexivity. Qed.

Lemma bind_modify {B : Type} (f : BatchReactor -> BatchReactor)
  (k : unit -> M B) (s : BatchReactor) :
  bind (modify f) k s = k tt (f s).
Proof. reflexivity. Qed.

Lemma bind_get {B : Type} (k : BatchReactor -> M B) (s : BatchReactor) :
  bind get k s = k s s.
Proof. reflexivity. Qed.

(** Reduce the setters and getters met on a facility given by its
    fields. *)
Ltac fields :=
  cbv beta iota delta
    [set_name_ set_process_time_ set_preorder_time_ set_start_time_
     set_n_batches_ set_n_load_ set_n_reserves_ set_refuel_time_
     set_batch_size_ set_in_commodity_ set_in_recipe_ set_out_commodity_
     set_out_recipe_ set_phase_ set_reserves_ set_core_ set_storage_
     set_commodities_
     name_ process_time_ preorder_time_ start_time_ n_batches_ n_load_
     n_reserves_ refuel_time_ batch_size_ in_commodity_ in_recipe_
     out_commodity_ out_recipe_ phase_ reserves_ core_ storage_
     commodities_].

Ltac run_modify := rewrite bind_modify; fields.
Ltac run_get := rewrite bind_get; fields.

(** C8 (amended). Initialization checks no range: when the elements it
    reads are there and its numbers parse, [InitModuleMembers] returns
    and stores the values as parsed, whatever their sign; a batch size
    that is not positive and negative times are accepted like any
    other. *)
Theorem InitModuleMembers_no_validation
  (lexical_cast_double : string -> result Q)
  (qe input output commodity : QueryEngine)
  (incommodity inrecipe outcommodity outrecipe : string)
  (processtime nbatches batchsize commod capacity cost : string)
  (pt nb bs rt ot nl nr : Z) (cap cst : Q) (s : BatchReactor) :
  Query.QueryElement qe "fuel_input" = Ok input ->
  Query.GetElementContent input "incommodity" = Ok incommodity ->
  Query.GetElementContent input "inrecipe" = Ok inrecipe ->
  Query.QueryElement qe "fuel_output" = Ok output ->
  Query.GetElementContent output "outcommodity" = Ok outcommodity ->
  Query.GetElementContent output "outrecipe" = Ok outrecipe ->
  Query.GetElementContent qe "processtime" = Ok processtime ->
  Query.lexical_cast_int processtime = Ok pt ->
  Query.GetElementContent qe "nbatches" = Ok nbatches ->
  Query.lexical_cast_int nbatches = Ok nb ->
  Query.GetElementContent qe "batchsize" = Ok batchsize ->
  Query.lexical_cast_int batchsize = Ok bs ->
  Query.GetOptionalQuery_int qe "refueltime" (refuel_time_ s) = Ok rt ->
  Query.GetOptionalQuery_int qe "orderlookahead" (preorder_time_ s)
  = Ok ot ->
  Query.GetOptionalQuery_int qe "nreload" (n_load_ s) = Ok nl ->
  Query.GetOptionalQuery_int qe "norder" nl = Ok nr ->
  Query.QueryElement qe "commodity_production" = Ok commodity ->
  Query.GetElementContent commodity "commodity" = Ok commod ->
  Query.GetElementContent commodity "capacity" = Ok capacity ->
  lexical_cast_double capacity = Ok cap ->
  Query.GetElementContent commodity "cost" = Ok cost ->
  lexical_cast_double cost = Ok cst ->
  InitModuleMembers lexical_cast_double qe s
  = (mkBatchReactor (name_ s) pt ot (start_time_ s) nb nl nr rt
       (inject_Z bs) incommodity inrecipe outcommodity outrecipe
       (phase_ s) (reserves_ s) (core_ s) (storage_ s)
       (update_commod commod (fun v => (fst v, Some cst))
          (update_commod commod (fun v => (Some cap, snd v))
             (commodities_ s ++ [(commod, (None, None))]))),
     Ok tt).
Proof.
  intros Hin Hic Hir Hout Hoc Hor Hpt Hptv Hnb Hnbv Hbs Hbsv
    Hrt Hot Hnl Hnr Hcp Hcm Hcap Hcapv Hcost Hcostv.
  destruct s as [nm pt0 ot0 st0 nb0 nl0 nr0 rt0 bs0 ic0 ir0 oc0 or0 ph0
                   res0 co0 sto0 cm0].
  cbn [refuel_time_ preorder_time_ n_load_] in Hrt, Hot, Hnl.
  unfold InitModuleMembers.
  rewrite (bind_lift_Ok _ _ _ _ Hin); cbv beta.
  rewrite (bind_lift_Ok _ _ _ _ Hic); cbv beta. run_modify.
  rewrite (bind_lift_Ok _ _ _ _ Hir); cbv beta. run_modify.
  rewrite (bind_lift_Ok _ _ _ _ Hout); cbv beta.
  rewrite (bind_lift_Ok _ _ _ _ Hoc); cbv beta. run_modify.
  rewrite (bind_lift_Ok _ _ _ _ Hor); cbv beta. run_modify.
  rewrite (bind_lift_Ok _ _ _ _ Hpt); cbv beta.
  rewrite (bind_lift_Ok _ _ _ _ Hptv); cbv beta. run_modify.
  rewrite (bind_lift_Ok _ _ _ _ Hnb); cbv beta.
  rewrite (bind_lift_Ok _ _ _ _ Hnbv); cbv beta. run_modify.
  rewrite (bind_lift_Ok _ _ _ _ Hbs); cbv beta.
  rewrite (bind_lift_Ok _ _ _ _ Hbsv); cbv beta. run_modify.
  run_get.
  rewrite (bind_lift_Ok _ _ _ _ Hrt); cbv beta. run_modify.
  run_get.
  rewrite (bind_lift_Ok _ _ _ _ Hot); cbv beta. run_modify.
  run_get.
  rewrite (bind_lift_Ok _ _ _ _ Hnl); cbv beta. run_modify.
  run_get.
  rewrite (bind_lift_Ok _ _ _ _ Hnr); cbv beta. run_modify.
  rewrite (bind_lift_Ok _ _ _ _ Hcp); cbv beta.
  rewrite (bind_lift_Ok _ _ _ _ Hcm); cbv beta.
  unfold AddCommodity. run_modify.
  rewrite (bind_lift_Ok _ _ _ _ Hcap); cbv beta.
  rewrite (bind_lift_Ok _ _ _ _ Hcapv); cbv beta.
  unfold SetCapacity. run_modify.
  rewrite (bind_lift_Ok _ _ _ _ Hcost); cbv beta.
  rewrite (bind_lift_Ok _ _ _ _ Hcostv); cbv beta.
  unfold SetCost, modify. fields.
  reflexivity.
Qed.

Lemma Clone_fields (this : BatchReactor) :
  Clone this
  = mkBatchReactor (name_ this) (process_time_ this) (preorder_time_ this)
      (start_time_ this) (n_batches_ this) (n_load_ this)
      (n_reserves_ this) 0 (batch_size_ this) (in_commodity_ this)
      (in_recipe_ this) (out_commodity_ this) (out_recipe_ this)
      INITIAL [] [] [] (commodities_ this).
Proof. reflexivity. Qed.

End Reactor.

(** * Worked instances *)

(** Each property that has a precondition, at an input that meets it. *)

Lemma mass_conservation_witness :
  AddBatches_ eps_cyclus 3 (uox 25) (reactor_reserving [uox 10])
  = (reactor_reserving [uox 10; uox 10; uox 10; uox 5], Ok tt)
  /\ exists lost,
       total (reactor_reserving [uox 10; uox 10; uox 10; uox 5]) + lost
       == total (reactor_reserving [uox 10]) + 25
       /\ (lost == 0 \/ lost <= eps_cyclus)
       /\ (0 <= 25 -> 0 <= lost).
Proof.
  split; [reflexivity|].
  apply (proj2 (proj2 (proj2 (mass_conservation eps_cyclus BatchIn_front)))
           3%nat (uox 25)).
  reflexivity.
Defined.

(** C1, as stated, fails: a delivery of [1e-7] behind a full last batch is
    dropped whole, so the absorption returns and the total has not risen by
    the delivered amount. *)
Lemma delivery_remainder_discarded :
  AddBatches_ eps_cyclus 1 (uox (1 # 10000000))
    (reactor_reserving [uox 10])
  = (reactor_reserving [uox 10], Ok tt)
  /\ ~ total (reactor_reserving [uox 10])
       == total (reactor_reserving [uox 10])
          + Material.quantity (uox (1 # 10000000)).
Proof.
  split; [reflexivity|].
  vm_compute. discriminate.
Qed.

(** C2, at its own example: a delivery of 25 to empty reserves, with
    batches of 10, throws at [PopBack] and leaves the reserves empty,
    whatever the fuel and the threshold. *)
Theorem first_delivery_fails (eps_rsrc : Q) (fuel : nat) :
  reserves_ reactor10 = []
  /\ AddBatches_ eps_rsrc fuel (uox 25) reactor10
     = (reactor10, Throw EmptyBufferError).
Proof.
  split; [reflexivity|].
  apply AddBatches__empty. reflexivity.
Qed.

(** Into reserves that hold a full batch, the same delivery is cut into
    (10, 10, 5). *)
Example delivery_behind_full_batch :
  AddBatches_ eps_cyclus 3 (uox 25) (reactor_reserving [uox 10])
  = (reactor_reserving [uox 10; uox 10; uox 10; uox 5], Ok tt).
Proof. reflexivity. Qed.

Lemma discharge_on_schedule_witness :
  phase_ reactor_processing = PROCESS
  /\ 5%Z = (start_time_ reactor_processing
            + process_time_ reactor_processing)%Z
  /\ (Z.to_nat (n_load_ reactor_processing)
      <= List.length (core_ reactor_processing))%nat
  /\ HandleTick context0 5 reactor_processing
     = (set_phase_ WAITING
          (set_storage_ [spent 10; spent 10; spent 10]
             (set_core_ [] reactor_processing)),
        Ok tt).
Proof.
  split; [reflexivity|]. split; [reflexivity|]. split; [simpl; lia|].
  apply (proj1 (discharge_on_schedule context0 5 reactor_processing
                  eq_refl)).
  - reflexivity.
  - simpl; lia.
Defined.

(** C3, as stated, fails.  A facility with a full core of three batches
    that reloads four at a time moves its three batches to storage at the
    tick [start_time + process_time], throws at the fourth pop and stays
    in PROCESS.  So does, with nothing to move, a facility configured
    with a core of no batches (and the default reload of one), which
    leaves INITIAL for PROCESS at tick 0 and reaches its scheduled
    discharge at tick 5. *)
Lemma scheduled_discharge_fails :
  (phase_ reactor_reloading_4 = PROCESS
   /\ (start_time_ reactor_reloading_4 + process_time_ reactor_reloading_4
       = 5)%Z
   /\ ResourceBuff.count (core_ reactor_reloading_4)
      = n_batches_ reactor_reloading_4
   /\ HandleTick (context_at context0 5) 5 reactor_reloading_4
      = (set_storage_ [spent 10; spent 10; spent 10]
           (set_core_ [] reactor_reloading_4),
         Throw EmptyBufferError)
   /\ phase_ (fst (HandleTick (context_at context0 5) 5
                     reactor_reloading_4))
      = PROCESS)
  /\ exists s0,
       InitModuleMembers lexical_cast_whole config_no_batches
         ConstructBatchReactor
       = (s0, Ok tt)
       /\ n_batches_ s0 = 0%Z
       /\ n_load_ s0 = 1%Z
       /\ phase_ (run eps_cyclus BatchIn_front context0 [Tick 0] s0)
          = PROCESS
       /\ (start_time_ (run eps_cyclus BatchIn_front context0 [Tick 0] s0)
           + process_time_
               (run eps_cyclus BatchIn_front context0 [Tick 0] s0)
           = 5)%Z
       /\ HandleTick (context_at context0 5) 5
            (run eps_cyclus BatchIn_front context0 [Tick 0] s0)
          = (run eps_cyclus BatchIn_front context0 [Tick 0] s0,
             Throw EmptyBufferError).
Proof.
  split.
  - split; [reflexivity|]. split; [reflexivity|]. split; [reflexivity|].
    split; vm_compute; reflexivity.
  - eexists. split; [vm_compute; reflexivity|].
    split; [reflexivity|]. split; [reflexivity|].
    split; [reflexivity|]. split; vm_compute; reflexivity.
Qed.

(** [reactor_refuel_3] starts processing at tick 0, discharges at tick 2
    and reloads its core at the tock of tick 2.  With a full core it
    waits through ticks 3 and 4, and starts again at tick 5, a refuel
    time of 3 after the end of the run. *)
Lemma refuel_correctness_witness :
  phase_ reactor_refuel_3 = INITIAL
  /\ history eps_cyclus BatchIn_front context0 reactor_refuel_3
       (run eps_cyclus BatchIn_front context0
          [Tick 0; Tick 2; Tock 2; Tick 3; Tick 4] reactor_refuel_3)
       (Some 2%Z)
  /\ ResourceBuff.count
       (core_ (run eps_cyclus BatchIn_front context0
                 [Tick 0; Tick 2; Tock 2] reactor_refuel_3))
     = n_batches_ reactor_refuel_3
  /\ phase_ (run eps_cyclus BatchIn_front context0
               [Tick 0; Tick 2; Tock 2; Tick 3] reactor_refuel_3)
     = WAITING
  /\ phase_ (run eps_cyclus BatchIn_front context0
               [Tick 0; Tick 2; Tock 2; Tick 3; Tick 4] reactor_refuel_3)
     = WAITING
  /\ phase_
       (call eps_cyclus BatchIn_front context0 (Tick 5)
          (run eps_cyclus BatchIn_front context0
             [Tick 0; Tick 2; Tock 2; Tick 3; Tick 4] reactor_refuel_3))
     = PROCESS
  /\ start_time_
       (call eps_cyclus BatchIn_front context0 (Tick 5)
          (run eps_cyclus BatchIn_front context0
             [Tick 0; Tick 2; Tock 2; Tick 3; Tick 4] reactor_refuel_3))
     = 5%Z
  /\ (2 + refuel_time_ reactor_refuel_3 <= INT_MAX)%Z
  /\ (2 + refuel_time_ reactor_refuel_3 <= 5)%Z.
Proof.
  assert (Hrun : history eps_cyclus BatchIn_front context0 reactor_refuel_3
                   (run eps_cyclus BatchIn_front context0
                      [Tick 0; Tick 2; Tock 2; Tick 3; Tick 4]
                      reactor_refuel_3)
                   (Some 2%Z)).
  { exact (history_call eps_cyclus BatchIn_front context0 reactor_refuel_3
             _ _ (Tick 4)
          (history_call eps_cyclus BatchIn_front context0 reactor_refuel_3
             _ _ (Tick 3)
          (history_call eps_cyclus BatchIn_front context0 reactor_refuel_3
             _ _ (Tock 2)
          (history_call eps_cyclus BatchIn_front context0 reactor_refuel_3
             _ _ (Tick 2)
          (history_call eps_cyclus BatchIn_front context0 reactor_refuel_3
             _ _ (Tick 0)
          (history_start eps_cyclus BatchIn_front context0
             reactor_refuel_3)))))). }
  split; [reflexivity|]. split; [exact Hrun|].
  split; [reflexivity|]. split; [reflexivity|]. split; [reflexivity|].
  split; [reflexivity|].
  destruct (refuel_correctness eps_cyclus BatchIn_front context0
              reactor_refuel_3
              (run eps_cyclus BatchIn_front context0
                 [Tick 0; Tick 2; Tock 2; Tick 3; Tick 4] reactor_refuel_3)
              (Some 2%Z) 5 eq_refl Hrun
              ltac:(discriminate) eq_refl)
    as (Hfull & Hstamp & Hwait).
  split; [exact Hstamp|].
  assert (Hfits : (2 + refuel_time_ reactor_refuel_3 <= INT_MAX)%Z)
    by (vm_compute; discriminate).
  split; [exact Hfits|].
  destruct (Hwait eq_refl) as (end_of_previous_run & He & _ & _ & Hlate).
  injection He as He. subst end_of_previous_run.
  exact (Hlate Hfits).
Defined.

(** C4, as stated, fails: with the largest refuel time an [int] holds,
    the sum [end_time() + refuel_time()] of line 222 overflows.
    [reactor_refuel_max] discharges at tick 2, reloads its core at the
    tock of tick 2 and starts again at tick 3, long before a refuel time
    has passed since the end of the run. *)
Lemma refuel_wait_cut_short :
  phase_ reactor_refuel_max = INITIAL
  /\ history eps_cyclus BatchIn_front context0 reactor_refuel_max
       (run eps_cyclus BatchIn_front context0
          [Tick 0; Tick 2; Tock 2] reactor_refuel_max)
       (Some 2%Z)
  /\ phase_ (run eps_cyclus BatchIn_front context0
               [Tick 0; Tick 2; Tock 2] reactor_refuel_max)
     = WAITING
  /\ phase_ (run eps_cyclus BatchIn_front context0
               [Tick 0; Tick 2; Tock 2; Tick 3] reactor_refuel_max)
     = PROCESS
  /\ (3 < 2 + refuel_time_
              (run eps_cyclus BatchIn_front context0
                 [Tick 0; Tick 2; Tock 2] reactor_refuel_max))%Z.
Proof.
  split; [reflexivity|]. split.
  - exact (history_call eps_cyclus BatchIn_front context0
             reactor_refuel_max _ _ (Tock 2)
          (history_call eps_cyclus BatchIn_front context0
             reactor_refuel_max _ _ (Tick 2)
          (history_call eps_cyclus BatchIn_front context0
             reactor_refuel_max _ _ (Tick 0)
          (history_start eps_cyclus BatchIn_front context0
             reactor_refuel_max)))).
  - split; [reflexivity|]. split; reflexivity.
Qed.

(** C5, as stated, fails: against a storage of 10, requests for 6 and 7
    are both bid on, and the bids sum to 13 under a capacity constraint
    of 10. *)
Lemma bids_exceed_capacity :
  GetMatlBids context0
    [("spent_fuel"%string, [request_for 6; request_for 7])]
    (reactor_storing [spent 10])
  = Ok [mkBidPortfolio
          [mkBid (request_for 6) (spent 6) "";
           mkBid (request_for 7) (spent 7) ""]
          [ResourceBuff.quantity (storage_ (reactor_storing [spent 10]))]]
  /\ ~ sum_bids
        [mkBid (request_for 6) (spent 6) "";
         mkBid (request_for 7) (spent 7) ""]
      <= ResourceBuff.quantity (storage_ (reactor_storing [spent 10])).
Proof.
  split; [reflexivity|].
  vm_compute. intro H. apply H. reflexivity.
Qed.

Lemma bids_below_capacity_witness :
  commod_at [("spent_fuel"%string, [request_for 6; request_for 10])]
    (out_commodity_ (reactor_storing [spent 10]))
  = Ok [request_for 6; request_for 10]
  /\ exists port,
       GetMatlBids context0
         [("spent_fuel"%string, [request_for 6; request_for 10])]
         (reactor_storing [spent 10])
       = Ok [port]
       /\ bids port = [mkBid (request_for 6) (spent 6) ""]
       /\ bid_constraints port
          = [ResourceBuff.quantity (storage_ (reactor_storing [spent 10]))].
Proof.
  split; [reflexivity|].
  destruct (bids_below_capacity context0
              [("spent_fuel"%string, [request_for 6; request_for 10])]
              [request_for 6; request_for 10]
              (reactor_storing [spent 10]) eq_refl)
    as (port & Hrun & Hbids & Hcap & _).
  exists port. split; [exact Hrun|]. split; [exact Hbids | exact Hcap].
Defined.

Lemma trade_settlement_witness :
  0 < amt (trade_of 15)
  /\ amt (trade_of 15)
     <= ResourceBuff.quantity
          (storage_ (reactor_storing [spent 10; spent 10]))
  /\ exists first others rest,
       ResourceBuff.PopQty (amt (trade_of 15))
         (storage_ (reactor_storing [spent 10; spent 10]))
       = Ok (first :: others, rest)
       /\ GetMatlTrades [trade_of 15] []
            (reactor_storing [spent 10; spent 10])
          = (set_storage_ rest (reactor_storing [spent 10; spent 10]),
             Ok [(trade_of 15, fold_left Material.Absorb others first)])
       /\ Material.quantity (fold_left Material.Absorb others first)
          == amt (trade_of 15)
       /\ ResourceBuff.quantity rest
          == ResourceBuff.quantity
               (storage_ (reactor_storing [spent 10; spent 10]))
             - amt (trade_of 15).
Proof.
  assert (Hpos : 0 < amt (trade_of 15)) by reflexivity.
  assert (Hle : amt (trade_of 15)
                <= ResourceBuff.quantity
                     (storage_ (reactor_storing [spent 10; spent 10])))
    by (vm_compute; discriminate).
  split; [exact Hpos|]. split; [exact Hle|].
  exact (proj1 (trade_settlement (trade_of 15) [] []
                  (reactor_storing [spent 10; spent 10])) Hpos Hle).
Defined.

(** The settlement of that trade, computed: batches (10, 5) leave storage,
    merged into one unit of 15, and 5 stay. *)
Example settlement_of_15 :
  GetMatlTrades [trade_of 15] [] (reactor_storing [spent 10; spent 10])
  = (reactor_storing [spent 5], Ok [(trade_of 15, spent 15)]).
Proof. reflexivity. Qed.

Lemma fuel_request_witness :
  (order_time_ahead reactor10 <= Context.time context0)%Z
  /\ GetMatlRequests eps_cyclus order_time_ahead context0 reactor10
     = [mkRequestPortfolio [mkRequest (uox 10) "fresh_fuel" ""] [10]].
Proof.
  assert (Hdue : (order_time_ahead reactor10 <= Context.time context0)%Z)
    by (vm_compute; discriminate).
  split; [exact Hdue|].
  destruct (fuel_request eps_cyclus order_time_ahead context0 reactor10 Hdue)
    as [Hrequest _].
  rewrite Hrequest by reflexivity. reflexivity.
Defined.

(** Deliveries of 7, 8 and 16 behind batches of 10 and 4: the 31 units
    are merged, 6 of them top the last batch up, two batches of 10 are
    cut off the other 25, and the 5 left over are pushed last. *)
Lemma delivery_single_pass_witness :
  AcceptMatlTrades eps_cyclus 3 deliveries_of_31
    (reactor_reserving [uox 10; uox 4])
  = (reactor_reserving [uox 10; uox 10; uox 10; uox 10; uox 5], Ok tt)
  /\ exists top batches rest,
       reactor_reserving [uox 10; uox 10; uox 10; uox 10; uox 5]
       = set_reserves_
           ([uox 10] ++ [top] ++ batches
            ++ (if Qltb eps_cyclus (Material.quantity rest) then [rest]
                else []))
           (reactor_reserving [uox 10; uox 4])
       /\ Material.quantity top == 10
       /\ Forall (fun m => Material.quantity m == 10) batches
       /\ Material.quantity top + ResourceBuff.quantity batches
          + Material.quantity rest
          == 4 + 31
       /\ Material.quantity rest <= 10
       /\ (batches <> [] -> 0 < Material.quantity rest).
Proof.
  assert (Hrun : AcceptMatlTrades eps_cyclus 3 deliveries_of_31
                   (reactor_reserving [uox 10; uox 4])
                 = (reactor_reserving
                      [uox 10; uox 10; uox 10; uox 10; uox 5], Ok tt))
    by reflexivity.
  split; [exact Hrun|].
  destruct (proj1 (proj2 (proj2 (delivery_single_pass eps_cyclus)))
              3%nat (trade_of 7, uox 7)
              [(trade_of 8, uox 8); (trade_of 16, uox 16)]
              (reactor_reserving [uox 10; uox 4])
              (reactor_reserving [uox 10; uox 10; uox 10; uox 10; uox 5])
              Hrun)
    as (front & last & Hres & _ & Hcut).
  change (reserves_ (reactor_reserving [uox 10; uox 4]))
    with ([uox 10] ++ [uox 4]) in Hres.
  apply app_inj_tail in Hres. destruct Hres as [Hfront Hlast].
  subst front last.
  destruct Hcut as (top & batches & rest & Hs' & Htop & _ & Hfull & Hsum
                    & Hle & Hpos).
  { right. reflexivity. }
  exists top, batches, rest.
  split; [exact Hs'|]. split; [apply Htop; reflexivity|].
  split; [exact Hfull|]. split; [exact Hsum|].
  split; [exact Hle | exact Hpos].
Defined.

(** C8, as stated, fails: a configuration with a batch size of zero and
    negative process, refuel and preorder times initializes a freshly
    constructed facility without any error. *)
Lemma out_of_range_configuration_accepted :
  exists s,
    InitModuleMembers lexical_cast_whole config_out_of_range
      ConstructBatchReactor
    = (s, Ok tt)
    /\ batch_size_ s = 0
    /\ process_time_ s = (-3)%Z
    /\ refuel_time_ s = (-1)%Z
    /\ preorder_time_ s = (-2)%Z.
Proof.
  eexists. split; [reflexivity|]. repeat split.
Qed.

Lemma InitModuleMembers_no_validation_witness :
  exists s,
    InitModuleMembers lexical_cast_whole config_out_of_range
      ConstructBatchReactor
    = (s, Ok tt)
    /\ batch_size_ s = 0
    /\ process_time_ s = (-3)%Z.
Proof.
  eexists. split.
  - apply (InitModuleMembers_no_validation lexical_cast_whole
             config_out_of_range
             [("incommodity", Query.Text "fresh_fuel");
              ("inrecipe", Query.Text "uox")]%string
             [("outcommodity", Query.Text "spent_fuel");
              ("outrecipe", Query.Text "spent_uox")]%string
             [("commodity", Query.Text "power");
              ("capacity", Query.Text "1000");
              ("cost", Query.Text "1")]%string
             "fresh_fuel" "uox" "spent_fuel" "spent_uox"
             "-3" "1" "0" "power" "1000" "1"
             (-3) 1 0 (-1) (-2) 1 1 1000 1 ConstructBatchReactor);
      reflexivity.
  - split; reflexivity.
Defined.

(** C9, at a facility with a refuel time of 3: its clone has the refuel
    time the constructor gives, 0; the fields [Clone] does copy, and the
    empty buffers, are as expected. *)
Theorem Clone_loses_refuel_time :
  refuel_time_ reactor_refuelling_3 = 3%Z
  /\ refuel_time_ (Clone reactor_refuelling_3) = 0%Z
  /\ batch_size_ (Clone reactor_refuelling_3)
     = batch_size_ reactor_refuelling_3
  /\ process_time_ (Clone reactor_refuelling_3)
     = process_time_ reactor_refuelling_3
  /\ reserves_ (Clone reactor_refuelling_3) = []
  /\ core_ (Clone reactor_refuelling_3) = []
  /\ storage_ (Clone reactor_refuelling_3) = [].
Proof. repeat split. Qed.

(** * Further properties of the member functions *)

(** ** Refuelling *)

Lemma moved_none (s : BatchReactor) :
  set_core_ (core_ s ++ firstn 0 (reserves_ s))
    (set_reserves_ (skipn 0 (reserves_ s)) s)
  = s.
Proof. destruct s; simpl. rewrite app_nil_r. reflexivity. Qed.

Lemma Refuel_loop_S (BatchIn : ResourceBuff -> Q -> bool) (fuel : nat)
  (s : BatchReactor) :
  Refuel_loop BatchIn (S fuel) s
  = if (n_core s <? n_batches_ s)%Z
       && BatchIn (reserves_ s) (batch_size_ s)
    then (MoveBatchIn_ ;; Refuel_loop BatchIn fuel) s
    else (s, Ok tt).
Proof.
  simpl. unfold bind at 1, get.
  destruct ((n_core s <? n_batches_ s)%Z
            && BatchIn (reserves_ s) (batch_size_ s)); reflexivity.
Qed.

(** The loop of [Refuel_], given fuel for one iteration more than there are
    batches in reserve: it moves the first [k] batches of the reserves behind
    those of the core, each one accepted by [BatchIn] while the core was
    short of [n_batches]; it returns when the core is full or [BatchIn]
    declines, and throws only if [BatchIn] accepts an empty buffer. *)
Lemma Refuel_loop_moves (BatchIn : ResourceBuff -> Q -> bool) (fuel : nat) :
  forall s,
    (List.length (reserves_ s) < fuel)%nat ->
    exists k,
      (k <= List.length (reserves_ s))%nat
      /\ fst (Refuel_loop BatchIn fuel s)
         = set_core_ (core_ s ++ firstn k (reserves_ s))
             (set_reserves_ (skipn k (reserves_ s)) s)
      /\ (forall i, (i < k)%nat ->
            BatchIn (skipn i (reserves_ s)) (batch_size_ s) = true
            /\ (Z.of_nat (List.length (core_ s) + i) < n_batches_ s)%Z)
      /\ ((snd (Refuel_loop BatchIn fuel s) = Ok tt
           /\ ((n_batches_ s <= Z.of_nat (List.length (core_ s) + k))%Z
               \/ BatchIn (skipn k (reserves_ s)) (batch_size_ s) = false))
          \/ (snd (Refuel_loop BatchIn fuel s) = Throw EmptyBufferError
              /\ k = List.length (reserves_ s)
              /\ BatchIn [] (batch_size_ s) = true)).
Proof.
  induction fuel as [|fuel IH]; intros s Hlen; [lia|].
  rewrite Refuel_loop_S.
  destruct ((n_core s <? n_batches_ s)%Z
            && BatchIn (reserves_ s) (batch_size_ s)) eqn:Ego.
  - apply andb_true_iff in Ego. destruct Ego as [Hshort Hin].
    apply Z.ltb_lt in Hshort. unfold n_core, ResourceBuff.count in Hshort.
    destruct (reserves_ s) as [|m rest] eqn:E.
    + rewrite (bind_Throw _ _ _ _ _ (MoveBatchIn__nil s E)).
      exists 0%nat. rewrite <- E at 2 3. rewrite moved_none.
      split; [simpl; lia|]. split; [reflexivity|].
      split; [intros i Hi; lia|].
      right. split; [reflexivity|]. split; [reflexivity | exact Hin].
    + rewrite (bind_Ok _ _ _ _ _ (MoveBatchIn__cons s m rest E)).
      destruct (IH (set_core_ (ResourceBuff.Push m (core_ s))
                      (set_reserves_ rest s)))
        as (k & Hk & Hst & Hacc & Hend).
      { simpl in *. lia. }
      cbn [reserves_ core_ batch_size_ n_batches_ set_core_ set_reserves_]
        in Hk, Hst, Hacc, Hend.
      unfold ResourceBuff.Push in *.
      rewrite length_app in Hacc, Hend. simpl List.length in Hacc, Hend.
      exists (S k). split; [simpl; lia|]. split.
      * rewrite Hst. simpl. rewrite <- app_assoc. reflexivity.
      * split.
        -- intros i Hi. destruct i as [|i].
           ++ simpl. rewrite Nat.add_0_r. split; [exact Hin | exact Hshort].
           ++ destruct (Hacc i ltac:(lia)) as [Hb Hc]. simpl skipn.
              split; [exact Hb|]. lia.
        -- simpl skipn. simpl List.length.
           destruct Hend as [[Hok Hstop] | (Hthrow & Hall & Hempty)].
           ++ left. split; [exact Hok|].
              destruct Hstop as [Hfull | Hno]; [left; lia | right; exact Hno].
           ++ right. split; [exact Hthrow|]. split; [lia | exact Hempty].
  - exists 0%nat. rewrite moved_none. simpl.
    split; [lia|]. split; [reflexivity|].
    split; [intros i Hi; lia|].
    left. split; [reflexivity|].
    apply andb_false_iff in Ego. destruct Ego as [Hfull | Hno].
    + left. apply Z.ltb_ge in Hfull.
      unfold n_core, ResourceBuff.count in Hfull. lia.
    + right. exact Hno.
Qed.

Lemma Refuel__prefix (BatchIn : ResourceBuff -> Q -> bool)
  (s : BatchReactor) :
  exists k,
    (k <= List.length (reserves_ s))%nat
    /\ fst (Refuel_ BatchIn s)
       = set_core_ (core_ s ++ firstn k (reserves_ s))
           (set_reserves_ (skipn k (reserves_ s)) s)
    /\ (forall i, (i < k)%nat ->
          BatchIn (skipn i (reserves_ s)) (batch_size_ s) = true
          /\ (Z.of_nat (List.length (core_ s) + i) < n_batches_ s)%Z)
    /\ ((snd (Refuel_ BatchIn s) = Ok tt
         /\ ((n_batches_ s <= Z.of_nat (List.length (core_ s) + k))%Z
             \/ BatchIn (skipn k (reserves_ s)) (batch_size_ s) = false))
        \/ (snd (Refuel_ BatchIn s) = Throw EmptyBufferError
            /\ k = List.length (reserves_ s)
            /\ BatchIn [] (batch_size_ s) = true)).
Proof.
  unfold Refuel_, bind, get.
  apply Refuel_loop_moves. lia.
Qed.

(** X1. [Refuel_] always ends, whatever [BatchIn] answers.  It moves the
    first [k] batches of the reserves, in order, behind the batches of the
    core and touches nothing else; each batch moved was accepted by
    [BatchIn] while the core held fewer than [n_batches] batches.  It
    returns once the core is full or [BatchIn] declines, and throws
    (the empty-buffer error of [Pop]) only when [BatchIn] accepts a buffer
    with no batch in it. *)
Theorem Refuel__moves_a_prefix (BatchIn : ResourceBuff -> Q -> bool)
  (s : BatchReactor) :
  exists k,
    (k <= List.length (reserves_ s))%nat
    /\ fst (Refuel_ BatchIn s)
       = set_core_ (core_ s ++ firstn k (reserves_ s))
           (set_reserves_ (skipn k (reserves_ s)) s)
    /\ (forall i, (i < k)%nat ->
          BatchIn (skipn i (reserves_ s)) (batch_size_ s) = true
          /\ (Z.of_nat (List.length (core_ s) + i) < n_batches_ s)%Z)
    /\ ((snd (Refuel_ BatchIn s) = Ok tt
         /\ ((n_batches_ s <= Z.of_nat (List.length (core_ s) + k))%Z
             \/ BatchIn (skipn k (reserves_ s)) (batch_size_ s) = false))
        \/ (snd (Refuel_ BatchIn s) = Throw EmptyBufferError
            /\ k = List.length (reserves_ s)
            /\ BatchIn [] (batch_size_ s) = true)).
Proof.
  unfold Refuel_, bind, get.
  apply Refuel_loop_moves. lia.
Qed.

Lemma accepted_prefix_full (P : Material -> Prop)
  (accepts : ResourceBuff -> Prop)
  (Hacc : forall b, accepts b -> exists m rest, b = m :: rest /\ P m) :
  forall k l,
    (forall i, (i < k)%nat -> accepts (skipn i l)) ->
    Forall P (firstn k l).
Proof.
  induction k as [|k IH]; intros l Hall; [constructor|].
  destruct (Hacc _ (Hall 0%nat ltac:(lia))) as (m & rest & El & Hm).
  simpl in El. subst l. simpl. constructor; [exact Hm|].
  apply IH. intros i Hi. apply (Hall (S i)). lia.
Qed.

(** X2. When [BatchIn] accepts a buffer only if its first batch holds at
    least the size asked for, [Refuel_] never throws, and every batch it
    loads into the core holds at least [batch_size]: no partial batch
    enters the core. *)
Theorem Refuel__loads_full_batches (BatchIn : ResourceBuff -> Q -> bool)
  (s : BatchReactor) :
  (forall b size, BatchIn b size = true ->
     exists m rest, b = m :: rest /\ size <= Material.quantity m) ->
  exists moved,
    snd (Refuel_ BatchIn s) = Ok tt
    /\ core_ (fst (Refuel_ BatchIn s)) = core_ s ++ moved
    /\ reserves_ s = moved ++ reserves_ (fst (Refuel_ BatchIn s))
    /\ Forall (fun m => batch_size_ s <= Material.quantity m) moved.
Proof.
  intro Hsound.
  destruct (Refuel__prefix BatchIn s)
    as (k & Hk & Hst & Hacc & Hend).
  exists (firstn k (reserves_ s)).
  split; [|split; [|split]].
  - destruct Hend as [[Hok _] | (_ & _ & Hempty)]; [exact Hok|].
    destruct (Hsound _ _ Hempty) as (m & rest & Habs & _). discriminate.
  - rewrite Hst. reflexivity.
  - rewrite Hst. simpl. symmetry. apply firstn_skipn.
  - apply (accepted_prefix_full
             (fun m => batch_size_ s <= Material.quantity m)
             (fun b => BatchIn b (batch_size_ s) = true)).
    + intros b Hb. apply (Hsound b (batch_size_ s) Hb).
    + intros i Hi. apply (Hacc i Hi).
Qed.

Lemma BatchIn_front_sound (b : ResourceBuff) (size : Q) :
  BatchIn_front b size = true ->
  exists m rest, b = m :: rest /\ size <= Material.quantity m.
Proof.
  destruct b as [|m rest]; simpl; [discriminate|].
  intro H. apply Qle_bool_iff in H. exists m, rest.
  split; [reflexivity | exact H].
Qed.

(** [reactor_short_of_fuel] has room for three batches and reserves of
    10, 10 and 5: the two full batches are loaded, the partial one stays
    in reserve, and the core is left one batch short. *)
Lemma Refuel__loads_full_batches_witness :
  (forall b size, BatchIn_front b size = true ->
     exists m rest, b = m :: rest /\ size <= Material.quantity m)
  /\ snd (Refuel_ BatchIn_front reactor_short_of_fuel) = Ok tt
  /\ core_ (fst (Refuel_ BatchIn_front reactor_short_of_fuel))
     = [uox 10; uox 10]
  /\ reserves_ (fst (Refuel_ BatchIn_front reactor_short_of_fuel))
     = [uox 5]
  /\ exists moved,
       moved = [uox 10; uox 10]
       /\ core_ (fst (Refuel_ BatchIn_front reactor_short_of_fuel))
          = core_ reactor_short_of_fuel ++ moved
       /\ reserves_ reactor_short_of_fuel
          = moved
            ++ reserves_ (fst (Refuel_ BatchIn_front reactor_short_of_fuel))
       /\ Forall
            (fun m =>
               batch_size_ reactor_short_of_fuel <= Material.quantity m)
            moved.
Proof.
  split; [exact BatchIn_front_sound|].
  destruct (Refuel__loads_full_batches BatchIn_front reactor_short_of_fuel
              BatchIn_front_sound)
    as (moved & Hok & Hcore & Hres & Hfull).
  split; [exact Hok|]. split; [reflexivity|]. split; [reflexivity|].
  exists moved.
  split; [symmetry; exact Hcore|].
  split; [exact Hcore|]. split; [exact Hres | exact Hfull].
Defined.

(** ** What each callback leaves alone *)

Section Frames.

Variable I : BatchReactor -> Prop.

Lemma reserves_only_AddBatches_loop
  (Hres : forall b s, I s -> I (set_reserves_ b s)) (fuel : nat) :
  forall mat, preserves I (AddBatches_loop fuel mat).
Proof.
  induction fuel as [|fuel IH]; intro mat; simpl.
  - apply preserves_lift.
  - apply preserves_bind; [apply preserves_get|]. intro s.
    destruct (Qltb (batch_size_ s) (Material.quantity mat)).
    + apply preserves_bind; [apply preserves_lift|]. intro pieces.
      apply preserves_bind; [|intros _; apply IH].
      apply preserves_modify. intros s1 H1. apply Hres. exact H1.
    + apply preserves_ret.
Qed.

Lemma reserves_only_AddBatches_ (eps_rsrc : Q)
  (Hres : forall b s, I s -> I (set_reserves_ b s))
  (fuel : nat) (mat : Material) :
  preserves I (AddBatches_ eps_rsrc fuel mat).
Proof.
  assert (Hpush : forall m, preserves I (reserves_Push m)).
  { intro m. apply preserves_modify. intros s1 H1. apply Hres. exact H1. }
  assert (Hrest : forall last mat1,
             preserves I (AddBatches_rest eps_rsrc fuel last mat1)).
  { intros last mat1. unfold AddBatches_rest.
    apply preserves_bind; [apply Hpush|]. intros _.
    apply preserves_bind;
      [apply reserves_only_AddBatches_loop; exact Hres|].
    intro mat'.
    destruct (Qltb eps_rsrc (Material.quantity mat'));
      [apply Hpush | apply preserves_ret]. }
  unfold AddBatches_. apply preserves_bind.
  - apply preserves_with_buff. exact Hres.
  - intro last. apply preserves_bind; [apply preserves_get|]. intro s.
    destruct (Qltb (Material.quantity last) (batch_size_ s)).
    + destruct (Qle_bool (Material.quantity last + Material.quantity mat)
                  (batch_size_ s)).
      * apply Hpush.
      * apply preserves_bind; [apply preserves_lift|]. intro pieces.
        apply Hrest.
    + apply Hrest.
Qed.

Lemma reserves_only_AcceptMatlTrades (eps_rsrc : Q)
  (Hres : forall b s, I s -> I (set_reserves_ b s))
  (fuel : nat) (responses : list (Trade * Material)) :
  preserves I (AcceptMatlTrades eps_rsrc fuel responses).
Proof.
  unfold AcceptMatlTrades.
  apply preserves_bind; [apply preserves_lift|]. intro first.
  apply preserves_bind; [apply preserves_lift|]. intro mat.
  apply reserves_only_AddBatches_. exact Hres.
Qed.

Lemma storage_only_GetMatlTrades
  (Hsto : forall b s, I s -> I (set_storage_ b s)) (trades : list Trade) :
  forall responses, preserves I (GetMatlTrades trades responses).
Proof.
  induction trades as [|t trades IH]; intro responses; simpl.
  - apply preserves_ret.
  - apply preserves_bind; [|intro r; apply IH].
    unfold GetMatlTrades_body. apply preserves_bind.
    + apply preserves_with_buff. exact Hsto.
    + intro manifest.
      apply preserves_bind; [apply preserves_lift|]. intro response.
      apply preserves_lift.
Qed.

Lemma not_storage_HandleTock (BatchIn : ResourceBuff -> Q -> bool)
  (Hres : forall b s, I s -> I (set_reserves_ b s))
  (Hcore : forall b s, I s -> I (set_core_ b s)) (time : Z) :
  preserves I (HandleTock BatchIn time).
Proof.
  apply preserves_HandleTock.
  unfold MoveBatchIn_. apply preserves_bind.
  - apply preserves_with_buff. exact Hres.
  - intro mat. apply preserves_modify. intros s Hs. apply Hcore. exact Hs.
Qed.

Lemma preserves_HandleTick (ctx : Context) (time : Z) :
  preserves I (MoveBatchOut_ ctx) ->
  (forall p, preserves I (phase ctx p)) ->
  preserves I (HandleTick ctx time).
Proof.
  intros Hout Hphase. unfold HandleTick.
  apply preserves_bind; [apply preserves_get|]. intro s.
  destruct (phase_ s).
  - destruct (n_core s =? n_batches_ s)%Z;
      [apply Hphase | apply preserves_ret].
  - destruct (time =? end_time s)%Z; [|apply preserves_ret].
    apply preserves_bind; [|intros _; apply Hphase].
    apply preserves_repeat_M. exact Hout.
  - destruct ((n_core s =? n_batches_ s)%Z
              && (int_add (end_time s) (refuel_time_ s)
                  <=? Context.time ctx)%Z);
      [apply Hphase | apply preserves_ret].
Qed.

Lemma not_reserves_HandleTick
  (Hcore : forall b s, I s -> I (set_core_ b s))
  (Hsto : forall b s, I s -> I (set_storage_ b s))
  (Hphase : forall p s, I s -> I (set_phase_ p s))
  (Hstart : forall t s, I s -> I (set_start_time_ t s))
  (ctx : Context) (time : Z) :
  preserves I (HandleTick ctx time).
Proof.
  apply preserves_HandleTick.
  - unfold MoveBatchOut_. apply preserves_bind.
    + apply preserves_with_buff. exact Hcore.
    + intro mat. apply preserves_bind; [apply preserves_get|]. intro s.
      apply preserves_modify. intros s1 H1. apply Hsto. exact H1.
  - intro p. unfold phase. apply preserves_modify. intros s Hs.
    apply Hphase. destruct p; [exact Hs | apply Hstart; exact Hs | exact Hs].
Qed.

End Frames.

Lemma call_frame (eps_rsrc : Q)
  (BatchIn : ResourceBuff -> Q -> bool) (ctx : Context) (c : Callback)
  (s : BatchReactor) :
  configuration (call eps_rsrc BatchIn ctx c s) = configuration s
  /\ match c with
     | Tick _ => reserves_ (call eps_rsrc BatchIn ctx c s) = reserves_ s
     | Tock _ => storage_ (call eps_rsrc BatchIn ctx c s) = storage_ s
     | Deliver _ _ =>
         core_ (call eps_rsrc BatchIn ctx c s) = core_ s
         /\ storage_ (call eps_rsrc BatchIn ctx c s) = storage_ s
     | Settle _ =>
         reserves_ (call eps_rsrc BatchIn ctx c s) = reserves_ s
         /\ core_ (call eps_rsrc BatchIn ctx c s) = core_ s
     end.
Proof.
  destruct c as [now|now|fuel responses|trades]; simpl call.
  - apply (not_reserves_HandleTick
             (fun s' => configuration s' = configuration s
                        /\ reserves_ s' = reserves_ s));
      try (intros ? s1 H1; exact H1).
    split; reflexivity.
  - apply (not_storage_HandleTock
             (fun s' => configuration s' = configuration s
                        /\ storage_ s' = storage_ s));
      try (intros ? s1 H1; exact H1).
    split; reflexivity.
  - apply (reserves_only_AcceptMatlTrades
             (fun s' => configuration s' = configuration s
                        /\ core_ s' = core_ s /\ storage_ s' = storage_ s));
      try (intros ? s1 H1; exact H1).
    repeat split.
  - apply (storage_only_GetMatlTrades
             (fun s' => configuration s' = configuration s
                        /\ reserves_ s' = reserves_ s /\ core_ s' = core_ s));
      try (intros ? s1 H1; exact H1).
    repeat split.
Qed.

(** X3. Every callback leaves the configuration of the facility as it was,
    and keeps to its buffers: a tick never touches the reserves, a tock
    never touches storage, a delivery touches neither core nor storage, and
    a trade settlement touches neither reserves nor core, whether they
    return or throw. *)
Theorem callbacks_keep_to_their_buffers (eps_rsrc : Q)
  (BatchIn : ResourceBuff -> Q -> bool) (ctx : Context) (c : Callback)
  (s : BatchReactor) :
  configuration (call eps_rsrc BatchIn ctx c s) = configuration s
  /\ match c with
     | Tick _ => reserves_ (call eps_rsrc BatchIn ctx c s) = reserves_ s
     | Tock _ => storage_ (call eps_rsrc BatchIn ctx c s) = storage_ s
     | Deliver _ _ =>
         core_ (call eps_rsrc BatchIn ctx c s) = core_ s
         /\ storage_ (call eps_rsrc BatchIn ctx c s) = storage_ s
     | Settle _ =>
         reserves_ (call eps_rsrc BatchIn ctx c s) = reserves_ s
         /\ core_ (call eps_rsrc BatchIn ctx c s) = core_ s
     end.
Proof.
  destruct c as [now|now|fuel responses|trades]; simpl call.
  - apply (not_reserves_HandleTick
             (fun s' => configuration s' = configuration s
                        /\ reserves_ s' = reserves_ s));
      try (intros ? s1 H1; exact H1).
    split; reflexivity.
  - apply (not_storage_HandleTock
             (fun s' => configuration s' = configuration s
                        /\ storage_ s' = storage_ s));
      try (intros ? s1 H1; exact H1).
    split; reflexivity.
  - apply (reserves_only_AcceptMatlTrades
             (fun s' => configuration s' = configuration s
                        /\ core_ s' = core_ s /\ storage_ s' = storage_ s));
      try (intros ? s1 H1; exact H1).
    repeat split.
  - apply (storage_only_GetMatlTrades
             (fun s' => configuration s' = configuration s
                        /\ reserves_ s' = reserves_ s /\ core_ s' = core_ s));
      try (intros ? s1 H1; exact H1).
    repeat split.
Qed.

(** ** The core never overfills *)

Lemma HandleTock_cases (BatchIn : ResourceBuff -> Q -> bool) (time : Z)
  (s : BatchReactor) :
  HandleTock BatchIn time s
  = match phase_ s with
    | INITIAL | WAITING => Refuel_ BatchIn s
    | PROCESS => (s, Ok tt)
    end.
Proof.
  unfold HandleTock, bind at 1, get. destruct (phase_ s); reflexivity.
Qed.

Lemma MoveBatchOut__shrinks (ctx : Context) (n : nat) :
  preserves (fun s => (List.length (core_ s) <= n)%nat) (MoveBatchOut_ ctx).
Proof.
  intros s Hs. destruct (core_ s) as [|m rest] eqn:E.
  - rewrite (MoveBatchOut__nil ctx s E). simpl. rewrite E. exact Hs.
  - rewrite (MoveBatchOut__cons ctx s m rest E). simpl. simpl in Hs. lia.
Qed.

Lemma HandleTick_shrinks_core (ctx : Context) (time : Z) (s : BatchReactor) :
  (List.length (core_ (fst (HandleTick ctx time s)))
   <= List.length (core_ s))%nat.
Proof.
  apply (preserves_HandleTick
           (fun s' => (List.length (core_ s') <= List.length (core_ s))%nat)).
  - apply MoveBatchOut__shrinks.
  - intros p s1 H1. destruct p; exact H1.
  - lia.
Qed.

Lemma configuration_n_batches_ (s s' : BatchReactor) :
  configuration s' = configuration s -> n_batches_ s' = n_batches_ s.
Proof. intro H. apply (f_equal n_batches_) in H. exact H. Qed.

Lemma call_core_bound (eps_rsrc : Q) (BatchIn : ResourceBuff -> Q -> bool)
  (ctx : Context) (c : Callback) (s : BatchReactor) :
  (n_core s <= n_batches_ s)%Z ->
  (n_core (call eps_rsrc BatchIn ctx c s)
   <= n_batches_ (call eps_rsrc BatchIn ctx c s))%Z.
Proof.
  intro Hs.
  destruct (call_frame eps_rsrc BatchIn ctx c s) as [Hcfg Hbuf].
  rewrite (configuration_n_batches_ _ _ Hcfg).
  unfold n_core, ResourceBuff.count in *.
  destruct c as [now|now|fuel responses|trades]; simpl call in *.
  - pose proof (HandleTick_shrinks_core (context_at ctx now) now s). lia.
  - rewrite HandleTock_cases.
    destruct (Refuel__prefix BatchIn s) as (k & Hk & Hst & Hacc & _).
    assert (Hlen : (Z.of_nat (List.length (core_ (fst (Refuel_ BatchIn s))))
                    <= n_batches_ s)%Z).
    { rewrite Hst. simpl. rewrite length_app, length_firstn.
      rewrite Nat.min_l by exact Hk.
      destruct k as [|k]; [lia|].
      destruct (Hacc k ltac:(lia)) as [_ Hroom]. lia. }
    destruct (phase_ s); [exact Hlen | exact Hs | exact Hlen].
  - destruct Hbuf as [Hcore _]. rewrite Hcore. exact Hs.
  - destruct Hbuf as [_ Hcore]. rewrite Hcore. exact Hs.
Qed.

(** X4. Along any run of callbacks, from a facility whose core holds at
    most [n_batches] batches, the core never holds more than [n_batches]
    batches: a tick only takes batches out of it, a tock loads one only
    while it is short, and nothing else touches it. *)
Theorem core_never_overfills (eps_rsrc : Q)
  (BatchIn : ResourceBuff -> Q -> bool) (ctx : Context)
  (s0 s : BatchReactor) (e : option Z) :
  history eps_rsrc BatchIn ctx s0 s e ->
  (ResourceBuff.count (core_ s0) <= n_batches_ s0)%Z ->
  (ResourceBuff.count (core_ s) <= n_batches_ s)%Z.
Proof.
  intros Hrun H0. induction Hrun as [|s e c Hrun IH]; [exact H0|].
  apply (call_core_bound eps_rsrc BatchIn ctx c s). exact IH.
Qed.

(** ** The phase machine *)

Lemma configuration_process_time_ (s s' : BatchReactor) :
  configuration s' = configuration s -> process_time_ s' = process_time_ s.
Proof. intro H. apply (f_equal process_time_) in H. exact H. Qed.

Lemma controls_start_time_ (s s' : BatchReactor) :
  controls s' = controls s -> start_time_ s' = start_time_ s.
Proof. intro H. apply (f_equal start_time_) in H. exact H. Qed.

Lemma call_phase_step (eps_rsrc : Q) (BatchIn : ResourceBuff -> Q -> bool)
  (ctx : Context) (c : Callback) (s : BatchReactor) :
  (phase_ (call eps_rsrc BatchIn ctx c s) = phase_ s
   /\ start_time_ (call eps_rsrc BatchIn ctx c s) = start_time_ s)
  \/ (exists now,
        c = Tick now
        /\ (phase_ s = INITIAL \/ phase_ s = WAITING)
        /\ phase_ (call eps_rsrc BatchIn ctx c s) = PROCESS
        /\ start_time_ (call eps_rsrc BatchIn ctx c s) = now
        /\ ResourceBuff.count (core_ s) = n_batches_ s)
  \/ (exists now,
        c = Tick now
        /\ phase_ s = PROCESS
        /\ phase_ (call eps_rsrc BatchIn ctx c s) = WAITING
        /\ start_time_ (call eps_rsrc BatchIn ctx c s) = start_time_ s
        /\ now = (start_time_ s + process_time_ s)%Z).
Proof.
  destruct (call_frame eps_rsrc BatchIn ctx c s) as [Hcfg _].
  destruct c as [now|now|fuel responses|trades].
  - pose proof (HandleTick_step (context_at ctx now) now s) as Hstep.
    simpl call in *.
    destruct (phase_ s) eqn:Hphase.
    + destruct Hstep as [Hsame | [Hfull Hnew]].
      * left. rewrite Hsame. split; [exact Hphase | reflexivity].
      * right; left. exists now. rewrite Hnew. simpl.
        repeat split; try reflexivity; [left; reflexivity | exact Hfull].
    + destruct Hstep as [Hsame | (Htime & Hnew & Hend)].
      * left. rewrite (controls_phase_ _ _ Hsame),
          (controls_start_time_ _ _ Hsame).
        split; [exact Hphase | reflexivity].
      * right; right. exists now.
        apply configuration_process_time_ in Hcfg.
        unfold end_time in *.
        repeat split; try assumption; lia.
    + destruct Hstep as [Hsame | (Hfull & _ & Hnew)].
      * left. rewrite Hsame. split; [exact Hphase | reflexivity].
      * right; left. exists now. rewrite Hnew. simpl.
        repeat split; try reflexivity; [right; reflexivity | exact Hfull].
  - left.
    pose proof (call_controls eps_rsrc BatchIn ctx (Tock now) s
                  ltac:(intros ? ?; discriminate)) as Hc.
    split; [apply controls_phase_ | apply controls_start_time_]; exact Hc.
  - left.
    pose proof (call_controls eps_rsrc BatchIn ctx (Deliver fuel responses) s
                  ltac:(intros ? ?; discriminate)) as Hc.
    split; [apply controls_phase_ | apply controls_start_time_]; exact Hc.
  - left.
    pose proof (call_controls eps_rsrc BatchIn ctx (Settle trades) s
                  ltac:(intros ? ?; discriminate)) as Hc.
    split; [apply controls_phase_ | apply controls_start_time_]; exact Hc.
Qed.

(** X5. A callback either leaves the phase and the start time as they
    were, or it is a tick that takes the facility from INITIAL or WAITING
    to PROCESS, with a full core, and sets the start time to the tick, or
    it is the tick at [start_time + process_time] that takes it from
    PROCESS to WAITING and keeps the start time.  So only ticks change the
    phase, PROCESS is left only for WAITING, and INITIAL is never entered
    again. *)
Theorem phase_changes_only_on_ticks (eps_rsrc : Q)
  (BatchIn : ResourceBuff -> Q -> bool) (ctx : Context) (c : Callback)
  (s : BatchReactor) :
  (phase_ (call eps_rsrc BatchIn ctx c s) = phase_ s
   /\ start_time_ (call eps_rsrc BatchIn ctx c s) = start_time_ s)
  \/ (exists now,
        c = Tick now
        /\ (phase_ s = INITIAL \/ phase_ s = WAITING)
        /\ phase_ (call eps_rsrc BatchIn ctx c s) = PROCESS
        /\ start_time_ (call eps_rsrc BatchIn ctx c s) = now
        /\ ResourceBuff.count (core_ s) = n_batches_ s)
  \/ (exists now,
        c = Tick now
        /\ phase_ s = PROCESS
        /\ phase_ (call eps_rsrc BatchIn ctx c s) = WAITING
        /\ start_time_ (call eps_rsrc BatchIn ctx c s) = start_time_ s
        /\ now = (start_time_ s + process_time_ s)%Z).
Proof.
  destruct (call_frame eps_rsrc BatchIn ctx c s) as [Hcfg _].
  destruct c as [now|now|fuel responses|trades].
  - pose proof (HandleTick_step (context_at ctx now) now s) as Hstep.
    simpl call in *.
    destruct (phase_ s) eqn:Hphase.
    + destruct Hstep as [Hsame | [Hfull Hnew]].
      * left. rewrite Hsame. split; [exact Hphase | reflexivity].
      * right; left. exists now. rewrite Hnew. simpl.
        repeat split; try reflexivity; [left; reflexivity | exact Hfull].
    + destruct Hstep as [Hsame | (Htime & Hnew & Hend)].
      * left. rewrite (controls_phase_ _ _ Hsame),
          (controls_start_time_ _ _ Hsame).
        split; [exact Hphase | reflexivity].
      * right; right. exists now.
        apply configuration_process_time_ in Hcfg.
        unfold end_time in *.
        repeat split; try assumption; lia.
    + destruct Hstep as [Hsame | (Hfull & _ & Hnew)].
      * left. rewrite Hsame. split; [exact Hphase | reflexivity].
      * right; left. exists now. rewrite Hnew. simpl.
        repeat split; try reflexivity; [right; reflexivity | exact Hfull].
  - left.
    pose proof (call_controls eps_rsrc BatchIn ctx (Tock now) s
                  ltac:(intros ? ?; discriminate)) as Hc.
    split; [apply controls_phase_ | apply controls_start_time_]; exact Hc.
  - left.
    pose proof (call_controls eps_rsrc BatchIn ctx (Deliver fuel responses) s
                  ltac:(intros ? ?; discriminate)) as Hc.
    split; [apply controls_phase_ | apply controls_start_time_]; exact Hc.
  - left.
    pose proof (call_controls eps_rsrc BatchIn ctx (Settle trades) s
                  ltac:(intros ? ?; discriminate)) as Hc.
    split; [apply controls_phase_ | apply controls_start_time_]; exact Hc.
Qed.

(** ** A facility without fuel *)

Lemma AcceptMatlTrades_empty_reserves (eps_rsrc : Q) (fuel : nat)
  (responses : list (Trade * Material)) :
  preserves (fun s => reserves_ s = [])
    (AcceptMatlTrades eps_rsrc fuel responses).
Proof.
  unfold AcceptMatlTrades.
  apply preserves_bind; [apply preserves_lift|]. intro first.
  apply preserves_bind; [apply preserves_lift|]. intro mat.
  intros s Hs. rewrite (AddBatches__empty eps_rsrc fuel mat s Hs). exact Hs.
Qed.

Lemma call_keeps_empty (eps_rsrc : Q) (BatchIn : ResourceBuff -> Q -> bool)
  (ctx : Context) (c : Callback) (s : BatchReactor) :
  reserves_ s = [] -> core_ s = [] ->
  reserves_ (call eps_rsrc BatchIn ctx c s) = []
  /\ core_ (call eps_rsrc BatchIn ctx c s) = [].
Proof.
  intros Hres Hcore.
  destruct (call_frame eps_rsrc BatchIn ctx c s) as [_ Hbuf].
  destruct c as [now|now|fuel responses|trades]; simpl call in *.
  - split; [rewrite Hbuf; exact Hres|].
    pose proof (HandleTick_shrinks_core (context_at ctx now) now s) as Hlen.
    rewrite Hcore in Hlen. simpl in Hlen.
    destruct (core_ (fst (HandleTick (context_at ctx now) now s)));
      [reflexivity | simpl in Hlen; lia].
  - rewrite HandleTock_cases.
    destruct (Refuel__prefix BatchIn s) as (k & Hk & Hst & _).
    rewrite Hres in Hk. simpl in Hk.
    assert (k = 0%nat) by lia. subst k.
    rewrite moved_none in Hst.
    destruct (phase_ s); rewrite ?Hst; split; assumption.
  - destruct Hbuf as [Hc _]. split; [|rewrite Hc; exact Hcore].
    apply (AcceptMatlTrades_empty_reserves eps_rsrc fuel responses s Hres).
  - destruct Hbuf as [Hr Hc]. rewrite Hr, Hc. split; assumption.
Qed.

(** X6. A facility whose reserves and core are empty, as the constructor
    leaves them, never holds fuel: along any run of callbacks its reserves
    and its core stay empty, because the only way into the reserves,
    [AddBatches_], throws on empty reserves before it adds anything.  If it
    is in phase INITIAL and [n_batches] is not zero it never leaves
    INITIAL. *)
Theorem empty_facility_never_fuels (eps_rsrc : Q)
  (BatchIn : ResourceBuff -> Q -> bool) (ctx : Context)
  (s0 s : BatchReactor) (e : option Z) :
  history eps_rsrc BatchIn ctx s0 s e ->
  reserves_ s0 = [] -> core_ s0 = [] ->
  reserves_ s = [] /\ core_ s = []
  /\ (phase_ s0 = INITIAL -> n_batches_ s0 <> 0%Z ->
      phase_ s = INITIAL /\ n_batches_ s = n_batches_ s0 /\ e = None).
Proof.
  intros Hrun Hres Hcore.
  induction Hrun as [|s e c Hrun IH].
  - split; [exact Hres|]. split; [exact Hcore|]. intros Hp _.
    split; [exact Hp|]. split; reflexivity.
  - destruct IH as (Hr & Hc & Hstay).
    destruct (call_keeps_empty eps_rsrc BatchIn ctx c s Hr Hc) as [Hr' Hc'].
    split; [exact Hr'|]. split; [exact Hc'|]. intros Hp Hn.
    destruct (Hstay Hp Hn) as (Hps & Hns & He).
    destruct (call_frame eps_rsrc BatchIn ctx c s) as [Hcfg _].
    apply configuration_n_batches_ in Hcfg.
    assert (Hphase : phase_ (call eps_rsrc BatchIn ctx c s) = INITIAL).
    { destruct (call_phase_step eps_rsrc BatchIn ctx c s)
        as [[Hsame _] | [(now & _ & _ & _ & _ & Hfull)
                        | (now & _ & Hproc & _)]].
      - rewrite Hsame. exact Hps.
      - exfalso. rewrite Hc in Hfull. simpl in Hfull.
        unfold ResourceBuff.count in Hfull. simpl in Hfull. lia.
      - congruence. }
    split; [exact Hphase|]. split; [lia|].
    unfold end_of_run. rewrite Hps. destruct c; exact He.
Qed.

Lemma empty_facility_never_fuels_witness :
  reserves_ reactor10 = [] /\ core_ reactor10 = []
  /\ reserves_
       (call eps_cyclus BatchIn_front context0 (Tock 0)
          (call eps_cyclus BatchIn_front context0
             (Deliver 5 [(trade_of 25, uox 25)])
             (call eps_cyclus BatchIn_front context0 (Tick 0) reactor10)))
     = []
  /\ phase_
       (call eps_cyclus BatchIn_front context0 (Tock 0)
          (call eps_cyclus BatchIn_front context0
             (Deliver 5 [(trade_of 25, uox 25)])
             (call eps_cyclus BatchIn_front context0 (Tick 0) reactor10)))
     = INITIAL.
Proof.
  split; [reflexivity|]. split; [reflexivity|].
  destruct (empty_facility_never_fuels eps_cyclus BatchIn_front context0
              reactor10 _ _
              (history_call eps_cyclus BatchIn_front context0 reactor10
                 _ _ (Tock 0)
                 (history_call eps_cyclus BatchIn_front context0 reactor10
                    _ _ (Deliver 5 [(trade_of 25, uox 25)])
                    (history_call eps_cyclus BatchIn_front context0
                       reactor10 _ _ (Tick 0)
                       (history_start eps_cyclus BatchIn_front context0
                          reactor10))))
              eq_refl eq_refl)
    as (Hr & _ & Hstay).
  split; [exact Hr|].
  exact (proj1 (Hstay eq_refl ltac:(discriminate))).
Defined.

(** ** Delivery absorption, whatever its outcome *)

Lemma AddBatches_loop_S (fuel : nat) (mat : Material) (s : BatchReactor) :
  AddBatches_loop (S fuel) mat s
  = if Qltb (batch_size_ s) (Material.quantity mat) then
      AddBatches_loop fuel
        (Material.mk (Material.quantity mat - batch_size_ s)
           (Material.comp mat))
        (set_reserves_
           (ResourceBuff.Push
              (Material.mk (batch_size_ s) (Material.comp mat))
              (reserves_ s))
           s)
    else (s, Ok mat).
Proof.
  simpl. unfold bind at 1, get.
  destruct (Qltb (batch_size_ s) (Material.quantity mat)) eqn:Ecut;
    [|reflexivity].
  apply Qltb_lt in Ecut. unfold bind at 1, lift.
  rewrite (Extract_Ok mat (batch_size_ s) (Qlt_le_weak _ _ Ecut)).
  reflexivity.
Qed.

Lemma AddBatches_rest_cases (eps_rsrc : Q) (fuel : nat)
  (last mat : Material) (s : BatchReactor) :
  AddBatches_rest eps_rsrc fuel last mat s
  = match AddBatches_loop fuel mat
            (set_reserves_ (ResourceBuff.Push last (reserves_ s)) s) with
    | (s1, Ok mat') =>
        if Qltb eps_rsrc (Material.quantity mat') then
          (set_reserves_ (ResourceBuff.Push mat' (reserves_ s1)) s1, Ok tt)
        else (s1, Ok tt)
    | (s1, Throw e) => (s1, Throw e)
    | (s1, OutOfFuel) => (s1, OutOfFuel)
    end.
Proof.
  unfold AddBatches_rest, bind, reserves_Push, modify.
  destruct (AddBatches_loop fuel mat
              (set_reserves_ (ResourceBuff.Push last (reserves_ s)) s))
    as [s1 [mat'| e |]]; [|reflexivity ..].
  destruct (Qltb eps_rsrc (Material.quantity mat')); reflexivity.
Qed.

Lemma AddBatches__snoc (eps_rsrc : Q) (fuel : nat) (mat last : Material)
  (front : ResourceBuff) (s : BatchReactor) :
  reserves_ s = front ++ [last] ->
  AddBatches_ eps_rsrc fuel mat s
  = if Qltb (Material.quantity last) (batch_size_ s) then
      if Qle_bool (Material.quantity last + Material.quantity mat)
           (batch_size_ s)
      then
        (set_reserves_
           (ResourceBuff.Push (Material.Absorb last mat) front) s,
         Ok tt)
      else
        AddBatches_rest eps_rsrc fuel
          (Material.Absorb last
             (Material.mk (batch_size_ s - Material.quantity last)
                (Material.comp mat)))
          (Material.mk
             (Material.quantity mat
              - (batch_size_ s - Material.quantity last))
             (Material.comp mat))
          (set_reserves_ front s)
    else AddBatches_rest eps_rsrc fuel last mat (set_reserves_ front s).
Proof.
  intro Hres. unfold AddBatches_.
  unfold bind at 1, reserves_PopBack, with_buff.
  rewrite Hres, PopBack_snoc.
  unfold bind at 1, get.
  change (batch_size_ (set_reserves_ front s)) with (batch_size_ s).
  destruct (Qltb (Material.quantity last) (batch_size_ s)) eqn:Elast;
    [|reflexivity].
  destruct (Qle_bool (Material.quantity last + Material.quantity mat)
              (batch_size_ s)) eqn:Efits; [reflexivity|].
  apply Qle_bool_gt in Efits. apply Qltb_lt in Elast.
  unfold bind at 1, lift.
  rewrite (Extract_Ok mat (batch_size_ s - Material.quantity last))
    by lra.
  reflexivity.
Qed.

Lemma AddBatches_loop_full (bs : Q) (fuel : nat) :
  forall mat s,
    batch_size_ s = bs ->
    Forall (fun m => Material.quantity m == bs) (reserves_ s) ->
    batch_size_ (fst (AddBatches_loop fuel mat s)) = bs
    /\ Forall (fun m => Material.quantity m == bs)
         (reserves_ (fst (AddBatches_loop fuel mat s)))
    /\ (forall mat', snd (AddBatches_loop fuel mat s) = Ok mat' ->
        Material.quantity mat' <= bs).
Proof.
  induction fuel as [|fuel IH]; intros mat s Hbs Hfull.
  - simpl. split; [exact Hbs|]. split; [exact Hfull|]. discriminate.
  - rewrite AddBatches_loop_S.
    destruct (Qltb (batch_size_ s) (Material.quantity mat)) eqn:Ecut.
    + apply IH; [exact Hbs|].
      simpl. unfold ResourceBuff.Push. apply Forall_app.
      split; [exact Hfull|].
      constructor; [simpl; rewrite Hbs; reflexivity | constructor].
    + apply Qltb_ge in Ecut. simpl.
      split; [exact Hbs|]. split; [exact Hfull|].
      intros mat' H. inversion H; subst. exact Ecut.
Qed.

Lemma AddBatches_rest_quantized (eps_rsrc : Q) (bs : Q) (fuel : nat)
  (last mat : Material) (s : BatchReactor) :
  batch_size_ s = bs ->
  Forall (fun m => Material.quantity m == bs) (reserves_ s) ->
  Material.quantity last == bs ->
  batch_size_ (fst (AddBatches_rest eps_rsrc fuel last mat s)) = bs
  /\ quantized bs (reserves_ (fst (AddBatches_rest eps_rsrc fuel last mat s))).
Proof.
  intros Hbs Hfull Hlast. rewrite AddBatches_rest_cases.
  destruct (AddBatches_loop_full bs fuel mat
              (set_reserves_ (ResourceBuff.Push last (reserves_ s)) s))
    as (Hbs1 & Hfull1 & Hleft).
  { exact Hbs. }
  { simpl. unfold ResourceBuff.Push. apply Forall_app.
    split; [exact Hfull|]. constructor; [exact Hlast | constructor]. }
  destruct (AddBatches_loop fuel mat
              (set_reserves_ (ResourceBuff.Push last (reserves_ s)) s))
    as [s1 [mat'| e |]]; simpl in *;
    try (split; [exact Hbs1 | apply quantized_full; exact Hfull1]).
  destruct (Qltb eps_rsrc (Material.quantity mat')); simpl;
    (split; [exact Hbs1|]).
  - unfold ResourceBuff.Push. apply quantized_snoc; [exact Hfull1|].
    apply Hleft. reflexivity.
  - apply quantized_full. exact Hfull1.
Qed.

Lemma AddBatches__keeps_shape (eps_rsrc : Q) (fuel : nat) (mat : Material) :
  preserves (fun s => quantized (batch_size_ s) (reserves_ s))
    (AddBatches_ eps_rsrc fuel mat).
Proof.
  intros s Hq.
  destruct (reserves_ s) as [|x l] eqn:Eres.
  - rewrite (AddBatches__empty eps_rsrc fuel mat s Eres). simpl.
    rewrite Eres. exact Hq.
  - assert (Hne : x :: l <> []) by discriminate.
    destruct (exists_last Hne) as (front & last & Hsplit).
    rewrite Hsplit in *. clear Hne.
    apply quantized_snoc_inv in Hq. destruct Hq as [Hfront Hlast].
    rewrite (AddBatches__snoc eps_rsrc fuel mat last front s Eres).
    destruct (Qltb (Material.quantity last) (batch_size_ s)) eqn:Elast.
    + destruct (Qle_bool (Material.quantity last + Material.quantity mat)
                  (batch_size_ s)) eqn:Efits.
      * apply Qle_bool_iff in Efits. simpl. unfold ResourceBuff.Push.
        apply quantized_snoc; [exact Hfront | exact Efits].
      * destruct (AddBatches_rest_quantized eps_rsrc (batch_size_ s) fuel
                    (Material.Absorb last
                       (Material.mk (batch_size_ s - Material.quantity last)
                          (Material.comp mat)))
                    (Material.mk
                       (Material.quantity mat
                        - (batch_size_ s - Material.quantity last))
                       (Material.comp mat))
                    (set_reserves_ front s) eq_refl Hfront)
          as [Hbs Hshape].
        { simpl. lra. }
        rewrite Hbs. exact Hshape.
    + apply Qltb_ge in Elast.
      destruct (AddBatches_rest_quantized eps_rsrc (batch_size_ s) fuel
                  last mat (set_reserves_ front s) eq_refl Hfront)
        as [Hbs Hshape].
      { lra. }
      rewrite Hbs. exact Hshape.
Qed.

(** X7. [AddBatches_] keeps the shape of the reserves, whatever its
    outcome: if every batch but the last holds exactly [batch_size] and the
    last holds at most [batch_size] before the call, the same is true after
    it, whether it returned, threw or was cut short. *)
Theorem AddBatches__keeps_quantized (eps_rsrc : Q) (fuel : nat)
  (mat : Material) (s : BatchReactor) :
  quantized (batch_size_ s) (reserves_ s) ->
  quantized (batch_size_ (fst (AddBatches_ eps_rsrc fuel mat s)))
    (reserves_ (fst (AddBatches_ eps_rsrc fuel mat s))).
Proof.
  intros Hq.
  destruct (reserves_ s) as [|x l] eqn:Eres.
  - rewrite (AddBatches__empty eps_rsrc fuel mat s Eres). simpl.
    rewrite Eres. exact Hq.
  - assert (Hne : x :: l <> []) by discriminate.
    destruct (exists_last Hne) as (front & last & Hsplit).
    rewrite Hsplit in *. clear Hne.
    apply quantized_snoc_inv in Hq. destruct Hq as [Hfront Hlast].
    rewrite (AddBatches__snoc eps_rsrc fuel mat last front s Eres).
    destruct (Qltb (Material.quantity last) (batch_size_ s)) eqn:Elast.
    + destruct (Qle_bool (Material.quantity last + Material.quantity mat)
                  (batch_size_ s)) eqn:Efits.
      * apply Qle_bool_iff in Efits. simpl. unfold ResourceBuff.Push.
        apply quantized_snoc; [exact Hfront | exact Efits].
      * destruct (AddBatches_rest_quantized eps_rsrc (batch_size_ s) fuel
                    (Material.Absorb last
                       (Material.mk (batch_size_ s - Material.quantity last)
                          (Material.comp mat)))
                    (Material.mk
                       (Material.quantity mat
                        - (batch_size_ s - Material.quantity last))
                       (Material.comp mat))
                    (set_reserves_ front s) eq_refl Hfront)
          as [Hbs Hshape].
        { simpl. lra. }
        rewrite Hbs. exact Hshape.
    + apply Qltb_ge in Elast.
      destruct (AddBatches_rest_quantized eps_rsrc (batch_size_ s) fuel
                  last mat (set_reserves_ front s) eq_refl Hfront)
        as [Hbs Hshape].
      { lra. }
      rewrite Hbs. exact Hshape.
Qed.

Lemma AddBatches__keeps_quantized_witness :
  quantized (batch_size_ (reactor_reserving [uox 10; uox 4]))
    (reserves_ (reactor_reserving [uox 10; uox 4]))
  /\ quantized
       (batch_size_
          (fst (AddBatches_ eps_cyclus 3 (uox 25)
                  (reactor_reserving [uox 10; uox 4]))))
       (reserves_
          (fst (AddBatches_ eps_cyclus 3 (uox 25)
                  (reactor_reserving [uox 10; uox 4])))).
Proof.
  assert (Hq : quantized (batch_size_ (reactor_reserving [uox 10; uox 4]))
                 (reserves_ (reactor_reserving [uox 10; uox 4]))).
  { simpl. split; [vm_compute; discriminate|].
    constructor; [reflexivity | constructor]. }
  split; [exact Hq|].
  exact (AddBatches__keeps_quantized eps_cyclus 3 (uox 25)
           (reactor_reserving [uox 10; uox 4]) Hq).
Defined.

(** Topping up a last batch of 4 with a delivery of 25: (10, 4) becomes
    (10, 10, 10, 9). *)
Example delivery_tops_up_last_batch :
  reserves_
    (fst (AddBatches_ eps_cyclus 3 (uox 25)
            (reactor_reserving [uox 10; uox 4])))
  = [uox 10; uox 10; uox 10; uox 9].
Proof. reflexivity. Qed.

Lemma quantized_tl (bs : Q) (x : Material) (l : ResourceBuff) :
  quantized bs (x :: l) -> quantized bs l.
Proof.
  unfold quantized. simpl.
  destruct (rev l) as [|last front] eqn:E; [intros _; exact I|].
  simpl. intros [Hlast Hall]. split; [exact Hlast|].
  apply Forall_app in Hall. apply Hall.
Qed.

Lemma quantized_skipn (bs : Q) (k : nat) :
  forall l, quantized bs l -> quantized bs (skipn k l).
Proof.
  induction k as [|k IH]; intros l Hq; [exact Hq|].
  destruct l as [|x l]; [exact Hq|].
  simpl. apply IH. apply (quantized_tl bs x l Hq).
Qed.

Lemma configuration_batch_size_ (s s' : BatchReactor) :
  configuration s' = configuration s -> batch_size_ s' = batch_size_ s.
Proof. intro H. apply (f_equal batch_size_) in H. exact H. Qed.

Lemma call_keeps_shape (eps_rsrc : Q) (BatchIn : ResourceBuff -> Q -> bool)
  (ctx : Context) (c : Callback) (s : BatchReactor) :
  quantized (batch_size_ s) (reserves_ s) ->
  quantized (batch_size_ (call eps_rsrc BatchIn ctx c s))
    (reserves_ (call eps_rsrc BatchIn ctx c s)).
Proof.
  intro Hq.
  destruct (call_frame eps_rsrc BatchIn ctx c s) as [Hcfg Hbuf].
  destruct c as [now|now|fuel responses|trades]; simpl call in *.
  - rewrite (configuration_batch_size_ _ _ Hcfg), Hbuf. exact Hq.
  - rewrite (configuration_batch_size_ _ _ Hcfg).
    rewrite HandleTock_cases.
    destruct (Refuel__prefix BatchIn s) as (k & _ & Hst & _).
    assert (Hr : quantized (batch_size_ s)
                   (reserves_ (fst (Refuel_ BatchIn s)))).
    { rewrite Hst. simpl. apply quantized_skipn. exact Hq. }
    destruct (phase_ s); [exact Hr | exact Hq | exact Hr].
  - revert Hq. generalize s.
    change (preserves (fun s => quantized (batch_size_ s) (reserves_ s))
              (AcceptMatlTrades eps_rsrc fuel responses)).
    unfold AcceptMatlTrades.
    apply preserves_bind; [apply preserves_lift|]. intro first.
    apply preserves_bind; [apply preserves_lift|]. intro mat.
    apply AddBatches__keeps_shape.
  - destruct Hbuf as [Hres _].
    rewrite (configuration_batch_size_ _ _ Hcfg), Hres. exact Hq.
Qed.

(** X8. The shape of the reserves is an invariant of the facility: along
    any run of callbacks from reserves in which every batch but the last
    holds exactly [batch_size] and the last at most [batch_size] (empty
    reserves among them), the reserves keep that shape. *)
Theorem reserves_stay_quantized (eps_rsrc : Q)
  (BatchIn : ResourceBuff -> Q -> bool) (ctx : Context)
  (s0 s : BatchReactor) (e : option Z) :
  history eps_rsrc BatchIn ctx s0 s e ->
  quantized (batch_size_ s0) (reserves_ s0) ->
  quantized (batch_size_ s) (reserves_ s).
Proof.
  intros Hrun H0. induction Hrun as [|s e c Hrun IH]; [exact H0|].
  apply call_keeps_shape. exact IH.
Qed.

Lemma reserves_stay_quantized_witness :
  quantized (batch_size_ reactor_primed) (reserves_ reactor_primed)
  /\ quantized
       (batch_size_
          (call eps_cyclus BatchIn_front context0
             (Deliver 3 [(trade_of 25, uox 25)])
             (call eps_cyclus BatchIn_front context0 (Tick 0)
                reactor_primed)))
       (reserves_
          (call eps_cyclus BatchIn_front context0
             (Deliver 3 [(trade_of 25, uox 25)])
             (call eps_cyclus BatchIn_front context0 (Tick 0)
                reactor_primed))).
Proof.
  assert (Hq : quantized (batch_size_ reactor_primed)
                 (reserves_ reactor_primed)).
  { simpl. split; [vm_compute; discriminate | constructor]. }
  split; [exact Hq|].
  exact (reserves_stay_quantized eps_cyclus BatchIn_front context0
           reactor_primed _ _
           (history_call eps_cyclus BatchIn_front context0 reactor_primed
              _ _ (Deliver 3 [(trade_of 25, uox 25)])
              (history_call eps_cyclus BatchIn_front context0 reactor_primed
                 _ _ (Tick 0)
                 (history_start eps_cyclus BatchIn_front context0
                    reactor_primed)))
           Hq).
Defined.

(** ** Delivery absorption: when it ends *)

(** X9. Into reserves that are not empty and with a positive batch size,
    [AddBatches_] returns: there is a number of loop iterations, growing
    with the delivery, from which on it ends normally. *)
Theorem AddBatches__terminates (eps_rsrc : Q) (mat : Material)
  (s : BatchReactor) :
  reserves_ s <> [] -> 0 < batch_size_ s ->
  exists k : nat, forall fuel, (k <= fuel)%nat ->
    exists s', AddBatches_ eps_rsrc fuel mat s = (s', Ok tt).
Proof.
  intros Hne Hbs.
  destruct (enough_fuel (Material.quantity mat) (batch_size_ s) Hbs)
    as [k Hk].
  exists (S k). intros fuel Hfuel.
  destruct fuel as [|k']; [lia|].
  assert (Hk' : (k <= k')%nat) by lia. specialize (Hk k' Hk').
  assert (Hrest : forall last mat1 s1,
             batch_size_ s1 = batch_size_ s ->
             Material.quantity mat1 <= Material.quantity mat ->
             exists s',
               AddBatches_rest eps_rsrc (S k') last mat1 s1 = (s', Ok tt)).
  { intros last mat1 s1 Hbs1 Hle.
    unfold AddBatches_rest.
    unfold bind at 1, reserves_Push, modify.
    destruct (AddBatches_loop_fuel k' mat1
                (set_reserves_ (ResourceBuff.Push last (reserves_ s1)) s1))
      as (s2 & mat' & Hloop).
    - simpl. rewrite Hbs1. exact Hbs.
    - change (batch_size_ (set_reserves_ _ s1)) with (batch_size_ s1).
      rewrite Hbs1. lra.
    - rewrite (bind_Ok _ _ _ _ _ Hloop).
      destruct (Qltb eps_rsrc (Material.quantity mat'));
        eexists; reflexivity. }
  destruct (exists_last Hne) as (front & last & Hres).
  unfold AddBatches_.
  unfold bind at 1, reserves_PopBack, with_buff.
  rewrite Hres, PopBack_snoc.
  unfold bind at 1, get.
  change (batch_size_ (set_reserves_ front s)) with (batch_size_ s).
  destruct (Qltb (Material.quantity last) (batch_size_ s)) eqn:Elast.
  - apply Qltb_lt in Elast.
    destruct (Qle_bool (Material.quantity last + Material.quantity mat)
                (batch_size_ s)) eqn:Efits.
    + eexists; reflexivity.
    + apply Qle_bool_gt in Efits.
      unfold bind at 1, lift.
      rewrite (Extract_Ok mat (batch_size_ s - Material.quantity last))
        by lra.
      apply Hrest; [reflexivity | simpl; lra].
  - apply Hrest; [reflexivity | lra].
Qed.

Lemma AddBatches__terminates_witness :
  reserves_ (reactor_reserving [uox 10]) <> []
  /\ 0 < batch_size_ (reactor_reserving [uox 10])
  /\ exists k : nat, forall fuel, (k <= fuel)%nat ->
       exists s',
         AddBatches_ eps_cyclus fuel (uox 25) (reactor_reserving [uox 10])
         = (s', Ok tt).
Proof.
  split; [discriminate|]. split; [reflexivity|].
  apply (AddBatches__terminates eps_cyclus (uox 25)
           (reactor_reserving [uox 10])); [discriminate | reflexivity].
Defined.

Lemma AddBatches_loop_diverges (fuel : nat) :
  forall mat s,
    batch_size_ s <= 0 ->
    batch_size_ s < Material.quantity mat ->
    snd (AddBatches_loop fuel mat s) = OutOfFuel.
Proof.
  induction fuel as [|fuel IH]; intros mat s Hbs Hmat; [reflexivity|].
  rewrite AddBatches_loop_S.
  apply Qltb_lt in Hmat. rewrite Hmat. apply Qltb_lt in Hmat.
  apply IH; simpl; lra.
Qed.

(** X10. With a batch size that is not positive the loop of [AddBatches_]
    has no end: behind a last batch that is not under-full, a delivery
    larger than [batch_size] is cut into batches of [batch_size] for ever,
    since what is left of it never shrinks.  No fuel is enough. *)
Theorem AddBatches__never_ends (eps_rsrc : Q) (mat last : Material)
  (front : ResourceBuff) (s : BatchReactor) :
  reserves_ s = front ++ [last] ->
  batch_size_ s <= 0 ->
  batch_size_ s <= Material.quantity last ->
  batch_size_ s < Material.quantity mat ->
  forall fuel, snd (AddBatches_ eps_rsrc fuel mat s) = OutOfFuel.
Proof.
  intros Hres Hbs Hlast Hmat fuel.
  rewrite (AddBatches__snoc eps_rsrc fuel mat last front s Hres).
  apply Qltb_ge in Hlast. rewrite Hlast.
  rewrite AddBatches_rest_cases.
  pose proof (AddBatches_loop_diverges fuel mat
                (set_reserves_
                   (ResourceBuff.Push last (reserves_ (set_reserves_ front s)))
                   (set_reserves_ front s)) Hbs Hmat) as Hloop.
  destruct (AddBatches_loop fuel mat
              (set_reserves_
                 (ResourceBuff.Push last (reserves_ (set_reserves_ front s)))
                 (set_reserves_ front s)))
    as [s1 [mat'| e |]]; simpl in Hloop; try discriminate.
  reflexivity.
Qed.

Lemma AddBatches__never_ends_witness :
  reserves_ (set_batch_size_ 0 (reactor_reserving [uox 10]))
  = [] ++ [uox 10]
  /\ batch_size_ (set_batch_size_ 0 (reactor_reserving [uox 10])) <= 0
  /\ batch_size_ (set_batch_size_ 0 (reactor_reserving [uox 10]))
     <= Material.quantity (uox 10)
  /\ batch_size_ (set_batch_size_ 0 (reactor_reserving [uox 10]))
     < Material.quantity (uox 5)
  /\ forall fuel,
       snd (AddBatches_ eps_cyclus fuel (uox 5)
              (set_batch_size_ 0 (reactor_reserving [uox 10])))
       = OutOfFuel.
Proof.
  assert (H1 : batch_size_ (set_batch_size_ 0 (reactor_reserving [uox 10]))
               <= 0) by (vm_compute; discriminate).
  assert (H2 : batch_size_ (set_batch_size_ 0 (reactor_reserving [uox 10]))
               <= Material.quantity (uox 10)) by (vm_compute; discriminate).
  assert (H3 : batch_size_ (set_batch_size_ 0 (reactor_reserving [uox 10]))
               < Material.quantity (uox 5)) by reflexivity.
  split; [reflexivity|]. split; [exact H1|]. split; [exact H2|].
  split; [exact H3|].
  exact (AddBatches__never_ends eps_cyclus (uox 5) (uox 10) []
           (set_batch_size_ 0 (reactor_reserving [uox 10]))
           eq_refl H1 H2 H3).
Defined.

(** ** Settling several trades *)

Lemma GetMatlTrades_body_short (t : Trade) (s : BatchReactor) :
  ResourceBuff.quantity (storage_ s) < amt t ->
  GetMatlTrades_body t s = (s, Throw InsufficientQuantityError).
Proof.
  intro Hlt. apply Qltb_lt in Hlt.
  unfold GetMatlTrades_body, bind, storage_PopQty, with_buff,
    ResourceBuff.PopQty.
  rewrite Hlt. reflexivity.
Qed.

Lemma sum_amt_nonneg (trades : list Trade) :
  Forall (fun t => 0 < amt t) trades -> 0 <= sum_amt trades.
Proof.
  induction 1 as [|t trades Ht _ IH]; simpl; lra.
Qed.

Lemma GetMatlTrades_Ok_inv (trades : list Trade) :
  forall responses s s' out,
    GetMatlTrades trades responses s = (s', Ok out) ->
    Forall (fun t => 0 < amt t) trades
    /\ (trades <> [] -> sum_amt trades <= ResourceBuff.quantity (storage_ s))
    /\ exists units,
         out = responses ++ combine trades units
         /\ List.length units = List.length trades
         /\ Forall2 (fun t u => Material.quantity u == amt t) trades units.
Proof.
  induction trades as [|t trades IH]; intros responses s s' out H;
    simpl in H.
  - inversion H; subst.
    split; [constructor|]. split; [intro Hne; exfalso; apply Hne; reflexivity|].
    exists []. rewrite app_nil_r. repeat split. constructor.
  - unfold bind in H.
    destruct (GetMatlTrades_body t s) as [s1 [r| e |]] eqn:Ebody;
      try discriminate.
    destruct (GetMatlTrades_body_inv _ _ _ _ Ebody) as [Hpos Hle].
    destruct (GetMatlTrades_body_Ok t s Hpos Hle)
      as (first & others & rest & _ & Hrun & Hqty & Hrest).
    rewrite Hrun in Ebody. inversion Ebody; subst s1 r. clear Ebody.
    destruct (IH _ _ _ _ H) as (Hall & Hsum & units & Hout & Hlen & Hunits).
    split; [constructor; assumption|]. split.
    + intros _. simpl.
      destruct trades as [|t' trades'].
      * simpl. lra.
      * assert (Hne : t' :: trades' <> []) by discriminate.
        specialize (Hsum Hne). simpl storage_ in Hsum. lra.
    + exists (fold_left Material.Absorb others first :: units).
      split; [|split].
      * rewrite Hout, <- app_assoc. reflexivity.
      * simpl. rewrite Hlen. reflexivity.
      * constructor; assumption.
Qed.

Lemma GetMatlTrades_Ok_intro (trades : list Trade) :
  forall responses s,
    Forall (fun t => 0 < amt t) trades ->
    (trades <> [] -> sum_amt trades <= ResourceBuff.quantity (storage_ s)) ->
    exists s' out, GetMatlTrades trades responses s = (s', Ok out).
Proof.
  induction trades as [|t trades IH]; intros responses s Hall Hsum.
  - exists s, responses. reflexivity.
  - inversion Hall as [|t0 l0 Hpos Hrest]; subst.
    pose proof (sum_amt_nonneg trades Hrest) as Hnn.
    assert (Hne : t :: trades <> []) by discriminate.
    specialize (Hsum Hne). simpl in Hsum.
    assert (Hle : amt t <= ResourceBuff.quantity (storage_ s)) by lra.
    destruct (GetMatlTrades_body_Ok t s Hpos Hle)
      as (first & others & rest & _ & Hrun & _ & Hleft).
    simpl. rewrite (bind_Ok _ _ _ _ _ Hrun).
    apply IH; [exact Hrest|].
    intros _. simpl storage_. lra.
Qed.

(** X11. A settlement of one or more trades returns exactly when every
    traded amount is positive and the amounts together do not exceed
    [storage.quantity()]. *)
Theorem GetMatlTrades_returns_iff (t : Trade) (more : list Trade)
  (responses : list (Trade * Material)) (s : BatchReactor) :
  (exists s' out, GetMatlTrades (t :: more) responses s = (s', Ok out))
  <-> (Forall (fun t' => 0 < amt t') (t :: more)
       /\ sum_amt (t :: more) <= ResourceBuff.quantity (storage_ s)).
Proof.
  split.
  - intros (s' & out & H).
    destruct (GetMatlTrades_Ok_inv _ _ _ _ _ H) as (Hall & Hsum & _).
    split; [exact Hall | apply Hsum; discriminate].
  - intros [Hall Hsum].
    apply GetMatlTrades_Ok_intro; [exact Hall | intros _; exact Hsum].
Qed.

(** X12. A settlement that returns has appended one response per trade to
    the responses it was given, in the order of the trades: each pairs the
    trade with a material unit of exactly the traded amount. *)
Theorem GetMatlTrades_responses (trades : list Trade)
  (responses : list (Trade * Material)) (s s' : BatchReactor)
  (out : list (Trade * Material)) :
  GetMatlTrades trades responses s = (s', Ok out) ->
  exists units,
    out = responses ++ combine trades units
    /\ List.length units = List.length trades
    /\ Forall2 (fun t u => Material.quantity u == amt t) trades units.
Proof.
  intro H. exact (proj2 (proj2 (GetMatlTrades_Ok_inv _ _ _ _ _ H))).
Qed.

Lemma GetMatlTrades_responses_witness :
  GetMatlTrades [trade_of 15; trade_of 5] []
    (reactor_storing [spent 10; spent 10])
  = (reactor_storing [], Ok [(trade_of 15, spent 15); (trade_of 5, spent 5)])
  /\ exists units,
       [(trade_of 15, spent 15); (trade_of 5, spent 5)]
       = [] ++ combine [trade_of 15; trade_of 5] units
       /\ List.length units = 2%nat
       /\ Forall2 (fun t u => Material.quantity u == amt t)
            [trade_of 15; trade_of 5] units.
Proof.
  split; [reflexivity|].
  apply (GetMatlTrades_responses [trade_of 15; trade_of 5] []
           (reactor_storing [spent 10; spent 10]) (reactor_storing [])).
  reflexivity.
Defined.

(** X13. A settlement is not undone when a later trade fails: if the first
    trade can be met and the second asks for more than is then left, the
    call throws [InsufficientQuantityError] and storage has already lost
    the first amount. *)
Theorem GetMatlTrades_is_not_atomic (t1 t2 : Trade) (more : list Trade)
  (responses : list (Trade * Material)) (s : BatchReactor) :
  0 < amt t1 ->
  amt t1 <= ResourceBuff.quantity (storage_ s) ->
  ResourceBuff.quantity (storage_ s) - amt t1 < amt t2 ->
  exists s',
    GetMatlTrades (t1 :: t2 :: more) responses s
    = (s', Throw InsufficientQuantityError)
    /\ ResourceBuff.quantity (storage_ s')
       == ResourceBuff.quantity (storage_ s) - amt t1.
Proof.
  intros Hpos Hle Hshort.
  destruct (GetMatlTrades_body_Ok t1 s Hpos Hle)
    as (first & others & rest & _ & Hrun & _ & Hleft).
  exists (set_storage_ rest s). split; [|exact Hleft].
  simpl. rewrite (bind_Ok _ _ _ _ _ Hrun).
  rewrite (bind_Throw _ _ _ _ _
             (GetMatlTrades_body_short t2 (set_storage_ rest s)
                ltac:(simpl; lra))).
  reflexivity.
Qed.

Lemma GetMatlTrades_is_not_atomic_witness :
  0 < amt (trade_of 15)
  /\ amt (trade_of 15)
     <= ResourceBuff.quantity (storage_ (reactor_storing [spent 10; spent 10]))
  /\ ResourceBuff.quantity (storage_ (reactor_storing [spent 10; spent 10]))
     - amt (trade_of 15) < amt (trade_of 7)
  /\ exists s',
       GetMatlTrades [trade_of 15; trade_of 7] []
         (reactor_storing [spent 10; spent 10])
       = (s', Throw InsufficientQuantityError)
       /\ ResourceBuff.quantity (storage_ s')
          == ResourceBuff.quantity
               (storage_ (reactor_storing [spent 10; spent 10]))
             - amt (trade_of 15).
Proof.
  assert (H1 : 0 < amt (trade_of 15)) by reflexivity.
  assert (H2 : amt (trade_of 15)
               <= ResourceBuff.quantity
                    (storage_ (reactor_storing [spent 10; spent 10])))
    by (vm_compute; discriminate).
  assert (H3 : ResourceBuff.quantity
                 (storage_ (reactor_storing [spent 10; spent 10]))
               - amt (trade_of 15) < amt (trade_of 7)) by reflexivity.
  split; [exact H1|]. split; [exact H2|]. split; [exact H3|].
  exact (GetMatlTrades_is_not_atomic (trade_of 15) (trade_of 7) [] []
           (reactor_storing [spent 10; spent 10]) H1 H2 H3).
Defined.

Lemma GetMatlTrades_returns_iff_witness :
  (exists s' out,
     GetMatlTrades [trade_of 15; trade_of 5] []
       (reactor_storing [spent 10; spent 10])
     = (s', Ok out))
  /\ ~ (exists s' out,
          GetMatlTrades [trade_of 15; trade_of 7] []
            (reactor_storing [spent 10; spent 10])
          = (s', Ok out)).
Proof.
  split.
  - apply (proj2 (GetMatlTrades_returns_iff (trade_of 15) [trade_of 5] []
                    (reactor_storing [spent 10; spent 10]))).
    split.
    + repeat constructor.
    + vm_compute. discriminate.
  - intro H.
    apply (proj1 (GetMatlTrades_returns_iff (trade_of 15) [trade_of 7] []
                    (reactor_storing [spent 10; spent 10]))) in H.
    destruct H as [_ Hsum]. vm_compute in Hsum. apply Hsum. reflexivity.
Defined.

(** ** Bids when nothing was requested *)

Lemma commod_at_missing (m : CommodMap) (k : string) :
  (forall reqs, ~ In (k, reqs) m) -> commod_at m k = Throw OutOfRange.
Proof.
  induction m as [|[k' v] m IH]; intro Hno; simpl; [reflexivity|].
  destruct (String.eqb k' k) eqn:E.
  - apply String.eqb_eq in E. subst k'.
    exfalso. apply (Hno v). left. reflexivity.
  - apply IH. intros reqs Hin. apply (Hno reqs). right. exact Hin.
Qed.

Lemma commod_at_present (m : CommodMap) (k : string) (reqs : list Request) :
  In (k, reqs) m -> exists reqs', commod_at m k = Ok reqs'.
Proof.
  induction m as [|[k' v] m IH]; intro Hin; simpl; [destruct Hin|].
  destruct (String.eqb k' k) eqn:E; [exists v; reflexivity|].
  destruct Hin as [Heq | Hin]; [|apply IH; exact Hin].
  inversion Heq; subst. rewrite String.eqb_refl in E. discriminate.
Qed.

(** X14. [GetMatlBids] throws the out-of-range error of [std::map::at]
    exactly when the requests it is given hold no entry for the facility's
    out-commodity; with an entry, even an empty one, it returns. *)
Theorem GetMatlBids_missing_commodity (ctx : Context)
  (commod_requests : CommodMap) (s : BatchReactor) :
  GetMatlBids ctx commod_requests s = Throw OutOfRange
  <-> (forall reqs, ~ In (out_commodity_ s, reqs) commod_requests).
Proof.
  split.
  - intros Hthrow reqs Hin.
    destruct (commod_at_present _ _ _ Hin) as [reqs' Hat].
    unfold GetMatlBids in Hthrow. rewrite Hat in Hthrow. discriminate.
  - intro Hno. unfold GetMatlBids.
    rewrite (commod_at_missing _ _ Hno). reflexivity.
Qed.

(** ** An order that was filled *)

(** X15. Once a delivery of at least the missing quantity
    [n_reserves * batch_size - reserves.quantity()] has been absorbed, no
    fuel request is produced, whatever the time: what [AddBatches_] may
    have discarded is at most [eps_rsrc], which does not exceed [eps]. *)
Theorem filled_order_is_not_repeated (eps eps_rsrc : Q)
  (order_time : BatchReactor -> Z) (ctx : Context) (fuel : nat)
  (mat : Material) (s s' : BatchReactor) :
  0 <= eps -> eps_rsrc <= eps ->
  inject_Z (n_reserves_ s) * batch_size_ s
  - ResourceBuff.quantity (reserves_ s) <= Material.quantity mat ->
  AddBatches_ eps_rsrc fuel mat s = (s', Ok tt) ->
  GetMatlRequests eps order_time ctx s' = [].
Proof.
  intros Heps Hle Hfill Hrun.
  apply AddBatches__Ok in Hrun.
  destruct Hrun as (front & last & tail & lost & Hres & Hs' & Hsum & Hlost
                    & _).
  unfold GetMatlRequests.
  assert (Hno : Qltb eps
                  (inject_Z (n_reserves_ s') * batch_size_ s'
                   - ResourceBuff.quantity (reserves_ s')) = false).
  { apply Qltb_ge. subst s'. simpl.
    rewrite Hres in Hfill. rewrite quantity_app in *. simpl in Hfill.
    destruct Hlost as [Hzero | Hsmall]; lra. }
  rewrite Hno. rewrite andb_false_r. reflexivity.
Qed.

Lemma filled_order_is_not_repeated_witness :
  0 <= eps_cyclus /\ eps_cyclus <= eps_cyclus
  /\ inject_Z (n_reserves_ (set_n_reserves_ 3 (reactor_reserving [uox 10])))
     * batch_size_ (set_n_reserves_ 3 (reactor_reserving [uox 10]))
     - ResourceBuff.quantity
         (reserves_ (set_n_reserves_ 3 (reactor_reserving [uox 10])))
     <= Material.quantity (uox 20)
  /\ AddBatches_ eps_cyclus 3 (uox 20)
       (set_n_reserves_ 3 (reactor_reserving [uox 10]))
     = (set_n_reserves_ 3 (reactor_reserving [uox 10; uox 10; uox 10]),
        Ok tt)
  /\ GetMatlRequests eps_cyclus order_time_ahead context0
       (set_n_reserves_ 3 (reactor_reserving [uox 10; uox 10; uox 10]))
     = [].
Proof.
  assert (H1 : 0 <= eps_cyclus) by (vm_compute; discriminate).
  assert (H2 : eps_cyclus <= eps_cyclus) by (vm_compute; discriminate).
  assert (H3 : inject_Z (n_reserves_
                           (set_n_reserves_ 3 (reactor_reserving [uox 10])))
               * batch_size_
                   (set_n_reserves_ 3 (reactor_reserving [uox 10]))
               - ResourceBuff.quantity
                   (reserves_
                      (set_n_reserves_ 3 (reactor_reserving [uox 10])))
               <= Material.quantity (uox 20))
    by (vm_compute; discriminate).
  split; [exact H1|]. split; [exact H2|]. split; [exact H3|].
  split; [reflexivity|].
  exact (filled_order_is_not_repeated eps_cyclus eps_cyclus order_time_ahead
           context0 3 (uox 20)
           (set_n_reserves_ 3 (reactor_reserving [uox 10]))
           _ H1 H2 H3 eq_refl).
Defined.

(** ** Initialization: what it touches and how it fails *)

Ltac lazy_fields :=
  lazy beta iota delta
    [set_name_ set_process_time_ set_preorder_time_ set_start_time_
     set_n_batches_ set_n_load_ set_n_reserves_ set_refuel_time_
     set_batch_size_ set_in_commodity_ set_in_recipe_ set_out_commodity_
     set_out_recipe_ set_phase_ set_reserves_ set_core_ set_storage_
     set_commodities_
     name_ process_time_ preorder_time_ start_time_ n_batches_ n_load_
     n_reserves_ refuel_time_ batch_size_ in_commodity_ in_recipe_
     out_commodity_ out_recipe_ phase_ reserves_ core_ storage_
     commodities_].

Ltac lazy_fields_in H :=
  lazy beta iota delta
    [set_name_ set_process_time_ set_preorder_time_ set_start_time_
     set_n_batches_ set_n_load_ set_n_reserves_ set_refuel_time_
     set_batch_size_ set_in_commodity_ set_in_recipe_ set_out_commodity_
     set_out_recipe_ set_phase_ set_reserves_ set_core_ set_storage_
     set_commodities_
     name_ process_time_ preorder_time_ start_time_ n_batches_ n_load_
     n_reserves_ refuel_time_ batch_size_ in_commodity_ in_recipe_
     out_commodity_ out_recipe_ phase_ reserves_ core_ storage_
     commodities_] in H.

Lemma InitModuleMembers_frame (I : BatchReactor -> Prop)
  (lexical_cast_double : string -> result Q) (qe : QueryEngine) :
  (forall f s, I s ->
     I (set_commodities_ (f (commodities_ s)) s)) ->
  (forall v s, I s -> I (set_in_commodity_ v s)) ->
  (forall v s, I s -> I (set_in_recipe_ v s)) ->
  (forall v s, I s -> I (set_out_commodity_ v s)) ->
  (forall v s, I s -> I (set_out_recipe_ v s)) ->
  (forall v s, I s -> I (set_process_time_ v s)) ->
  (forall v s, I s -> I (set_n_batches_ v s)) ->
  (forall v s, I s -> I (set_batch_size_ v s)) ->
  (forall v s, I s -> I (set_refuel_time_ v s)) ->
  (forall v s, I s -> I (set_preorder_time_ v s)) ->
  (forall v s, I s -> I (set_n_load_ v s)) ->
  (forall v s, I s -> I (set_n_reserves_ v s)) ->
  preserves I (InitModuleMembers lexical_cast_double qe).
Proof.
  intros Hcm Hic Hir Hoc Hor Hpt Hnb Hbs Hrt Hot Hnl Hnr.
  unfold InitModuleMembers, AddCommodity, SetCapacity, SetCost.
  repeat (apply preserves_bind;
          [first [ apply preserves_lift
                 | apply preserves_get
                 | apply preserves_modify; intros s1 H1;
                   first [ apply Hic | apply Hir | apply Hoc | apply Hor
                         | apply Hpt | apply Hnb | apply Hbs | apply Hrt
                         | apply Hot | apply Hnl | apply Hnr
                         | apply (Hcm (fun l => l ++ [_]))
                         | apply (Hcm (update_commod _ _)) ];
                   exact H1 ]
          | intro ]).
  apply preserves_modify. intros s1 H1.
  apply (Hcm (update_commod _ _)). exact H1.
Qed.

(** X16. Whatever its outcome, [InitModuleMembers] writes configuration
    only: the name, the phase, the start time and the three buffers of the
    facility are as they were. *)
Theorem InitModuleMembers_writes_configuration_only
  (lexical_cast_double : string -> result Q) (qe : QueryEngine)
  (s : BatchReactor) :
  name_ (fst (InitModuleMembers lexical_cast_double qe s)) = name_ s
  /\ phase_ (fst (InitModuleMembers lexical_cast_double qe s)) = phase_ s
  /\ start_time_ (fst (InitModuleMembers lexical_cast_double qe s))
     = start_time_ s
  /\ reserves_ (fst (InitModuleMembers lexical_cast_double qe s))
     = reserves_ s
  /\ core_ (fst (InitModuleMembers lexical_cast_double qe s)) = core_ s
  /\ storage_ (fst (InitModuleMembers lexical_cast_double qe s))
     = storage_ s.
Proof.
  apply (InitModuleMembers_frame
           (fun s' => name_ s' = name_ s /\ phase_ s' = phase_ s
                      /\ start_time_ s' = start_time_ s
                      /\ reserves_ s' = reserves_ s
                      /\ core_ s' = core_ s /\ storage_ s' = storage_ s));
    try (intros ? s1 H1; exact H1).
  repeat split.
Qed.

Lemma bind_Ok_inv {A B : Type} (m : M A) (k : A -> M B)
  (s s' : BatchReactor) (b : B) :
  bind m k s = (s', Ok b) ->
  exists a s1, m s = (s1, Ok a) /\ k a s1 = (s', Ok b).
Proof.
  unfold bind. destruct (m s) as [s1 [a| e |]]; try discriminate.
  intro H. exists a, s1. split; [reflexivity | exact H].
Qed.

Lemma bind_Throw_inv {A B : Type} (m : M A) (k : A -> M B)
  (s s' : BatchReactor) (e : Error) :
  bind m k s = (s', Throw e) ->
  m s = (s', Throw e)
  \/ exists a s1, m s = (s1, Ok a) /\ k a s1 = (s', Throw e).
Proof.
  unfold bind. destruct (m s) as [s1 [a| e1 |]]; try discriminate.
  - intro H. right. exists a, s1. split; [reflexivity | exact H].
  - intro H. inversion H; subst. left. reflexivity.
Qed.

Lemma bind_lift_Throw {A B : Type} (r : result A) (e : Error)
  (k : A -> M B) (s : BatchReactor) :
  r = Throw e -> bind (lift r) k s = (s, Throw e).
Proof. intros ->. reflexivity. Qed.

Ltac invert_step H :=
  lazymatch type of H with
  | bind _ _ _ = _ =>
      let a := fresh "a" in
      let s1 := fresh "s" in
      let Hm := fresh "Hm" in
      let Hs := fresh "Hs" in
      let Ha := fresh "Ha" in
      apply bind_Ok_inv in H; destruct H as (a & s1 & Hm & H);
      unfold lift, get, modify, AddCommodity, SetCapacity, SetCost in Hm;
      lazy_fields_in Hm;
      injection Hm as Hs Ha; subst s1; try subst a
  end.

(** X17. When the configuration has no [norder] element, a successful
    initialization gives [n_reserves] the value [n_load] has then (the one
    read from [nreload], or the facility's former [n_load]), not the
    facility's former [n_reserves]. *)
Theorem InitModuleMembers_norder_default
  (lexical_cast_double : string -> result Q) (qe : QueryEngine)
  (s s' : BatchReactor) :
  InitModuleMembers lexical_cast_double qe s = (s', Ok tt) ->
  Query.find qe "norder" = None ->
  n_reserves_ s' = n_load_ s'.
Proof.
  intros H Hnone.
  destruct s as [nm pt0 ot0 st0 nb0 nl0 nr0 rt0 bs0 ic0 ir0 oc0 or0 ph0
                   res0 co0 sto0 cm0].
  unfold InitModuleMembers in H.
  repeat (invert_step H).
  unfold SetCost, modify in H. lazy_fields_in H.
  injection H as Hs'. subst s'.
  match goal with
  | Hn : Query.GetOptionalQuery_int qe "norder" _ = Ok _ |- _ =>
      unfold Query.GetOptionalQuery_int in Hn; rewrite Hnone in Hn;
      injection Hn as Hn
  end.
  lazy_fields. congruence.
Qed.

(** X18. Initialization is not atomic.  The batch size is read with
    [lexical_cast<int>]: when the [batchsize] element does not hold an
    integer (a fractional size, for instance), the cast error is thrown
    after the commodities, the recipes, the process time and the number of
    batches have been written, and these stay written. *)
Theorem InitModuleMembers_fails_half_way
  (lexical_cast_double : string -> result Q)
  (qe input output : QueryEngine)
  (incommodity inrecipe outcommodity outrecipe : string)
  (processtime nbatches batchsize : string)
  (pt nb : Z) (e : Error) (s : BatchReactor) :
  Query.QueryElement qe "fuel_input" = Ok input ->
  Query.GetElementContent input "incommodity" = Ok incommodity ->
  Query.GetElementContent input "inrecipe" = Ok inrecipe ->
  Query.QueryElement qe "fuel_output" = Ok output ->
  Query.GetElementContent output "outcommodity" = Ok outcommodity ->
  Query.GetElementContent output "outrecipe" = Ok outrecipe ->
  Query.GetElementContent qe "processtime" = Ok processtime ->
  Query.lexical_cast_int processtime = Ok pt ->
  Query.GetElementContent qe "nbatches" = Ok nbatches ->
  Query.lexical_cast_int nbatches = Ok nb ->
  Query.GetElementContent qe "batchsize" = Ok batchsize ->
  Query.lexical_cast_int batchsize = Throw e ->
  InitModuleMembers lexical_cast_double qe s
  = (set_n_batches_ nb
       (set_process_time_ pt
          (set_out_recipe_ outrecipe
             (set_out_commodity_ outcommodity
                (set_in_recipe_ inrecipe
                   (set_in_commodity_ incommodity s))))),
     Throw e).
Proof.
  intros Hin Hic Hir Hout Hoc Hor Hpt Hptv Hnb Hnbv Hbs Hbsv.
  unfold InitModuleMembers.
  rewrite (bind_lift_Ok _ _ _ _ Hin); cbv beta.
  rewrite (bind_lift_Ok _ _ _ _ Hic); cbv beta. rewrite bind_modify.
  rewrite (bind_lift_Ok _ _ _ _ Hir); cbv beta. rewrite bind_modify.
  rewrite (bind_lift_Ok _ _ _ _ Hout); cbv beta.
  rewrite (bind_lift_Ok _ _ _ _ Hoc); cbv beta. rewrite bind_modify.
  rewrite (bind_lift_Ok _ _ _ _ Hor); cbv beta. rewrite bind_modify.
  rewrite (bind_lift_Ok _ _ _ _ Hpt); cbv beta.
  rewrite (bind_lift_Ok _ _ _ _ Hptv); cbv beta. rewrite bind_modify.
  rewrite (bind_lift_Ok _ _ _ _ Hnb); cbv beta.
  rewrite (bind_lift_Ok _ _ _ _ Hnbv); cbv beta. rewrite bind_modify.
  rewrite (bind_lift_Ok _ _ _ _ Hbs); cbv beta.
  rewrite (bind_lift_Throw _ _ _ _ Hbsv).
  reflexivity.
Qed.

(** A configuration whose batch size is 10.5. *)
Lemma InitModuleMembers_fails_half_way_witness :
  InitModuleMembers lexical_cast_whole
    [("fuel_input",
      Query.Node [("incommodity", Query.Text "fresh_fuel");
                  ("inrecipe", Query.Text "uox")]);
     ("fuel_output",
      Query.Node [("outcommodity", Query.Text "spent_fuel");
                  ("outrecipe", Query.Text "spent_uox")]);
     ("processtime", Query.Text "5");
     ("nbatches", Query.Text "3");
     ("batchsize", Query.Text "10.5")]%string
    ConstructBatchReactor
  = (set_n_batches_ 3
       (set_process_time_ 5
          (set_out_recipe_ "spent_uox"
             (set_out_commodity_ "spent_fuel"
                (set_in_recipe_ "uox"
                   (set_in_commodity_ "fresh_fuel"
                      ConstructBatchReactor))))),
     Throw BadLexicalCast).
Proof.
  apply (InitModuleMembers_fails_half_way lexical_cast_whole _
           [("incommodity", Query.Text "fresh_fuel");
            ("inrecipe", Query.Text "uox")]%string
           [("outcommodity", Query.Text "spent_fuel");
            ("outrecipe", Query.Text "spent_uox")]%string
           "fresh_fuel" "uox" "spent_fuel" "spent_uox" "5" "3" "10.5"
           5 3 BadLexicalCast ConstructBatchReactor);
    reflexivity.
Defined.

Lemma throws_only_bind {A B : Type} (P : Error -> Prop) (m : M A)
  (k : A -> M B) :
  throws_only P m -> (forall a, throws_only P (k a)) ->
  throws_only P (bind m k).
Proof.
  intros Hm Hk s s' e H.
  apply bind_Throw_inv in H.
  destruct H as [H | (a & s1 & _ & H)].
  - apply (Hm _ _ _ H).
  - apply (Hk a _ _ _ H).
Qed.

Lemma throws_only_lift {A : Type} (P : Error -> Prop) (r : result A) :
  (forall e, r = Throw e -> P e) -> throws_only P (lift r).
Proof.
  intros Hr s s' e H. unfold lift in H. injection H as _ Hthrow.
  apply Hr. exact Hthrow.
Qed.

Lemma throws_only_modify (P : Error -> Prop)
  (f : BatchReactor -> BatchReactor) : throws_only P (modify f).
Proof. intros s s' e H. discriminate. Qed.

Lemma throws_only_get (P : Error -> Prop) : throws_only P get.
Proof. intros s s' e H. discriminate. Qed.

Lemma QueryElement_throws (qe : QueryEngine) (query : string) (e : Error) :
  Query.QueryElement qe query = Throw e -> e = KeyError.
Proof.
  unfold Query.QueryElement.
  destruct (Query.find qe query) as [[c|cs]|]; intro H;
    try discriminate.
  injection H as <-. reflexivity.
Qed.

Lemma GetElementContent_throws (qe : QueryEngine) (query : string)
  (e : Error) :
  Query.GetElementContent qe query = Throw e ->
  e = KeyError \/ e = ValueError.
Proof.
  unfold Query.GetElementContent.
  destruct (Query.find qe query) as [[c|cs]|]; intro H;
    try discriminate; injection H as <-; [right | left]; reflexivity.
Qed.

Lemma lexical_cast_int_throws (str : string) (e : Error) :
  Query.lexical_cast_int str = Throw e -> e = BadLexicalCast.
Proof.
  unfold Query.lexical_cast_int.
  destruct (match str with
            | String "-"%char rest => (true, rest)
            | String "+"%char rest => (false, rest)
            | _ => (false, str)
            end) as [negative body].
  destruct body as [|c body]; [intro H; injection H as <-; reflexivity|].
  destruct (Query.digits (String c body) 0) as [z|];
    [|intro H; injection H as <-; reflexivity].
  destruct ((-2147483648 <=? (if negative then - z else z))%Z
            && ((if negative then - z else z) <=? 2147483647)%Z);
    intro H; [discriminate | injection H as <-; reflexivity].
Qed.

Lemma GetOptionalQuery_int_throws (qe : QueryEngine) (query : string)
  (default : Z) (e : Error) :
  Query.GetOptionalQuery_int qe query default = Throw e ->
  e = KeyError \/ e = ValueError \/ e = BadLexicalCast.
Proof.
  unfold Query.GetOptionalQuery_int.
  destruct (Query.find qe query) as [el|]; [|discriminate].
  destruct (Query.GetElementContent qe query) as [data| e1 |] eqn:E;
    intro H.
  - right; right. apply (lexical_cast_int_throws data e H).
  - injection H as <-.
    destruct (GetElementContent_throws _ _ _ E) as [-> | ->];
      [left | right; left]; reflexivity.
  - discriminate.
Qed.

(** X19. [InitModuleMembers] raises no error of its own: whenever it
    throws, the error is that of a query for an element that is missing or
    holds no text, or that of a [lexical_cast] that failed.  No value that
    parses is ever refused. *)
Theorem InitModuleMembers_throws_query_or_cast_errors
  (lexical_cast_double : string -> result Q) (qe : QueryEngine)
  (s s' : BatchReactor) (e : Error) :
  InitModuleMembers lexical_cast_double qe s = (s', Throw e) ->
  e = KeyError \/ e = ValueError \/ e = BadLexicalCast
  \/ exists str, lexical_cast_double str = Throw e.
Proof.
  revert s s' e.
  change (throws_only
            (fun e => e = KeyError \/ e = ValueError \/ e = BadLexicalCast
                      \/ exists str, lexical_cast_double str = Throw e)
            (InitModuleMembers lexical_cast_double qe)).
  unfold InitModuleMembers, AddCommodity, SetCapacity, SetCost.
  repeat (apply throws_only_bind;
          [first [ apply throws_only_get
                 | apply throws_only_modify
                 | apply throws_only_lift; intros e He;
                   first
                     [ left; apply (QueryElement_throws _ _ _ He)
                     | destruct (GetElementContent_throws _ _ _ He)
                         as [-> | ->]; [left | right; left]; reflexivity
                     | right; right; left;
                       apply (lexical_cast_int_throws _ _ He)
                     | destruct (GetOptionalQuery_int_throws _ _ _ _ He)
                         as [-> | [-> | ->]];
                       [left | right; left | right; right; left];
                       reflexivity
                     | right; right; right; eexists; exact He ] ]
          | intro ]).
  apply throws_only_modify.
Qed.

(** ** Cloning *)

(** X20. The clone of a facility is that facility with its three buffers
    emptied, its phase set to INITIAL and its refuel time set to 0: it
    shares no material with the original, and it keeps the original's
    start time.  Cloning a clone changes nothing more. *)
Theorem Clone_is_an_empty_copy (this : BatchReactor) :
  Clone this = set_refuel_time_ 0 (set_phase_ INITIAL (controls this))
  /\ Clone (Clone this) = Clone this.
Proof. destruct this. split; reflexivity. Qed.

(** ** The registry of phase names *)

Lemma names_find_app (names more : PhaseNames) (p : Phase) :
  names_find (names ++ more) p
  = match names_find names p with
    | Some name => Some name
    | None => names_find more p
    end.
Proof.
  induction names as [|[q name] names IH]; simpl; [reflexivity|].
  destruct (Phase_eqb q p); [reflexivity | exact IH].
Qed.

Lemma names_find_insert (q : Phase) (name : string) (names : PhaseNames)
  (p : Phase) :
  names_find (names_insert q name names) p
  = match names_find names p with
    | Some old => Some old
    | None => if Phase_eqb q p then Some name else None
    end.
Proof.
  unfold names_insert.
  destruct (names_find names q) as [old|] eqn:Eq.
  - destruct (names_find names p) as [oldp|] eqn:Ep; [reflexivity|].
    destruct (Phase_eqb q p) eqn:E; [|reflexivity].
    destruct q, p; try discriminate; congruence.
  - rewrite names_find_app. simpl.
    destruct (names_find names p); reflexivity.
Qed.

(** X21. [SetUpPhaseNames_] gives every phase a name and never replaces a
    name that is registered already; the constructor runs it on an empty
    registry only, so however many facilities are constructed the registry
    holds the same three names. *)
Theorem phase_names_are_set_up_once :
  (forall names p,
     names_find (SetUpPhaseNames_ names) p
     = match names_find names p with
       | Some old => Some old
       | None =>
           Some match p with
                | INITIAL => "initialization"
                | PROCESS => "processing batch(es)"
                | WAITING => "waiting for fuel"
                end%string
       end)
  /\ (forall n,
        Nat.iter (S n) BatchReactor_ctor_names []
        = [(INITIAL, "initialization"); (PROCESS, "processing batch(es)");
           (WAITING, "waiting for fuel")]%string).
Proof.
  split.
  - intros names p. unfold SetUpPhaseNames_.
    rewrite !names_find_insert.
    destruct (names_find names p); [reflexivity|].
    destruct p; reflexivity.
  - induction n as [|n IH]; [reflexivity|].
    change (Nat.iter (S (S n)) BatchReactor_ctor_names [])
      with (BatchReactor_ctor_names
              (Nat.iter (S n) BatchReactor_ctor_names [])).
    rewrite IH. reflexivity.
Qed.

(** ** A discharge that was missed *)

Lemma call_off_schedule (eps_rsrc : Q) (BatchIn : ResourceBuff -> Q -> bool)
  (ctx : Context) (c : Callback) (s : BatchReactor) :
  phase_ s = PROCESS ->
  match c with
  | Tick now => (start_time_ s + process_time_ s < now)%Z
  | Tock _ => True
  | _ => False
  end ->
  call eps_rsrc BatchIn ctx c s = s.
Proof.
  intros Hphase Hc.
  destruct c as [now|now|fuel responses|trades]; simpl call;
    try contradiction.
  - rewrite (HandleTick_PROCESS (context_at ctx now) now s Hphase).
    unfold end_time.
    assert (E : (now =? start_time_ s + process_time_ s)%Z = false)
      by (apply Z.eqb_neq; lia).
    rewrite E. reflexivity.
  - rewrite HandleTock_cases, Hphase. reflexivity.
Qed.

(** X23. A discharge that was missed is never made up: once the time has
    passed [start_time + process_time] with the facility still in PROCESS,
    no later tick and no tock changes anything, so the facility stays in
    PROCESS with its core as it is.  This is also what happens to a
    facility whose [process_time] is not positive: the tick that starts the
    run is already at or past its end. *)
Theorem missed_discharge_is_never_made_up (eps_rsrc : Q)
  (BatchIn : ResourceBuff -> Q -> bool) (ctx : Context)
  (calls : list Callback) (s : BatchReactor) :
  phase_ s = PROCESS ->
  Forall (fun c => match c with
                   | Tick now => (start_time_ s + process_time_ s < now)%Z
                   | Tock _ => True
                   | _ => False
                   end) calls ->
  fold_left (fun s' c => call eps_rsrc BatchIn ctx c s') calls s = s.
Proof.
  intros Hphase Hcalls.
  induction Hcalls as [|c calls Hc _ IH]; [reflexivity|].
  simpl. rewrite (call_off_schedule eps_rsrc BatchIn ctx c s Hphase Hc).
  exact IH.
Qed.

Lemma missed_discharge_is_never_made_up_witness :
  phase_ reactor_processing = PROCESS
  /\ fold_left (fun s' c => call eps_cyclus BatchIn_front context0 c s')
       [Tick 6; Tock 6; Tick 7] reactor_processing
     = reactor_processing.
Proof.
  split; [reflexivity|].
  apply (missed_discharge_is_never_made_up eps_cyclus BatchIn_front context0
           [Tick 6; Tock 6; Tick 7] reactor_processing eq_refl).
  repeat constructor.
Defined.

(** ** Further worked instances *)

Lemma discharge_short_core_witness :
  phase_ (set_n_load_ 4 reactor_processing) = PROCESS
  /\ (List.length (core_ (set_n_load_ 4 reactor_processing))
      < Z.to_nat (n_load_ (set_n_load_ 4 reactor_processing)))%nat
  /\ HandleTick context0 5 (set_n_load_ 4 reactor_processing)
     = (set_storage_ [spent 10; spent 10; spent 10]
          (set_core_ [] (set_n_load_ 4 reactor_processing)),
        Throw EmptyBufferError).
Proof.
  split; [reflexivity|]. split; [simpl; lia|].
  apply (discharge_short_core context0 (set_n_load_ 4 reactor_processing)
           eq_refl).
  simpl; lia.
Defined.

Lemma core_never_overfills_witness :
  (ResourceBuff.count (core_ reactor_primed) <= n_batches_ reactor_primed)%Z
  /\ (ResourceBuff.count
        (core_
           (call eps_cyclus BatchIn_front context0 (Tock 2)
              (call eps_cyclus BatchIn_front context0 (Tick 2)
                 (call eps_cyclus BatchIn_front context0 (Tick 0)
                    reactor_primed))))
      <= n_batches_
           (call eps_cyclus BatchIn_front context0 (Tock 2)
              (call eps_cyclus BatchIn_front context0 (Tick 2)
                 (call eps_cyclus BatchIn_front context0 (Tick 0)
                    reactor_primed))))%Z.
Proof.
  assert (H0 : (ResourceBuff.count (core_ reactor_primed)
                <= n_batches_ reactor_primed)%Z) by (vm_compute; discriminate).
  split; [exact H0|].
  exact (core_never_overfills eps_cyclus BatchIn_front context0
           reactor_primed _ _
           (history_call eps_cyclus BatchIn_front context0 reactor_primed
              _ _ (Tock 2)
              (history_call eps_cyclus BatchIn_front context0 reactor_primed
                 _ _ (Tick 2)
                 (history_call eps_cyclus BatchIn_front context0
                    reactor_primed _ _ (Tick 0)
                    (history_start eps_cyclus BatchIn_front context0
                       reactor_primed))))
           H0).
Defined.

Lemma InitModuleMembers_norder_default_witness :
  Query.find (("nreload"%string, Query.Text "2") :: config_out_of_range)
    "norder" = None
  /\ snd (InitModuleMembers lexical_cast_whole
            (("nreload"%string, Query.Text "2") :: config_out_of_range)
            ConstructBatchReactor)
     = Ok tt
  /\ n_reserves_
       (fst (InitModuleMembers lexical_cast_whole
               (("nreload"%string, Query.Text "2") :: config_out_of_range)
               ConstructBatchReactor))
     = n_load_
         (fst (InitModuleMembers lexical_cast_whole
                 (("nreload"%string, Query.Text "2") :: config_out_of_range)
                 ConstructBatchReactor)).
Proof.
  split; [reflexivity|]. split; [reflexivity|].
  apply (InitModuleMembers_norder_default lexical_cast_whole
           (("nreload"%string, Query.Text "2") :: config_out_of_range)
           ConstructBatchReactor).
  - vm_compute. reflexivity.
  - reflexivity.
Defined.

(** With [nreload] 2 and no [norder], both [n_load] and [n_reserves]
    become 2. *)
Example norder_follows_nreload :
  n_reserves_
    (fst (InitModuleMembers lexical_cast_whole
            (("nreload"%string, Query.Text "2") :: config_out_of_range)
            ConstructBatchReactor))
  = 2%Z.
Proof. reflexivity. Qed.

Lemma InitModuleMembers_throws_query_or_cast_errors_witness :
  InitModuleMembers lexical_cast_whole [] ConstructBatchReactor
  = (ConstructBatchReactor, Throw KeyError)
  /\ (KeyError = KeyError \/ KeyError = ValueError
      \/ KeyError = BadLexicalCast
      \/ exists str, lexical_cast_whole str = Throw KeyError).
Proof.
  split; [reflexivity|].
  exact (InitModuleMembers_throws_query_or_cast_errors lexical_cast_whole []
           ConstructBatchReactor ConstructBatchReactor KeyError eq_refl).
Defined.
